(** * The technical-signal engine of the trading advisor

    A shallow embedding of the engine functions of
    [advanced_trading_system.py] ([analyze_trend],
    [calculate_support_resistance], [generate_entry_exit_levels],
    [calculate_risk_management]) and of [calculate_rsi]
    ([enhanced_backend.py], [quick_start.py], [complete_trading_app.py]:
    three identical copies), with the properties of the specification
    stated and proved over it.  Further modules embed the code around
    them: the in-memory cache, [generate_trading_signal] and the routes
    [get_signals] and [batch_signals] of [enhanced_backend.py],
    [get_historical_data] and [generate_signal] of [quick_start.py],
    and the volume status of [analyze_market_context].  The download
    ([yfinance]), the clock and the [signals] table enter as arguments:
    an [outcome] per download, an instant per reading of the clock, the
    list of rows in insertion order and, in [Backend], the outcome of
    the write.

    Numbers.  The program computes on IEEE doubles held in pandas Series
    and numpy scalars.  A number is a [pyfloat]: a rational, or one of
    the special values +inf, -inf and NaN, with the IEEE rules for the
    special values (division by zero yields an infinity or NaN, every
    ordered comparison with NaN is false).  The sign of zero is not
    represented.  The arithmetic on the rationals is given twice.

    - [Num], and [Engine], [Rsi], [Signal] and [Routes] over it, compute
      without rounding.  They carry the properties in which the rounding
      of a finite result plays no part: what is raised and when, which
      special value comes out of a degenerate input, the shape of the
      results, the pivots and their order, the cache, the routes.
    - [Ieee] rounds every result to the nearest double (ties to even,
      overflow to an infinity), and [Fp] and [Backend] are the functions
      of the source with every operation rounded as the source performs
      it.  They carry the properties about the values themselves: the
      trend and signal decisions, the order of the levels, the
      risk/reward ratio, the range of RSI, the volume status.

    The prices come out of a DataFrame as numpy.float64 scalars, so the
    scalar divisions of the engine follow numpy: they never raise (the
    module silences the warnings with
    [warnings.filterwarnings('ignore')]).

    Libraries.  [talib.ATR] and [talib.ADX] belong to a library outside
    the repository.  The expression [talib.X(...).iloc[-1]] is an
    argument of the embedding: a function from the data to an [outcome],
    either a returned number (possibly NaN) or a raised exception, which
    is what the surrounding [try]/[except] of the source distinguishes.
    In [Fp] the double that pandas holds in [xs.rolling(w).mean()] at a
    position with a full window is an argument as well: pandas computes
    it with a running, compensated sum, and which double comes out is a
    matter of that library.  The properties hold for every such
    function; the examples use the mean by a rounded sum from left to
    right. *)

From Stdlib Require Import QArith Qabs Qminmax Qround Lqa Lia List Sorted SetoidList.
From stdpp Require Import gmap strings.
Import ListNotations.

(** ** Exceptions and results *)

Inductive exn : Type :=
| IndexError
| OverflowError
| ValueError
| TypeError
| LibraryError.

Inductive outcome (A : Type) : Type :=
| Returned (a : A)
| Raised (e : exn).
Arguments Returned {A} a.
Arguments Raised {A} e.

(** Sequencing that stops at the first exception, written
    [x ← c; k] with stdpp's monad notation. *)
#[global] Instance outcome_ret : MRet outcome := fun A a => Returned a.

#[global] Instance outcome_bind : MBind outcome := fun A B k c =>
  match c with
  | Returned a => k a
  | Raised e => Raised e
  end.

(** [try: x = c  except: x = h] *)
Definition try_except {A : Type} (c : outcome A) (h : A) : A :=
  match c with
  | Returned a => a
  | Raised _ => h
  end.

(** ** Numbers *)

(** The numbers with the special values, their comparisons, and the
    four operations without rounding: on finite numbers they are those
    of the rationals ([Ieee] below rounds them). *)
Module Num.
Local Open Scope Q_scope.

Inductive pyfloat : Type :=
| Fin (q : Q)
| PInf
| NInf
| NaN.

Definition Qltb (a b : Q) : bool := negb (Qle_bool b a).

(** The infinity that a non-zero rational of sign [0 ?= q] selects;
    NaN for zero. *)
Definition signed_inf (c : comparison) : pyfloat :=
  match c with
  | Lt => PInf
  | Gt => NInf
  | Eq => NaN
  end.

Definition fneg (x : pyfloat) : pyfloat :=
  match x with
  | Fin q => Fin (- q)
  | PInf => NInf
  | NInf => PInf
  | NaN => NaN
  end.

Definition fabs (x : pyfloat) : pyfloat :=
  match x with
  | Fin q => Fin (Qabs q)
  | PInf | NInf => PInf
  | NaN => NaN
  end.

Definition fadd (x y : pyfloat) : pyfloat :=
  match x, y with
  | NaN, _ | _, NaN => NaN
  | Fin a, Fin b => Fin (a + b)
  | PInf, NInf | NInf, PInf => NaN
  | PInf, _ | _, PInf => PInf
  | NInf, _ | _, NInf => NInf
  end.

Definition fsub (x y : pyfloat) : pyfloat := fadd x (fneg y).

Definition fmul (x y : pyfloat) : pyfloat :=
  match x, y with
  | NaN, _ | _, NaN => NaN
  | Fin a, Fin b => Fin (a * b)
  | Fin a, PInf | PInf, Fin a => signed_inf (0 ?= a)
  | Fin a, NInf | NInf, Fin a => fneg (signed_inf (0 ?= a))
  | PInf, PInf | NInf, NInf => PInf
  | PInf, NInf | NInf, PInf => NInf
  end.

(** numpy division: no exception, x/0 is an infinity, 0/0 is NaN. *)
Definition fdiv (x y : pyfloat) : pyfloat :=
  match x, y with
  | NaN, _ | _, NaN => NaN
  | Fin a, Fin b => if Qeq_bool b 0 then signed_inf (0 ?= a) else Fin (a / b)
  | Fin _, PInf | Fin _, NInf => Fin 0
  | PInf, Fin b => match 0 ?= b with Gt => NInf | _ => PInf end
  | NInf, Fin b => match 0 ?= b with Gt => PInf | _ => NInf end
  | _, _ => NaN
  end.

Definition fltb (x y : pyfloat) : bool :=
  match x, y with
  | Fin a, Fin b => Qltb a b
  | NInf, Fin _ | NInf, PInf | Fin _, PInf => true
  | _, _ => false
  end.

Definition fgtb (x y : pyfloat) : bool := fltb y x.

Definition feqb (x y : pyfloat) : bool :=
  match x, y with
  | Fin a, Fin b => Qeq_bool a b
  | PInf, PInf | NInf, NInf => true
  | _, _ => false
  end.

(** Python's builtin [min(a, b)] and [max(a, b)]: the first argument
    unless the second is strictly smaller (larger). *)
Definition py_min (a b : pyfloat) : pyfloat := if fltb b a then b else a.
Definition py_max (a b : pyfloat) : pyfloat := if fgtb b a then b else a.

(** Python's [int(x)]: truncation toward zero; raises on inf and NaN. *)
Definition py_int (x : pyfloat) : outcome Z :=
  match x with
  | Fin q => Returned (Z.quot (Qnum q) (Zpos (Qden q)))
  | PInf | NInf => Raised OverflowError
  | NaN => Raised ValueError
  end.

End Num.
Export Num.

(** ** pandas Series and DataFrame operations used by the engine *)

Module Pandas.
Local Open Scope Q_scope.

(** A float64 Series (positional index only). *)
Definition Series : Type := list pyfloat.

(** One OHLCV row; a price series holds finite numbers. *)
Record Bar : Type := mkBar {
  Open : Q;
  High : Q;
  Low : Q;
  Close : Q;
  Volume : Q
}.

Definition DataFrame : Type := list Bar.

(** [data[c]] as a Series. *)
Definition col (c : Bar -> Q) (data : DataFrame) : Series :=
  map (fun b => Fin (c b)) data.

(** [xs.iloc[-1]] *)
Fixpoint iloc_last {A : Type} (xs : list A) : outcome A :=
  match xs with
  | [] => Raised IndexError
  | [x] => Returned x
  | _ :: r => iloc_last r
  end.

(** [xs.iloc[i]] *)
Definition iloc {A : Type} (xs : list A) (i : nat) : outcome A :=
  match nth_error xs i with
  | Some x => Returned x
  | None => Raised IndexError
  end.

(** The [len] elements of [xs] from position [start]. *)
Definition window {A : Type} (xs : list A) (start len : nat) : list A :=
  firstn len (skipn start xs).

Definition fsum (xs : Series) : pyfloat := fold_left fadd xs (Fin 0).

(** The same sum over finite numbers. *)
Definition Qsum (xs : list Q) : Q := fold_left Qplus xs 0.

Definition of_nat (n : nat) : pyfloat := Fin (inject_Z (Z.of_nat n)).

(** [xs.rolling(w).mean()]: NaN until the window is full, then the mean
    of the [w] values ending at the position. *)
Definition rolling_mean (w : nat) (xs : Series) : Series :=
  map (fun i =>
         if (i + 1 <? w)%nat then NaN
         else fdiv (fsum (window xs (i + 1 - w) w)) (of_nat w))
      (seq 0 (length xs)).

Definition fmax2 (a b : pyfloat) : pyfloat :=
  match a, b with
  | NaN, _ | _, NaN => NaN
  | _, _ => if fltb a b then b else a
  end.

Definition fmin2 (a b : pyfloat) : pyfloat :=
  match a, b with
  | NaN, _ | _, NaN => NaN
  | _, _ => if fltb b a then b else a
  end.

Definition reduce (f : pyfloat -> pyfloat -> pyfloat) (xs : Series) : pyfloat :=
  match xs with
  | [] => NaN
  | x :: r => fold_left f r x
  end.

(** [xs.rolling(window=w, center=True).agg()]: the window of position
    [i] is [i - (w-1)/2 .. i - (w-1)/2 + w - 1]; NaN where it does not
    fit in the Series. *)
Definition rolling_center (f : pyfloat -> pyfloat -> pyfloat) (w : nat) (xs : Series) : Series :=
  let off := ((w - 1) / 2)%nat in
  map (fun i =>
         if ((i <? off) || (length xs <? i - off + w))%nat then NaN
         else reduce f (window xs (i - off) w))
      (seq 0 (length xs)).

Definition rolling_center_max := rolling_center fmax2.
Definition rolling_center_min := rolling_center fmin2.

(** [xs.diff()] *)
Fixpoint diff_from (prev : pyfloat) (xs : Series) : Series :=
  match xs with
  | [] => []
  | x :: r => fsub x prev :: diff_from x r
  end.

Definition diff (xs : Series) : Series :=
  match xs with
  | [] => []
  | x :: r => NaN :: diff_from x r
  end.

(** [xs.where(cond, other)] with an elementwise condition. *)
Definition where_ (cond : pyfloat -> bool) (other : pyfloat) (xs : Series) : Series :=
  map (fun x => if cond x then x else other) xs.

(** Elementwise operations. *)
Definition sneg (xs : Series) : Series := map fneg xs.

Fixpoint sdiv (xs ys : Series) : Series :=
  match xs, ys with
  | x :: xr, y :: yr => fdiv x y :: sdiv xr yr
  | _, _ => []
  end.

End Pandas.
Export Pandas.

(** ** Python builtins on lists of levels *)

Module Py.
Local Open Scope Q_scope.

(** [list(set(xs))] on floats: one representative of each value (the
    iteration order of a set is unspecified; every use below sorts). *)
Fixpoint py_set (xs : list Q) : list Q :=
  match xs with
  | [] => []
  | x :: r => if existsb (Qeq_bool x) r then py_set r else x :: py_set r
  end.

(** [sorted]: a stable sort, here by insertion; [le x y] tells that [x]
    may stand before [y]. *)
Fixpoint insert_sorted (le : Q -> Q -> bool) (x : Q) (l : list Q) : list Q :=
  match l with
  | [] => [x]
  | y :: r => if le x y then x :: y :: r else y :: insert_sorted le x r
  end.

Fixpoint py_sorted (le : Q -> Q -> bool) (xs : list Q) : list Q :=
  match xs with
  | [] => []
  | x :: r => insert_sorted le x (py_sorted le r)
  end.

(** [sorted(xs)] and [sorted(xs, reverse=True)] *)
Definition sorted (xs : list Q) : list Q := py_sorted Qle_bool xs.
Definition sorted_reverse (xs : list Q) : list Q :=
  py_sorted (fun x y => Qle_bool y x) xs.

(** [min(xs, default=d)] and [max(xs, default=d)]: the first extremal
    element, [d] on an empty list. *)
Definition min_default (xs : list pyfloat) (d : pyfloat) : pyfloat :=
  match xs with
  | [] => d
  | x :: r => fold_left py_min r x
  end.

Definition max_default (xs : list pyfloat) (d : pyfloat) : pyfloat :=
  match xs with
  | [] => d
  | x :: r => fold_left py_max r x
  end.

(** [range(a, b)] *)
Definition range (a b : nat) : list nat := seq a (b - a).

End Py.
Export Py.

(** ** advanced_trading_system.py *)

(** Values held by the [levels] dictionary. *)
Inductive pyval : Type :=
| VStr (s : string)
| VNum (x : pyfloat).

(** The numeric result of [calculate_risk_management]; the source formats
    [risk_per_trade], [risk_per_share] and [total_risk] as text, the
    numbers are kept here. *)
Record RiskAssessment : Type := mkRisk {
  account_size : pyfloat;
  risk_per_trade : pyfloat;
  risk_per_share : pyfloat;
  max_position_size : Z;
  total_risk : pyfloat
}.

Inductive risk_result : Type :=
| Message (m : string)
| Sizing (r : RiskAssessment).

Module Engine.
Local Open Scope Q_scope.

Section WithIndicators.

(** [talib.ATR(data['High'], data['Low'], data['Close'], timeperiod=14).iloc[-1]]
    and the same expression for [talib.ADX]. *)
Variable talib_ATR : DataFrame -> outcome pyfloat.
Variable talib_ADX : DataFrame -> outcome pyfloat.

(** [try: adx = talib.ADX(...).iloc[-1]  except: adx = 25] *)
Definition trend_strength (data : DataFrame) : pyfloat :=
  try_except (talib_ADX data) (Fin 25).

(** [try: atr = talib.ATR(...).iloc[-1]  except: atr = current_price * 0.02] *)
Definition atr_or_fallback (data : DataFrame) (current_price : pyfloat) : pyfloat :=
  try_except (talib_ATR data) (fmul current_price (Fin (2 # 100))).

(** Returns [(trend, strength)]. *)
Definition analyze_trend (data : DataFrame) : outcome (string * pyfloat) :=
  if (length data <? 50)%nat then Returned ("Insufficient Data", Fin 0)
  else
    sma_20 ← iloc_last (rolling_mean 20 (col Close data));
    sma_50 ← iloc_last (rolling_mean 50 (col Close data));
    current_price ← iloc_last (col Close data);
    let adx := trend_strength data in
    if fgtb current_price sma_20 && fgtb sma_20 sma_50 then
      Returned ("Uptrend", py_min adx (Fin 100))
    else if fltb current_price sma_20 && fltb sma_20 sma_50 then
      Returned ("Downtrend", py_min adx (Fin 100))
    else
      Returned ("Sideways",
                if fgtb adx (Fin 25) then py_max (fsub (Fin 25) adx) (Fin 0)
                else Fin 25).

(** The loop [for i in range(2, len(data)-2)] appending [data[c].iloc[i]]
    where it equals the rolling extremum [ext.iloc[i]]; every index of
    the range is inside both Series. *)
Definition pivot_candidates (c : Bar -> Q) (ext : Series) (data : DataFrame) : list Q :=
  flat_map (fun i =>
              match nth_error data i, nth_error ext i with
              | Some b, Some e => if feqb (Fin (c b)) e then [c b] else []
              | _, _ => []
              end)
           (range 2 (length data - 2)).

Definition resistance_candidates (data : DataFrame) : list Q :=
  pivot_candidates High (rolling_center_max 5 (col High data)) data.

Definition support_candidates (data : DataFrame) : list Q :=
  pivot_candidates Low (rolling_center_min 5 (col Low data)) data.

(** Returns [(support_levels, resistance_levels)]. *)
Definition calculate_support_resistance (data : DataFrame) : list Q * list Q :=
  if (length data <? 20)%nat then ([], [])
  else
    let resistance_levels := resistance_candidates data in
    let support_levels := support_candidates data in
    let resistance_levels := firstn 5 (sorted_reverse (py_set resistance_levels)) in
    let support_levels := firstn 5 (sorted (py_set support_levels)) in
    (support_levels, resistance_levels).

(** A dictionary literal. *)
Definition dict (kvs : list (string * pyval)) : gmap string pyval :=
  list_to_map kvs.

(** Returns the [levels] dictionary; raises IndexError on an empty
    DataFrame, at [data['Close'].iloc[-1]]. *)
Definition generate_entry_exit_levels (data : DataFrame) (trend : string)
  : outcome (gmap string pyval) :=
  current_price ← iloc_last (col Close data);
  let atr := atr_or_fallback data current_price in
  let '(support_levels, resistance_levels) := calculate_support_resistance data in
  if String.eqb trend "Uptrend" then
    let entry_price := current_price in
    let stop_loss := fsub current_price (fmul (Fin 2) atr) in
    let take_profit_1 := fadd current_price (fmul (Fin 2) atr) in
    let take_profit_2 := fadd current_price (fmul (Fin 4) atr) in
    let take_profit_1 :=
      match resistance_levels with
      | [] => take_profit_1
      | _ =>
          let nearest_resistance :=
            min_default
              (List.filter (fun r => fgtb r current_price) (map Fin resistance_levels))
              take_profit_1 in
          py_min take_profit_1 nearest_resistance
      end in
    Returned (dict [("direction", VStr "LONG");
                    ("entry", VNum entry_price);
                    ("stop_loss", VNum stop_loss);
                    ("take_profit_1", VNum take_profit_1);
                    ("take_profit_2", VNum take_profit_2);
                    ("risk_reward",
                     VNum (fdiv (fsub take_profit_1 entry_price)
                                (fsub entry_price stop_loss)))])
  else if String.eqb trend "Downtrend" then
    let entry_price := current_price in
    let stop_loss := fadd current_price (fmul (Fin 2) atr) in
    let take_profit_1 := fsub current_price (fmul (Fin 2) atr) in
    let take_profit_2 := fsub current_price (fmul (Fin 4) atr) in
    let take_profit_1 :=
      match support_levels with
      | [] => take_profit_1
      | _ =>
          let nearest_support :=
            max_default
              (List.filter (fun s => fltb s current_price) (map Fin support_levels))
              take_profit_1 in
          py_max take_profit_1 nearest_support
      end in
    Returned (dict [("direction", VStr "SHORT");
                    ("entry", VNum entry_price);
                    ("stop_loss", VNum stop_loss);
                    ("take_profit_1", VNum take_profit_1);
                    ("take_profit_2", VNum take_profit_2);
                    ("risk_reward",
                     VNum (fdiv (fsub entry_price take_profit_1)
                                (fsub stop_loss entry_price)))])
  else
    Returned (dict [("direction", VStr "WAIT");
                    ("message", VStr "No clear trend - wait for breakout")]).

End WithIndicators.

(** [levels.get('direction') == 'WAIT'] *)
Definition direction_is_wait (levels : gmap string pyval) : bool :=
  match levels !! "direction" with
  | Some (VStr s) => String.eqb s "WAIT"
  | _ => false
  end.

(** [position_size] is a Python float divided by a numpy scalar: the
    numpy scalar's reflected division runs, so a zero [risk_per_share]
    gives inf, and it is [int(position_size)] that raises. *)
Definition calculate_risk_management (current_price : pyfloat)
    (levels : gmap string pyval) : outcome risk_result :=
  if direction_is_wait levels then Returned (Message "No position recommended")
  else
    let account_size := Fin 10000 in
    let risk_per_trade := Fin (2 # 100) in
    match levels !! "stop_loss" with
    | Some (VNum stop_loss) =>
        let risk_per_share := fabs (fsub current_price stop_loss) in
        let position_size := fdiv (fmul account_size risk_per_trade) risk_per_share in
        max_shares ← py_int position_size;
        Returned (Sizing (mkRisk account_size risk_per_trade risk_per_share
                                 max_shares
                                 (fmul (Fin (inject_Z max_shares)) risk_per_share)))
    | Some (VStr _) => Raised TypeError
    | None => Returned (Message "Risk calculation unavailable")
    end.

End Engine.

(** ** enhanced_backend.py, quick_start.py, complete_trading_app.py *)

Module Rsi.
Local Open Scope Q_scope.

(** [delta.where(delta > 0, 0).rolling(window=period).mean()] and
    [(-delta.where(delta < 0, 0)).rolling(window=period).mean()], with
    [delta = prices.diff()]: the Series named [gain] and [loss]. *)
Definition gain (prices : Series) (period : nat) : Series :=
  let delta := diff prices in
  rolling_mean period (where_ (fun d => fgtb d (Fin 0)) (Fin 0) delta).

Definition loss (prices : Series) (period : nat) : Series :=
  let delta := diff prices in
  rolling_mean period (sneg (where_ (fun d => fltb d (Fin 0)) (Fin 0) delta)).

Definition calculate_rsi (prices : Series) (period : nat) : Series :=
  let rs := sdiv (gain prices period) (loss prices period) in
  map (fun r => fsub (Fin 100) (fdiv (Fin 100) (fadd (Fin 1) r))) rs.

End Rsi.


(** ** Notions used in the statements *)

Module Notions.
Local Open Scope Q_scope.

(** SMA(n) at the last bar: the mean of the last [n] closes. *)
Definition SMA (n : nat) (data : DataFrame) : Q :=
  Qsum (map Close (window data (length data - n) n)) / inject_Z (Z.of_nat n).

(** The value stored under [key] is the finite number [q]. *)
Definition field (levels : gmap string pyval) (key : string) (q : Q) : Prop :=
  levels !! key = Some (VNum (Fin q)).




(** Strictly descending and strictly ascending lists of levels. *)
Definition descending (l : list Q) : Prop := StronglySorted (fun a b => b < a) l.
Definition ascending (l : list Q) : Prop := StronglySorted Qlt l.

(** The candidate nearest above (below) the price [p], if any. *)
Definition nearest_above (p : Q) (cands : list Q) : option Q :=
  match List.filter (fun c => Qltb p c) cands with
  | [] => None
  | x :: r => Some (fold_left Qmin r x)
  end.

Definition nearest_below (p : Q) (cands : list Q) : option Q :=
  match List.filter (fun c => Qltb c p) cands with
  | [] => None
  | x :: r => Some (fold_left Qmax r x)
  end.

(** [target] lowered to the nearest level above [close], when there is
    one below [target]; and the mirror image. *)
Definition clamp_down (target close : Q) (levels : list Q) : Q :=
  match nearest_above close levels with
  | Some r => Qmin target r
  | None => target
  end.

Definition clamp_up (target close : Q) (levels : list Q) : Q :=
  match nearest_below close levels with
  | Some s => Qmax target s
  | None => target
  end.

(** The reading of "the kept levels start from the nearest candidate
    above (below) the current price" that every other reading implies:
    with more than 5 distinct candidates on a side, the candidate nearest
    to the close of the last bar is among the levels kept on that side. *)
Definition keeps_nearest_levels (data : DataFrame) : Prop :=
  forall close : Q,
    iloc_last (map Close data) = Returned close ->
    ((5 < length (py_set (Engine.resistance_candidates data)))%nat ->
     forall r, nearest_above close (Engine.resistance_candidates data) = Some r ->
               InA Qeq r (snd (Engine.calculate_support_resistance data))) /\
    ((5 < length (py_set (Engine.support_candidates data)))%nat ->
     forall s, nearest_below close (Engine.support_candidates data) = Some s ->
               InA Qeq s (fst (Engine.calculate_support_resistance data))).

End Notions.
Export Notions.

(** ** Sample inputs *)

Module Samples.
Local Open Scope Q_scope.

(** [n] identical bars at price [p]. *)
Definition flat (n : nat) (p : Q) : DataFrame := repeat (mkBar p p p p 1000) n.

(** [n] bars whose close rises by one from 101. *)
Definition rising (n : nat) : DataFrame :=
  map (fun i => let p := inject_Z (101 + Z.of_nat i) in
                mkBar p (p + 1) (p - 1) p 1000)
      (seq 0 n).

(** [n] bars whose close falls by one from 300. *)
Definition falling (n : nat) : DataFrame :=
  map (fun i => let p := inject_Z (300 - Z.of_nat i) in
                mkBar p (p + 1) (p - 1) p 1000)
      (seq 0 n).

(** 21 bars closing at 100 with six pivot highs 105..110 and six pivot
    lows 95..90, three bars apart. *)
Definition six_pivots : DataFrame :=
  map (fun hl : Q * Q => mkBar 100 (fst hl) (snd hl) 100 1000)
      [(101, 99); (101, 99); (105, 99); (101, 95); (101, 99); (106, 99);
       (101, 94); (101, 99); (107, 99); (101, 93); (101, 99); (108, 99);
       (101, 92); (101, 99); (109, 99); (101, 91); (101, 99); (110, 99);
       (101, 90); (101, 99); (101, 99)].

Definition adx_is (x : pyfloat) : DataFrame -> outcome pyfloat :=
  fun _ => Returned x.

Definition atr_is (x : pyfloat) : DataFrame -> outcome pyfloat :=
  fun _ => Returned x.

Definition indicator_fails : DataFrame -> outcome pyfloat :=
  fun _ => Raised LibraryError.

End Samples.
Export Samples.

(** ** enhanced_backend.py: the in-memory cache *)

Module Cache.
Local Open Scope Q_scope.

Section WithPayload.

(** The cached payloads (dictionaries ready for [jsonify]). *)
Context {A : Type}.

(** The module-level dictionaries [cache] and [cache_expiry].  An
    instant is a point of a rational time line counted in minutes;
    [now] is the value of [datetime.now()] at the call. *)
Record store : Type := mkStore {
  cache : gmap string A;
  cache_expiry : gmap string Q
}.

(** The parameter [expiry_minutes] is not used by the body. *)
Definition get_cached_data (now : Q) (key : string) (expiry_minutes : Z)
    (st : store) : option A :=
  match cache st !! key, cache_expiry st !! key with
  | Some data, Some expiry => if Qltb now expiry then Some data else None
  | _, _ => None
  end.

Definition set_cache (now : Q) (key : string) (data : A) (expiry_minutes : Z)
    (st : store) : store :=
  mkStore (<[key := data]> (cache st))
          (<[key := now + inject_Z expiry_minutes]> (cache_expiry st)).

(** [[key for key, expiry in cache_expiry.items() if current_time > expiry]] *)
Definition expired_keys (current_time : Q) (st : store) : list string :=
  map fst (List.filter (fun ke : string * Q => Qltb (snd ke) current_time)
                       (map_to_list (cache_expiry st))).

(** One round of the loop of [cleanup_cache], after its [sleep]: both
    dictionaries lose every expired key. *)
Definition cleanup_cache_round (current_time : Q) (st : store) : store :=
  fold_left (fun s key => mkStore (delete key (cache s)) (delete key (cache_expiry s)))
            (expired_keys current_time st) st.

End WithPayload.
Arguments store A : clear implicits.

End Cache.

(** ** quick_start.py and enhanced_backend.py: the trading signal *)

Module Signal.
Local Open Scope Q_scope.

(** The price history with the three indicator columns that
    [get_historical_data] adds. *)
Record History : Type := mkHistory {
  bars : DataFrame;
  SMA_20 : Series;
  SMA_50 : Series;
  RSI : Series
}.

(** [get_historical_data]; [fetched] is the outcome of
    [yf.Ticker(symbol).history(period=period)].  Any exception gives an
    empty frame. *)
Definition get_historical_data (fetched : outcome DataFrame) : History :=
  match fetched with
  | Returned hist =>
      mkHistory hist
                (rolling_mean 20 (col Close hist))
                (rolling_mean 50 (col Close hist))
                (Rsi.calculate_rsi (col Close hist) 14)
  | Raised _ => mkHistory [] [] [] []
  end.

(** The [if]/[elif]/[else] shared by [generate_signal] and
    [generate_trading_signal]: the signal and its confidence. *)
Definition signal_logic (current_price sma_20 sma_50 rsi : pyfloat) : string * Q :=
  if fgtb current_price sma_20 && fgtb sma_20 sma_50 && fltb rsi (Fin 70) then
    ("BUY", 8 # 10)
  else if fltb current_price sma_20 && fltb sma_20 sma_50 && fgtb rsi (Fin 30) then
    ("SELL", 7 # 10)
  else
    ("HOLD", 5 # 10).

(** quick_start.py [generate_signal]: returns
    [(signal, confidence, indicators)]. *)
Definition generate_signal (hist : History)
  : outcome (string * Q * gmap string pyfloat) :=
  if (length (bars hist) =? 0)%nat || (length (bars hist) <? 50)%nat then
    Returned ("HOLD", 5 # 10, ∅)
  else
    current_price ← iloc_last (col Close (bars hist));
    sma_20 ← iloc_last (SMA_20 hist);
    sma_50 ← iloc_last (SMA_50 hist);
    rsi ← iloc_last (RSI hist);
    let '(signal, confidence) := signal_logic current_price sma_20 sma_50 rsi in
    Returned (signal, confidence,
              list_to_map [("price", current_price); ("sma_20", sma_20);
                           ("sma_50", sma_50); ("rsi", rsi)]).

(** A row of the [signals] table, without the columns the database
    fills in ([id], [timestamp]). *)
Record SignalRow : Type := mkRow {
  row_symbol : string;
  row_signal : string;
  row_confidence : Q;
  row_price : pyfloat
}.

(** What [generate_trading_signal] returns: [None], the signal
    dictionary (without its timestamp), or [{'error': ...}]. *)
Inductive response : Type :=
| NoData
| SignalData (symbol signal : string) (confidence : Q)
             (price sma_20 sma_50 rsi : pyfloat)
| ErrorData (e : exn).

(** enhanced_backend.py [generate_trading_signal]; [history] is
    [yf.Ticker(symbol).history(period="60d")], [db] the rows of the
    [signals] table in insertion order, returned with the row that
    [db.save_signal] adds.  The whole body is inside [try].  Here the
    database takes every write; [Backend] below has the write that may
    raise. *)
Definition generate_trading_signal (history : string -> outcome DataFrame)
    (symbol : string) (db : list SignalRow) : response * list SignalRow :=
  match history symbol with
  | Raised e => (ErrorData e, db)
  | Returned hist =>
      if (length hist =? 0)%nat then (NoData, db)
      else
        let sma_20_col := rolling_mean 20 (col Close hist) in
        let sma_50_col := rolling_mean 50 (col Close hist) in
        let rsi_col := Rsi.calculate_rsi (col Close hist) 14 in
        match (current_price ← iloc_last (col Close hist);
               sma_20 ← iloc_last sma_20_col;
               sma_50 ← iloc_last sma_50_col;
               rsi ← iloc_last rsi_col;
               Returned (current_price, sma_20, sma_50, rsi)) with
        | Raised e => (ErrorData e, db)
        | Returned (current_price, sma_20, sma_50, rsi) =>
            let '(signal, confidence) :=
              signal_logic current_price sma_20 sma_50 rsi in
            (SignalData symbol signal confidence current_price sma_20 sma_50 rsi,
             db ++ [mkRow symbol signal confidence current_price])
        end
  end.

End Signal.

(** ** enhanced_backend.py: the signal routes *)

Module Routes.
Import Signal.
Local Open Scope Q_scope.






End Routes.

(** ** Further notions *)

Module MoreNotions.
Local Open Scope Q_scope.

(** A bar is a pivot of column [c] for the order [le] when it has two
    bars on each side and none of the five is beyond it. *)
Definition is_pivot (c : Bar -> Q) (le : Q -> Q -> Prop) (data : DataFrame)
    (i : nat) (b : Bar) : Prop :=
  (2 <= i)%nat /\ (i + 2 < length data)%nat /\ nth_error data i = Some b /\
  forall j b', (i - 2 <= j <= i + 2)%nat -> nth_error data j = Some b' ->
               le (c b') (c b).

End MoreNotions.
Export MoreNotions.

(** ** IEEE double precision *)

(** The finite doubles are rationals: the multiples [m * 2^e] of a
    power of two with [|m| < 2^53] and [-1074 <= e <= 971].  The basic
    operations of numpy and of Python floats return the exact result
    rounded to the nearest double, ties to the even significand, and an
    infinity when the rounded magnitude reaches [2^1024].  The sign of a
    zero result is not represented. *)
Module Ieee.
Local Open Scope Q_scope.

(** The nearest integer, ties to even. *)
Definition rne (x : Q) : Z :=
  let f := Qfloor x in
  match Qcompare (x - inject_Z f) (1 # 2) with
  | Lt => f
  | Gt => (f + 1)%Z
  | Eq => if Z.even f then f else (f + 1)%Z
  end.

(** Magnitudes are counted in units of [2^-1074], the smallest positive
    double.  A magnitude of [a] units is rounded to a multiple of
    [2^ulp_exp a] units: 53 significant bits, and never finer than one
    unit (the subnormal range). *)
Definition units : Q := inject_Z (2 ^ 1074).

Definition ulp_exp (a : Q) : Z := Z.max (Z.log2 (Qfloor a) - 52) 0.

Definition round_units (a : Q) : Z :=
  (rne (a / inject_Z (2 ^ ulp_exp a)) * 2 ^ ulp_exp a)%Z.

(** The double nearest to [q]. *)
Definition round64 (q : Q) : pyfloat :=
  let n := round_units (Qabs q * units) in
  if (2 ^ 2098 <=? n)%Z then (if Qltb q 0 then NInf else PInf)
  else Fin (Qred ((if Qltb q 0 then - inject_Z n else inject_Z n) / units)).

(** The four operations on doubles; the special values follow the
    rules of [Num]. *)
Definition fadd (x y : pyfloat) : pyfloat :=
  match x, y with
  | Fin a, Fin b => round64 (a + b)
  | _, _ => Num.fadd x y
  end.

Definition fsub (x y : pyfloat) : pyfloat := fadd x (fneg y).

Definition fmul (x y : pyfloat) : pyfloat :=
  match x, y with
  | Fin a, Fin b => round64 (a * b)
  | _, _ => Num.fmul x y
  end.

Definition fdiv (x y : pyfloat) : pyfloat :=
  match x, y with
  | Fin a, Fin b => if Qeq_bool b 0 then signed_inf (0 ?= a) else round64 (a / b)
  | _, _ => Num.fdiv x y
  end.

(** A decimal literal of the source is the double nearest to it. *)
Definition literal (q : Q) : pyfloat := round64 q.

End Ieee.

(** ** The engine over doubles *)

(** The functions whose results depend on the rounding of the
    arithmetic, with every operation rounded as the source performs it.
    [xs.rolling(w).mean()] belongs to pandas: the double it holds at a
    position with a full window is an argument of the embedding, like
    the results of talib. *)
Module Fp.
Local Open Scope Q_scope.

Section WithLibraries.

Variable talib_ATR : DataFrame -> outcome pyfloat.
Variable talib_ADX : DataFrame -> outcome pyfloat.

(** [rolling_mean_value w xs i]: the value of [xs.rolling(w).mean()] at
    position [i], where the window [i + 1 - w .. i] is full. *)
Variable rolling_mean_value : nat -> Series -> nat -> pyfloat.

(** [xs.rolling(w).mean()]: NaN until the window is full. *)
Definition rolling_mean (w : nat) (xs : Series) : Series :=
  map (fun i => if (i + 1 <? w)%nat then NaN else rolling_mean_value w xs i)
      (seq 0 (length xs)).

(** [try: atr = talib.ATR(...).iloc[-1]  except: atr = current_price * 0.02] *)
Definition atr_or_fallback (data : DataFrame) (current_price : pyfloat) : pyfloat :=
  try_except (talib_ATR data) (Ieee.fmul current_price (Ieee.literal (2 # 100))).

(** [analyze_trend]; returns [(trend, strength)]. *)
Definition analyze_trend (data : DataFrame) : outcome (string * pyfloat) :=
  if (length data <? 50)%nat then Returned ("Insufficient Data", Fin 0)
  else
    sma_20 ← iloc_last (rolling_mean 20 (col Close data));
    sma_50 ← iloc_last (rolling_mean 50 (col Close data));
    current_price ← iloc_last (col Close data);
    let adx := Engine.trend_strength talib_ADX data in
    if fgtb current_price sma_20 && fgtb sma_20 sma_50 then
      Returned ("Uptrend", py_min adx (Fin 100))
    else if fltb current_price sma_20 && fltb sma_20 sma_50 then
      Returned ("Downtrend", py_min adx (Fin 100))
    else
      Returned ("Sideways",
                if fgtb adx (Fin 25) then py_max (Ieee.fsub (Fin 25) adx) (Fin 0)
                else Fin 25).

(** [generate_entry_exit_levels]; returns the [levels] dictionary and
    raises IndexError on an empty DataFrame. *)
Definition generate_entry_exit_levels (data : DataFrame) (trend : string)
  : outcome (gmap string pyval) :=
  current_price ← iloc_last (col Close data);
  let atr := atr_or_fallback data current_price in
  let '(support_levels, resistance_levels) :=
    Engine.calculate_support_resistance data in
  if String.eqb trend "Uptrend" then
    let entry_price := current_price in
    let stop_loss := Ieee.fsub current_price (Ieee.fmul (Fin 2) atr) in
    let take_profit_1 := Ieee.fadd current_price (Ieee.fmul (Fin 2) atr) in
    let take_profit_2 := Ieee.fadd current_price (Ieee.fmul (Fin 4) atr) in
    let take_profit_1 :=
      match resistance_levels with
      | [] => take_profit_1
      | _ =>
          let nearest_resistance :=
            min_default
              (List.filter (fun r => fgtb r current_price) (map Fin resistance_levels))
              take_profit_1 in
          py_min take_profit_1 nearest_resistance
      end in
    Returned (Engine.dict
                [("direction", VStr "LONG");
                 ("entry", VNum entry_price);
                 ("stop_loss", VNum stop_loss);
                 ("take_profit_1", VNum take_profit_1);
                 ("take_profit_2", VNum take_profit_2);
                 ("risk_reward",
                  VNum (Ieee.fdiv (Ieee.fsub take_profit_1 entry_price)
                                  (Ieee.fsub entry_price stop_loss)))])
  else if String.eqb trend "Downtrend" then
    let entry_price := current_price in
    let stop_loss := Ieee.fadd current_price (Ieee.fmul (Fin 2) atr) in
    let take_profit_1 := Ieee.fsub current_price (Ieee.fmul (Fin 2) atr) in
    let take_profit_2 := Ieee.fsub current_price (Ieee.fmul (Fin 4) atr) in
    let take_profit_1 :=
      match support_levels with
      | [] => take_profit_1
      | _ =>
          let nearest_support :=
            max_default
              (List.filter (fun s => fltb s current_price) (map Fin support_levels))
              take_profit_1 in
          py_max take_profit_1 nearest_support
      end in
    Returned (Engine.dict
                [("direction", VStr "SHORT");
                 ("entry", VNum entry_price);
                 ("stop_loss", VNum stop_loss);
                 ("take_profit_1", VNum take_profit_1);
                 ("take_profit_2", VNum take_profit_2);
                 ("risk_reward",
                  VNum (Ieee.fdiv (Ieee.fsub entry_price take_profit_1)
                                  (Ieee.fsub stop_loss entry_price)))])
  else
    Returned (Engine.dict
                [("direction", VStr "WAIT");
                 ("message", VStr "No clear trend - wait for breakout")]).

(** [xs.diff()] *)
Fixpoint diff_from (prev : pyfloat) (xs : Series) : Series :=
  match xs with
  | [] => []
  | x :: r => Ieee.fsub x prev :: diff_from x r
  end.

Definition diff (xs : Series) : Series :=
  match xs with
  | [] => []
  | x :: r => NaN :: diff_from x r
  end.

(** Elementwise [xs / ys]. *)
Fixpoint sdiv (xs ys : Series) : Series :=
  match xs, ys with
  | x :: xr, y :: yr => Ieee.fdiv x y :: sdiv xr yr
  | _, _ => []
  end.

(** [calculate_rsi] and its Series [gain] and [loss]. *)
Definition gain (prices : Series) (period : nat) : Series :=
  let delta := diff prices in
  rolling_mean period (where_ (fun d => fgtb d (Fin 0)) (Fin 0) delta).

Definition loss (prices : Series) (period : nat) : Series :=
  let delta := diff prices in
  rolling_mean period (sneg (where_ (fun d => fltb d (Fin 0)) (Fin 0) delta)).

Definition calculate_rsi (prices : Series) (period : nat) : Series :=
  let rs := sdiv (gain prices period) (loss prices period) in
  map (fun r => Ieee.fsub (Fin 100) (Ieee.fdiv (Fin 100) (Ieee.fadd (Fin 1) r))) rs.

(** quick_start.py [get_historical_data]; [fetched] is the outcome of
    [yf.Ticker(symbol).history(period=period)].  Any exception gives an
    empty frame. *)
Definition get_historical_data (fetched : outcome DataFrame) : Signal.History :=
  match fetched with
  | Returned hist =>
      Signal.mkHistory hist
                       (rolling_mean 20 (col Close hist))
                       (rolling_mean 50 (col Close hist))
                       (calculate_rsi (col Close hist) 14)
  | Raised _ => Signal.mkHistory [] [] [] []
  end.

(** [analyze_market_context]: [volume_ratio], the last volume over the
    20-bar rolling mean of the volume, and the entry ['volume_status']
    of the returned dictionary. *)
Definition volume_ratio (data : DataFrame) : outcome pyfloat :=
  avg_volume ← iloc_last (rolling_mean 20 (col Volume data));
  current_volume ← iloc_last (col Volume data);
  Returned (Ieee.fdiv current_volume avg_volume).

Definition volume_status (data : DataFrame) : outcome string :=
  volume_ratio ← volume_ratio data;
  Returned (if fgtb volume_ratio (Ieee.literal (15 # 10)) then "High"%string
            else if fgtb volume_ratio (Ieee.literal (5 # 10)) then "Normal"%string
            else "Low"%string).

End WithLibraries.

End Fp.

(** ** The signal endpoint with its database *)

(** [generate_trading_signal] of enhanced_backend.py with the indicators
    over doubles and a write to the [signals] table that may raise, as
    every call of sqlite3 may. *)
Module Backend.
Import Signal.
Local Open Scope Q_scope.

Section WithServices.

Variable rolling_mean_value : nat -> Series -> nat -> pyfloat.

(** [sqlite_insert db row]: whether the INSERT of [row] into the table
    [db] and its commit go through. *)
Variable sqlite_insert : list SignalRow -> SignalRow -> outcome unit.

(** [TradingDB.save_signal]: the table afterwards; a write that raises
    is not committed. *)
Definition save_signal (db : list SignalRow) (row : SignalRow)
  : outcome unit * list SignalRow :=
  match sqlite_insert db row with
  | Returned _ => (Returned tt, db ++ [row])
  | Raised e => (Raised e, db)
  end.

(** [generate_trading_signal]; the whole body is inside [try], the
    write to the database included. *)
Definition generate_trading_signal (history : string -> outcome DataFrame)
    (symbol : string) (db : list SignalRow) : response * list SignalRow :=
  match history symbol with
  | Raised e => (ErrorData e, db)
  | Returned hist =>
      if (length hist =? 0)%nat then (NoData, db)
      else
        let sma_20_col := Fp.rolling_mean rolling_mean_value 20 (col Close hist) in
        let sma_50_col := Fp.rolling_mean rolling_mean_value 50 (col Close hist) in
        let rsi_col := Fp.calculate_rsi rolling_mean_value (col Close hist) 14 in
        match (current_price ← iloc_last (col Close hist);
               sma_20 ← iloc_last sma_20_col;
               sma_50 ← iloc_last sma_50_col;
               rsi ← iloc_last rsi_col;
               Returned (current_price, sma_20, sma_50, rsi)) with
        | Raised e => (ErrorData e, db)
        | Returned (current_price, sma_20, sma_50, rsi) =>
            let '(signal, confidence) :=
              signal_logic current_price sma_20 sma_50 rsi in
            match save_signal db (mkRow symbol signal confidence current_price) with
            | (Raised e, db') => (ErrorData e, db')
            | (Returned _, db') =>
                (SignalData symbol signal confidence current_price sma_20 sma_50 rsi,
                 db')
            end
        end
  end.

End WithServices.

End Backend.

(** ** Notions over doubles *)

Module FpNotions.
Local Open Scope Q_scope.

(** [q] is a double: rounding leaves it alone. *)
Definition is_double (q : Q) : Prop :=
  exists r, Ieee.round64 q = Fin r /\ r == q.

(** The order of the numbers and the infinities; NaN is not ordered. *)
Definition fle (x y : pyfloat) : Prop :=
  match x, y with
  | NaN, _ | _, NaN => False
  | NInf, _ | _, PInf => True
  | Fin a, Fin b => a <= b
  | _, _ => False
  end.



(** Bar-to-bar changes of a series of doubles, each the rounded
    difference, and the per-bar gain max(change, 0) and loss
    max(-change, 0); the first bar has neither. *)
Fixpoint price_changes (prev : Q) (ps : list Q) : Series :=
  match ps with
  | [] => []
  | p :: r => Ieee.round64 (p + - prev) :: price_changes p r
  end.

Definition price_gains (ps : list Q) : Series :=
  match ps with
  | [] => []
  | p :: r => Fin 0 :: map (fun d => if fltb (Fin 0) d then d else Fin 0)
                           (price_changes p r)
  end.

Definition price_losses (ps : list Q) : Series :=
  match ps with
  | [] => []
  | p :: r => Fin (- 0) :: map (fun d => fneg (if fltb d (Fin 0) then d else Fin 0))
                               (price_changes p r)
  end.



(** "RSI equals 100 exactly when the average loss is 0 and the average
    gain is positive", for an RSI value [rsi] computed from the rolling
    averages [g] and [l]. *)
Definition hundred_only_without_loss (g l rsi : Q) : Prop :=
  rsi == 100 <-> (l == 0 /\ 0 < g).

End FpNotions.
Export FpNotions.

(** ** Rolling means for the examples *)

Module MoreSamples.
Local Open Scope Q_scope.

(** The mean of the window by a rounded sum from left to right and one
    rounded division. *)
Definition windowed_mean (w : nat) (xs : Series) (i : nat) : pyfloat :=
  Ieee.fdiv (fold_left Ieee.fadd (window xs (i + 1 - w) w) (Fin 0)) (of_nat w).


(** Thirteen closes at 1, a dip by 2^-53, then a close at 3. *)
Definition dip_then_jump : list Q :=
  repeat 1 13 ++ [1 - (1 # 9007199254740992); 3].

End MoreSamples.
Export MoreSamples.

(** * Properties *)

(** ** Facts about the numbers *)

Section NumFacts.
Local Open Scope Q_scope.

Lemma Qltb_lt (a b : Q) : Qltb a b = true <-> a < b.
Proof.
  unfold Qltb. rewrite negb_true_iff. split.
  - intros H. destruct (Qlt_le_dec a b) as [|Hle]; [assumption|].
    apply Qle_bool_iff in Hle. congruence.
  - intros H. destruct (Qle_bool b a) eqn:E; [|reflexivity].
    apply Qle_bool_iff in E. lra.
Qed.

Lemma Qltb_ge (a b : Q) : Qltb a b = false <-> b <= a.
Proof.
  unfold Qltb. rewrite negb_false_iff. apply Qle_bool_iff.
Qed.

Lemma Qeq_bool_false (a b : Q) : Qeq_bool a b = false <-> ~ a == b.
Proof.
  split.
  - intros H E. apply Qeq_bool_iff in E. congruence.
  - intros H. destruct (Qeq_bool a b) eqn:E; [|reflexivity].
    apply Qeq_bool_iff in E. contradiction.
Qed.

Lemma Qcompare_0_pos (a : Q) : 0 < a -> (0 ?= a) = Lt.
Proof. intros H. apply Qlt_alt. exact H. Qed.

Lemma Qcompare_0_zero (a : Q) : a == 0 -> (0 ?= a) = Eq.
Proof. intros H. apply Qeq_alt. symmetry. exact H. Qed.



End NumFacts.

(** ** Facts about Series *)

Section SeriesFacts.
Local Open Scope Q_scope.



Lemma window_map {A B : Type} (f : A -> B) (xs : list A) (s n : nat) :
  window (map f xs) s n = map f (window xs s n).
Proof.
  unfold window. rewrite skipn_map, firstn_map. reflexivity.
Qed.

Lemma iloc_last_app {A : Type} (xs : list A) (x : A) :
  iloc_last (xs ++ [x]) = Returned x.
Proof.
  induction xs as [|y xs IH]; [reflexivity|].
  simpl. destruct (xs ++ [x]) eqn:E.
  - destruct xs; discriminate.
  - exact IH.
Qed.

Lemma iloc_last_map {A B : Type} (f : A -> B) (xs : list A) (x : A) :
  iloc_last xs = Returned x -> iloc_last (map f xs) = Returned (f x).
Proof.
  induction xs as [|y xs IH]; [discriminate|].
  destruct xs as [|z xs].
  - simpl. intros [= ->]. reflexivity.
  - intros H. change (iloc_last (map f (z :: xs)) = Returned (f x)).
    apply IH. exact H.
Qed.

Lemma iloc_last_seq (n : nat) : iloc_last (seq 0 (S n)) = Returned n.
Proof.
  rewrite seq_S. apply iloc_last_app.
Qed.

Lemma iloc_last_nonempty {A : Type} (xs : list A) :
  (0 < length xs)%nat -> exists x, iloc_last xs = Returned x.
Proof.
  induction xs as [|y xs IH]; simpl; [lia|]. intros _.
  destruct xs as [|z xs]; [eauto|]. apply IH. simpl. lia.
Qed.


End SeriesFacts.

(** ** Trend Classifier *)

Section TrendClassifier.
Local Open Scope Q_scope.

Variable talib_ADX : DataFrame -> outcome pyfloat.

Let analyze := Engine.analyze_trend talib_ADX.
Let adx := Engine.trend_strength talib_ADX.




End TrendClassifier.

(** ** Facts about [set] and [sorted] *)

Section SetFacts.
Local Open Scope Q_scope.

Lemma existsb_Qeq_InA (x : Q) (l : list Q) :
  existsb (Qeq_bool x) l = true <-> InA Qeq x l.
Proof.
  rewrite existsb_exists, InA_alt. split.
  - intros (y & Hy & E). exists y. split; [apply Qeq_bool_iff; exact E|exact Hy].
  - intros (y & E & Hy). exists y. split; [exact Hy|apply Qeq_bool_iff; exact E].
Qed.

Lemma py_set_In (x : Q) (l : list Q) : In x (py_set l) -> In x l.
Proof.
  induction l as [|y l IH]; simpl; [tauto|].
  destruct (existsb (Qeq_bool y) l); simpl; tauto.
Qed.

Lemma py_set_InA (x : Q) (l : list Q) : InA Qeq x (py_set l) <-> InA Qeq x l.
Proof.
  induction l as [|y l IH]; simpl; [reflexivity|].
  destruct (existsb (Qeq_bool y) l) eqn:E.
  - rewrite IH. split; [intros H; right; exact H|].
    intros H. inversion H as [? ? Hxy|? ? Hin]; subst; [|exact Hin].
    apply existsb_Qeq_InA in E. rewrite Hxy. exact E.
  - split; intros H; inversion H; subst;
      try (left; assumption); right; apply IH; assumption.
Qed.

Lemma py_set_NoDupA (l : list Q) : NoDupA Qeq (py_set l).
Proof.
  induction l as [|y l IH]; simpl; [constructor|].
  destruct (existsb (Qeq_bool y) l) eqn:E; [exact IH|].
  constructor; [|exact IH].
  rewrite py_set_InA, <- existsb_Qeq_InA. congruence.
Qed.

Lemma firstn_subset {A : Type} (n : nat) (l : list A) (x : A) :
  In x (firstn n l) -> In x l.
Proof.
  intros H. rewrite <- (firstn_skipn n l). apply in_or_app. left. exact H.
Qed.

End SetFacts.

Section SortFacts.
Local Open Scope Q_scope.

(** [le] is the test of the sort and [R] the strict order it yields on
    lists without repeated values. *)
Variable le : Q -> Q -> bool.
Variable R : Q -> Q -> Prop.
Hypothesis le_true : forall x y, le x y = true -> ~ x == y -> R x y.
Hypothesis le_false : forall x y, le x y = false -> R y x.
Hypothesis R_trans : forall x y z, R x y -> R y z -> R x z.
Hypothesis R_irrefl : forall x y, R x y -> ~ x == y.

Lemma insert_sorted_In (x y : Q) (l : list Q) :
  In y (insert_sorted le x l) <-> y = x \/ In y l.
Proof.
  induction l as [|z l IH]; simpl; [intuition congruence|].
  destruct (le x z); simpl; [intuition congruence|].
  rewrite IH. intuition congruence.
Qed.

Lemma py_sorted_In (y : Q) (l : list Q) : In y (py_sorted le l) <-> In y l.
Proof.
  induction l as [|x l IH]; simpl; [reflexivity|].
  rewrite insert_sorted_In, IH. intuition congruence.
Qed.

Lemma insert_sorted_length (x : Q) (l : list Q) :
  length (insert_sorted le x l) = S (length l).
Proof.
  induction l as [|z l IH]; simpl; [reflexivity|].
  destruct (le x z); simpl; [reflexivity|]. rewrite IH. reflexivity.
Qed.

Lemma py_sorted_length (l : list Q) : length (py_sorted le l) = length l.
Proof.
  induction l as [|x l IH]; simpl; [reflexivity|].
  rewrite insert_sorted_length, IH. reflexivity.
Qed.

Lemma In_InA_Qeq (x : Q) (l : list Q) : In x l -> InA Qeq x l.
Proof. intros H. apply InA_alt. exists x. split; [reflexivity|exact H]. Qed.

Lemma insert_sorted_strict (x : Q) (l : list Q) :
  StronglySorted R l -> ~ InA Qeq x l ->
  StronglySorted R (insert_sorted le x l).
Proof.
  induction l as [|z l IH]; intros Hs Hx; simpl.
  - constructor; constructor.
  - inversion Hs as [|? ? Hs' Hall]; subst.
    assert (Hxz : ~ x == z) by (intros E; apply Hx; left; exact E).
    assert (Hxl : ~ InA Qeq x l) by (intros E; apply Hx; right; exact E).
    destruct (le x z) eqn:E.
    + assert (Rxz : R x z) by (apply le_true; assumption).
      constructor; [exact Hs|]. constructor; [exact Rxz|].
      rewrite List.Forall_forall in *. intros y Hy. eapply R_trans; eauto.
    + constructor; [apply IH; assumption|].
      rewrite List.Forall_forall in *. intros y Hy.
      apply (proj1 (insert_sorted_In _ _ _)) in Hy. destruct Hy as [->|Hy]; [|auto].
      apply le_false. exact E.
Qed.

Lemma py_sorted_strict (l : list Q) :
  NoDupA Qeq l -> StronglySorted R (py_sorted le l).
Proof.
  induction l as [|x l IH]; intros Hnd; simpl; [constructor|].
  inversion Hnd as [|? ? Hx Hnd']; subst.
  apply insert_sorted_strict; [apply IH; exact Hnd'|].
  intros H. apply Hx. apply InA_alt in H. destruct H as (y & E & Hy).
  apply (proj1 (py_sorted_In _ _)) in Hy. apply InA_alt. exists y.
  split; assumption.
Qed.

Lemma StronglySorted_firstn (n : nat) (l : list Q) :
  StronglySorted R l -> StronglySorted R (firstn n l).
Proof.
  revert l. induction n as [|n IH]; intros l Hs; [constructor|].
  destruct l as [|x l]; [constructor|].
  inversion Hs as [|? ? Hs' Hall]; subst. simpl. constructor; [auto|].
  rewrite List.Forall_forall in *. intros y Hy. apply Hall.
  eapply firstn_subset; exact Hy.
Qed.

Lemma StronglySorted_app_order (a b : list Q) :
  StronglySorted R (a ++ b) -> forall x y, In x a -> In y b -> R x y.
Proof.
  induction a as [|z a IH]; intros Hs x y Hx Hy; [destruct Hx|].
  simpl in Hs. inversion Hs as [|? ? Hs' Hall]; subst.
  destruct Hx as [->|Hx]; [|eauto].
  rewrite List.Forall_forall in Hall. apply Hall. apply in_or_app. right. exact Hy.
Qed.

Lemma StronglySorted_NoDupA (l : list Q) :
  StronglySorted R l -> NoDupA Qeq l.
Proof.
  induction l as [|x l IH]; intros Hs; [constructor|].
  inversion Hs as [|? ? Hs' Hall]; subst. constructor; [|auto].
  intros H. apply InA_alt in H. destruct H as (y & E & Hy).
  rewrite List.Forall_forall in Hall. exact (R_irrefl _ _ (Hall y Hy) E).
Qed.

(** What [firstn n] of a sorted list of distinct values keeps: every
    value of [l] is kept or comes after every kept one. *)
Lemma firstn_sorted_extremal (n : nat) (l : list Q) (c : Q) :
  NoDupA Qeq l -> In c l ->
  In c (firstn n (py_sorted le l)) \/
  Forall (fun k => R k c) (firstn n (py_sorted le l)).
Proof.
  intros Hnd Hc.
  pose proof (py_sorted_strict l Hnd) as Hs.
  apply (proj2 (py_sorted_In _ _)) in Hc.
  rewrite <- (firstn_skipn n (py_sorted le l)) in Hc, Hs.
  destruct (in_app_or _ _ _ Hc) as [H|H]; [left; exact H|right].
  apply List.Forall_forall. intros k Hk.
  eapply StronglySorted_app_order; eauto.
Qed.

End SortFacts.

(** ** Pivot Detector *)

Section PivotDetector.
Local Open Scope Q_scope.

Lemma Qle_bool_false (x y : Q) : Qle_bool x y = false -> y < x.
Proof.
  intros H. destruct (Qlt_le_dec y x) as [|Hle]; [assumption|].
  apply Qle_bool_iff in Hle. congruence.
Qed.

Lemma Qle_neq_lt (x y : Q) : x <= y -> ~ x == y -> x < y.
Proof.
  intros Hle Hne. destruct (Qlt_le_dec x y) as [|Hge]; [assumption|].
  exfalso. apply Hne. lra.
Qed.

Lemma sorted_ascending (l : list Q) : NoDupA Qeq l -> ascending (sorted l).
Proof.
  apply (py_sorted_strict Qle_bool Qlt).
  - intros x y H Hne. apply Qle_bool_iff in H. apply Qle_neq_lt; assumption.
  - intros x y H. apply Qle_bool_false. exact H.
  - intros x y z ? ?. lra.
Qed.

Lemma sorted_reverse_descending (l : list Q) :
  NoDupA Qeq l -> descending (sorted_reverse l).
Proof.
  apply (py_sorted_strict (fun x y => Qle_bool y x) (fun a b => b < a)).
  - intros x y H Hne. apply Qle_bool_iff in H. apply Qle_neq_lt; [assumption|].
    intros E. apply Hne. symmetry. exact E.
  - intros x y H. apply Qle_bool_false. exact H.
  - intros x y z ? ?. lra.
Qed.

Lemma ascending_NoDupA (l : list Q) : ascending l -> NoDupA Qeq l.
Proof.
  apply (StronglySorted_NoDupA Qlt). intros x y H E. lra.
Qed.

Lemma descending_NoDupA (l : list Q) : descending l -> NoDupA Qeq l.
Proof.
  apply (StronglySorted_NoDupA (fun a b => b < a)). intros x y H E. lra.
Qed.

Lemma support_resistance_short (data : DataFrame) :
  (length data < 20)%nat -> Engine.calculate_support_resistance data = ([], []).
Proof.
  intros H. unfold Engine.calculate_support_resistance.
  apply Nat.ltb_lt in H. rewrite H. reflexivity.
Qed.

Lemma support_resistance_long (data : DataFrame) :
  (20 <= length data)%nat ->
  Engine.calculate_support_resistance data =
  (firstn 5 (sorted (py_set (Engine.support_candidates data))),
   firstn 5 (sorted_reverse (py_set (Engine.resistance_candidates data)))).
Proof.
  intros H. unfold Engine.calculate_support_resistance.
  assert (Hb : (length data <? 20)%nat = false) by (apply Nat.ltb_ge; lia).
  rewrite Hb. reflexivity.
Qed.

(** C6. Pivot Detector shape: a series shorter than 20 bars gives two
    empty lists; every series gives at most 5 support and at most 5
    resistance levels, without repeated values, resistance strictly
    descending and support strictly ascending. *)
Theorem C6_pivot_detector_shape (data : DataFrame) :
  let support := fst (Engine.calculate_support_resistance data) in
  let resistance := snd (Engine.calculate_support_resistance data) in
  ((length data < 20)%nat -> support = [] /\ resistance = []) /\
  (length support <= 5)%nat /\ (length resistance <= 5)%nat /\
  NoDupA Qeq support /\ NoDupA Qeq resistance /\
  descending resistance /\ ascending support.
Proof.
  cbv zeta. split.
  { intros H. rewrite support_resistance_short by exact H. split; reflexivity. }
  assert (Hs : ascending (fst (Engine.calculate_support_resistance data))).
  { destruct (Nat.lt_ge_cases (length data) 20) as [H|H].
    - rewrite support_resistance_short by exact H. constructor.
    - rewrite support_resistance_long by exact H. cbn [fst].
      apply StronglySorted_firstn, sorted_ascending, py_set_NoDupA. }
  assert (Hr : descending (snd (Engine.calculate_support_resistance data))).
  { destruct (Nat.lt_ge_cases (length data) 20) as [H|H].
    - rewrite support_resistance_short by exact H. constructor.
    - rewrite support_resistance_long by exact H. cbn [snd].
      apply StronglySorted_firstn, sorted_reverse_descending, py_set_NoDupA. }
  assert (Hl : (length (fst (Engine.calculate_support_resistance data)) <= 5 /\
                length (snd (Engine.calculate_support_resistance data)) <= 5)%nat).
  { destruct (Nat.lt_ge_cases (length data) 20) as [H|H].
    - rewrite support_resistance_short by exact H. simpl. lia.
    - rewrite support_resistance_long by exact H. cbn [fst snd].
      split; apply firstn_le_length. }
  destruct Hl as [Hl1 Hl2].
  repeat split; try assumption.
  - apply ascending_NoDupA. exact Hs.
  - apply descending_NoDupA. exact Hr.
Qed.

End PivotDetector.

Section PivotRelevance.
Local Open Scope Q_scope.

Lemma In_set_representative (c : Q) (l : list Q) :
  In c l -> exists c', c == c' /\ In c' (py_set l).
Proof.
  intros H. apply In_InA_Qeq in H. apply py_set_InA in H.
  apply InA_alt in H. exact H.
Qed.

Lemma length_firstn_exact {A : Type} (n : nat) (l : list A) :
  (n < length l)%nat -> length (firstn n l) = n.
Proof. intros H. rewrite length_firstn. lia. Qed.

Lemma kept_resistance (data : DataFrame) :
  (20 <= length data)%nat ->
  (5 < length (py_set (Engine.resistance_candidates data)))%nat ->
  let resistance := snd (Engine.calculate_support_resistance data) in
  length resistance = 5%nat /\
  descending resistance /\
  (forall k, In k resistance -> In k (Engine.resistance_candidates data)) /\
  (forall c, In c (Engine.resistance_candidates data) ->
             InA Qeq c resistance \/ Forall (fun k => c < k) resistance).
Proof.
  intros Hlen Hmany. cbv zeta.
  rewrite support_resistance_long by exact Hlen. cbn [snd].
  split; [|split; [|split]].
  - apply length_firstn_exact. unfold sorted_reverse.
    rewrite py_sorted_length. exact Hmany.
  - apply StronglySorted_firstn, sorted_reverse_descending, py_set_NoDupA.
  - intros k Hk. apply firstn_subset in Hk.
    apply (proj1 (py_sorted_In _ _ _)) in Hk. apply py_set_In. exact Hk.
  - intros c Hc. destruct (In_set_representative c _ Hc) as (c' & E & Hc').
    destruct (firstn_sorted_extremal (fun x y => Qle_bool y x)
                (fun a b => b < a)) with (n := 5%nat) (c := c')
        (l := py_set (Engine.resistance_candidates data)) as [H|H].
    + intros x y H Hne. apply Qle_bool_iff in H. apply Qle_neq_lt; [assumption|].
      intros E'. apply Hne. symmetry. exact E'.
    + intros x y H. apply Qle_bool_false. exact H.
    + intros x y z ? ?. lra.
    + apply py_set_NoDupA.
    + exact Hc'.
    + left. apply InA_alt. exists c'. split; assumption.
    + right. eapply List.Forall_impl; [|exact H]. cbv beta. intros k Hk. lra.
Qed.

Lemma kept_support (data : DataFrame) :
  (20 <= length data)%nat ->
  (5 < length (py_set (Engine.support_candidates data)))%nat ->
  let support := fst (Engine.calculate_support_resistance data) in
  length support = 5%nat /\
  ascending support /\
  (forall k, In k support -> In k (Engine.support_candidates data)) /\
  (forall c, In c (Engine.support_candidates data) ->
             InA Qeq c support \/ Forall (fun k => k < c) support).
Proof.
  intros Hlen Hmany. cbv zeta.
  rewrite support_resistance_long by exact Hlen. cbn [fst].
  split; [|split; [|split]].
  - apply length_firstn_exact. unfold sorted.
    rewrite py_sorted_length. exact Hmany.
  - apply StronglySorted_firstn, sorted_ascending, py_set_NoDupA.
  - intros k Hk. apply firstn_subset in Hk.
    apply (proj1 (py_sorted_In _ _ _)) in Hk. apply py_set_In. exact Hk.
  - intros c Hc. destruct (In_set_representative c _ Hc) as (c' & E & Hc').
    destruct (firstn_sorted_extremal Qle_bool Qlt) with (n := 5%nat) (c := c')
        (l := py_set (Engine.support_candidates data)) as [H|H].
    + intros x y H Hne. apply Qle_bool_iff in H. apply Qle_neq_lt; assumption.
    + intros x y H. apply Qle_bool_false. exact H.
    + intros x y z ? ?. lra.
    + apply py_set_NoDupA.
    + exact Hc'.
    + left. apply InA_alt. exists c'. split; assumption.
    + right. eapply List.Forall_impl; [|exact H]. cbv beta. intros k Hk. lra.
Qed.

(** C7, as amended. With at least 20 bars and more than 5 distinct
    candidates on a side, the Pivot Detector keeps exactly 5 levels of
    that side: the 5 highest distinct resistance candidates, in strictly
    descending order, and the 5 lowest distinct support candidates, in
    strictly ascending order; every other candidate lies strictly below
    every kept resistance level (above every kept support level).  The
    current price plays no part. *)
Theorem C7_keeps_extreme_levels (data : DataFrame) :
  (20 <= length data)%nat ->
  let support := fst (Engine.calculate_support_resistance data) in
  let resistance := snd (Engine.calculate_support_resistance data) in
  ((5 < length (py_set (Engine.resistance_candidates data)))%nat ->
   length resistance = 5%nat /\
   descending resistance /\
   (forall k, In k resistance -> In k (Engine.resistance_candidates data)) /\
   (forall c, In c (Engine.resistance_candidates data) ->
              InA Qeq c resistance \/ Forall (fun k => c < k) resistance)) /\
  ((5 < length (py_set (Engine.support_candidates data)))%nat ->
   length support = 5%nat /\
   ascending support /\
   (forall k, In k support -> In k (Engine.support_candidates data)) /\
   (forall c, In c (Engine.support_candidates data) ->
              InA Qeq c support \/ Forall (fun k => k < c) support)).
Proof.
  intros Hlen. cbv zeta. split; intros Hmany.
  - apply kept_resistance; assumption.
  - apply kept_support; assumption.
Qed.

Lemma six_pivots_levels :
  Engine.calculate_support_resistance six_pivots =
  ([90; 91; 92; 93; 94], [110; 109; 108; 107; 106]).
Proof. vm_compute. reflexivity. Qed.

Lemma six_pivots_candidates :
  Engine.resistance_candidates six_pivots = [105; 106; 107; 108; 109; 110] /\
  Engine.support_candidates six_pivots = [95; 94; 93; 92; 91; 90].
Proof. split; vm_compute; reflexivity. Qed.

(** C7, as stated, fails on [six_pivots]: the price is 100, the nearest
    resistance candidate above it is 105 and the nearest support
    candidate below it is 95, and neither is kept. *)
Lemma C7_counterexample : ~ keeps_nearest_levels six_pivots.
Proof.
  intros H. destruct (H 100 eq_refl) as [Hr _].
  assert (Hin : InA Qeq 105 (snd (Engine.calculate_support_resistance six_pivots))).
  { apply Hr.
    - destruct six_pivots_candidates as [-> _]. vm_compute. lia.
    - destruct six_pivots_candidates as [-> _]. vm_compute. reflexivity. }
  rewrite six_pivots_levels in Hin. cbn [snd] in Hin.
  repeat match goal with
         | H : InA _ _ (_ :: _) |- _ => inversion H; clear H; subst
         | H : InA _ _ [] |- _ => inversion H
         | H : _ == _ |- _ => vm_compute in H; discriminate H
         end.
Qed.

(** The same input satisfies the hypotheses of the amended statement. *)
Lemma C7_keeps_extreme_levels_witness :
  length (snd (Engine.calculate_support_resistance six_pivots)) = 5%nat /\
  length (fst (Engine.calculate_support_resistance six_pivots)) = 5%nat.
Proof.
  assert (H20 : (20 <= length six_pivots)%nat) by (vm_compute; lia).
  assert (Hr : (5 < length (py_set (Engine.resistance_candidates six_pivots)))%nat)
    by (vm_compute; lia).
  assert (Hs : (5 < length (py_set (Engine.support_candidates six_pivots)))%nat)
    by (vm_compute; lia).
  destruct (C7_keeps_extreme_levels six_pivots H20) as [Kr Ks].
  split; [exact (proj1 (Kr Hr))|exact (proj1 (Ks Hs))].
Defined.

End PivotRelevance.

(** ** Nearest levels and clamping *)

Section Clamping.
Local Open Scope Q_scope.

Lemma Qmin_cases (x a : Q) :
  (Qmin x a = a /\ a < x) \/ (Qmin x a = x /\ x <= a).
Proof.
  unfold Qmin, GenericMinMax.gmin. destruct (x ?= a) eqn:C.
  - right. split; [reflexivity|]. apply Qeq_alt in C. lra.
  - right. split; [reflexivity|]. apply Qlt_alt in C. lra.
  - left. split; [reflexivity|]. apply Qgt_alt in C. exact C.
Qed.

Lemma Qmax_cases (x a : Q) :
  (Qmax x a = a /\ x < a) \/ (Qmax x a = x /\ a <= x).
Proof.
  unfold Qmax, GenericMinMax.gmax. destruct (x ?= a) eqn:C.
  - right. split; [reflexivity|]. apply Qeq_alt in C. lra.
  - left. split; [reflexivity|]. apply Qlt_alt in C. exact C.
  - right. split; [reflexivity|]. apply Qgt_alt in C. lra.
Qed.

Lemma py_min_Fin (x a : Q) : py_min (Fin x) (Fin a) = Fin (Qmin x a).
Proof.
  unfold py_min. cbn [fltb].
  destruct (Qmin_cases x a) as [[-> H]|[-> H]].
  - apply Qltb_lt in H. rewrite H. reflexivity.
  - apply Qltb_ge in H. rewrite H. reflexivity.
Qed.

Lemma py_max_Fin (x a : Q) : py_max (Fin x) (Fin a) = Fin (Qmax x a).
Proof.
  unfold py_max, fgtb. cbn [fltb].
  destruct (Qmax_cases x a) as [[-> H]|[-> H]].
  - apply Qltb_lt in H. rewrite H. reflexivity.
  - apply Qltb_ge in H. rewrite H. reflexivity.
Qed.

Lemma fold_py_min_Fin (l : list Q) (x : Q) :
  fold_left py_min (map Fin l) (Fin x) = Fin (fold_left Qmin l x).
Proof.
  revert x. induction l as [|a l IH]; intros x; simpl; [reflexivity|].
  rewrite py_min_Fin. apply IH.
Qed.

Lemma fold_py_max_Fin (l : list Q) (x : Q) :
  fold_left py_max (map Fin l) (Fin x) = Fin (fold_left Qmax l x).
Proof.
  revert x. induction l as [|a l IH]; intros x; simpl; [reflexivity|].
  rewrite py_max_Fin. apply IH.
Qed.

Lemma filter_above_Fin (c : Q) (l : list Q) :
  List.filter (fun r => fgtb r (Fin c)) (map Fin l) =
  map Fin (List.filter (fun r => Qltb c r) l).
Proof.
  induction l as [|a l IH]; [reflexivity|].
  cbn [List.filter map]. unfold fgtb at 1. cbn [fltb].
  destruct (Qltb c a); cbn [map]; rewrite IH; reflexivity.
Qed.

Lemma filter_below_Fin (c : Q) (l : list Q) :
  List.filter (fun s => fltb s (Fin c)) (map Fin l) =
  map Fin (List.filter (fun s => Qltb s c) l).
Proof.
  induction l as [|a l IH]; [reflexivity|].
  cbn [List.filter map fltb].
  destruct (Qltb a c); cbn [map]; rewrite IH; reflexivity.
Qed.

(** The target adjustment of the long branch computes [clamp_down]. *)
Lemma long_target_clamp (t c : Q) (levels : list Q) :
  match levels with
  | [] => Fin t
  | _ => py_min (Fin t)
           (min_default (List.filter (fun r => fgtb r (Fin c)) (map Fin levels))
                        (Fin t))
  end = Fin (clamp_down t c levels).
Proof.
  unfold clamp_down, nearest_above.
  destruct levels as [|l0 levels]; [reflexivity|].
  rewrite filter_above_Fin.
  destruct (List.filter (fun r => Qltb c r) (l0 :: levels)) as [|x r]; simpl.
  - rewrite py_min_Fin. destruct (Qmin_cases t t) as [[-> _]|[-> _]]; reflexivity.
  - rewrite fold_py_min_Fin, py_min_Fin. reflexivity.
Qed.

(** The target adjustment of the short branch computes [clamp_up]. *)
Lemma short_target_clamp (t c : Q) (levels : list Q) :
  match levels with
  | [] => Fin t
  | _ => py_max (Fin t)
           (max_default (List.filter (fun s => fltb s (Fin c)) (map Fin levels))
                        (Fin t))
  end = Fin (clamp_up t c levels).
Proof.
  unfold clamp_up, nearest_below.
  destruct levels as [|l0 levels]; [reflexivity|].
  rewrite filter_below_Fin.
  destruct (List.filter (fun s => Qltb s c) (l0 :: levels)) as [|x r]; simpl.
  - rewrite py_max_Fin. destruct (Qmax_cases t t) as [[-> _]|[-> _]]; reflexivity.
  - rewrite fold_py_max_Fin, py_max_Fin. reflexivity.
Qed.

Lemma fold_Qmin_spec (l : list Q) (x : Q) :
  let m := fold_left Qmin l x in
  In m (x :: l) /\ forall y, In y (x :: l) -> m <= y.
Proof.
  revert x. induction l as [|a l IH]; intros x; simpl.
  - split; [left; reflexivity|]. intros y [<-|[]]. lra.
  - destruct (IH (Qmin x a)) as [Hin Hle]. simpl in Hin, Hle. split.
    + destruct Hin as [Hin|Hin]; [|right; right; exact Hin].
      rewrite <- Hin. destruct (Qmin_cases x a) as [[-> _]|[-> _]];
        [right; left|left]; reflexivity.
    + intros y Hy.
      assert (Hm : fold_left Qmin l (Qmin x a) <= Qmin x a)
        by (apply Hle; left; reflexivity).
      destruct Hy as [<-|[<-|Hy]].
      * pose proof (Q.le_min_l x a). lra.
      * pose proof (Q.le_min_r x a). lra.
      * apply Hle. right. exact Hy.
Qed.

Lemma fold_Qmax_spec (l : list Q) (x : Q) :
  let m := fold_left Qmax l x in
  In m (x :: l) /\ forall y, In y (x :: l) -> y <= m.
Proof.
  revert x. induction l as [|a l IH]; intros x; simpl.
  - split; [left; reflexivity|]. intros y [<-|[]]. lra.
  - destruct (IH (Qmax x a)) as [Hin Hle]. simpl in Hin, Hle. split.
    + destruct Hin as [Hin|Hin]; [|right; right; exact Hin].
      rewrite <- Hin. destruct (Qmax_cases x a) as [[-> _]|[-> _]];
        [right; left|left]; reflexivity.
    + intros y Hy.
      assert (Hm : Qmax x a <= fold_left Qmax l (Qmax x a))
        by (apply Hle; left; reflexivity).
      destruct Hy as [<-|[<-|Hy]].
      * pose proof (Q.le_max_l x a). lra.
      * pose proof (Q.le_max_r x a). lra.
      * apply Hle. right. exact Hy.
Qed.

(** [nearest_above] is what its name says. *)
Lemma nearest_above_spec (c r : Q) (levels : list Q) :
  nearest_above c levels = Some r ->
  In r levels /\ c < r /\ forall r', In r' levels -> c < r' -> r <= r'.
Proof.
  unfold nearest_above.
  destruct (List.filter (fun x => Qltb c x) levels) as [|x l] eqn:E;
    [discriminate|].
  intros [= <-]. destruct (fold_Qmin_spec l x) as [Hin Hle]. cbv zeta in *.
  rewrite <- E in Hin, Hle.
  apply filter_In in Hin. destruct Hin as [Hin Hc]. apply Qltb_lt in Hc.
  repeat split; try assumption.
  intros r' Hr' Hc'. apply Hle. apply filter_In. split; [exact Hr'|].
  apply Qltb_lt. exact Hc'.
Qed.

Lemma nearest_above_none (c : Q) (levels : list Q) :
  nearest_above c levels = None -> forall r', In r' levels -> r' <= c.
Proof.
  unfold nearest_above.
  destruct (List.filter (fun x => Qltb c x) levels) as [|x l] eqn:E;
    [|discriminate].
  intros _ r' Hr'. apply Qltb_ge.
  destruct (Qltb c r') eqn:C; [|reflexivity].
  assert (H : In r' (List.filter (fun x => Qltb c x) levels))
    by (apply filter_In; split; assumption).
  rewrite E in H. destruct H.
Qed.

Lemma nearest_below_spec (c s : Q) (levels : list Q) :
  nearest_below c levels = Some s ->
  In s levels /\ s < c /\ forall s', In s' levels -> s' < c -> s' <= s.
Proof.
  unfold nearest_below.
  destruct (List.filter (fun x => Qltb x c) levels) as [|x l] eqn:E;
    [discriminate|].
  intros [= <-]. destruct (fold_Qmax_spec l x) as [Hin Hle]. cbv zeta in *.
  rewrite <- E in Hin, Hle.
  apply filter_In in Hin. destruct Hin as [Hin Hc]. apply Qltb_lt in Hc.
  repeat split; try assumption.
  intros s' Hs' Hc'. apply Hle. apply filter_In. split; [exact Hs'|].
  apply Qltb_lt. exact Hc'.
Qed.

Lemma nearest_below_none (c : Q) (levels : list Q) :
  nearest_below c levels = None -> forall s', In s' levels -> c <= s'.
Proof.
  unfold nearest_below.
  destruct (List.filter (fun x => Qltb x c) levels) as [|x l] eqn:E;
    [|discriminate].
  intros _ s' Hs'. apply Qltb_ge.
  destruct (Qltb s' c) eqn:C; [|reflexivity].
  assert (H : In s' (List.filter (fun x => Qltb x c) levels))
    by (apply filter_In; split; assumption).
  rewrite E in H. destruct H.
Qed.

(** A target at the close is left alone by the clamp. *)
Lemma clamp_down_at_close (t c : Q) (levels : list Q) :
  t == c -> clamp_down t c levels = t.
Proof.
  intros H. unfold clamp_down.
  destruct (nearest_above c levels) as [r|] eqn:E; [|reflexivity].
  apply nearest_above_spec in E. destruct E as (_ & Hr & _).
  destruct (Qmin_cases t r) as [[_ ?]|[-> _]]; [lra|reflexivity].
Qed.

Lemma clamp_up_at_close (t c : Q) (levels : list Q) :
  t == c -> clamp_up t c levels = t.
Proof.
  intros H. unfold clamp_up.
  destruct (nearest_below c levels) as [s|] eqn:E; [|reflexivity].
  apply nearest_below_spec in E. destruct E as (_ & Hs & _).
  destruct (Qmax_cases t s) as [[_ ?]|[-> _]]; [lra|reflexivity].
Qed.

End Clamping.

(** ** Level Generator *)

Section LevelGenerator.
Local Open Scope Q_scope.

Variable talib_ATR : DataFrame -> outcome pyfloat.

Let generate := Engine.generate_entry_exit_levels talib_ATR.
Let atr_used := Engine.atr_or_fallback talib_ATR.

Lemma current_price_of (data : DataFrame) (close : Q) :
  iloc_last (map Close data) = Returned close ->
  iloc_last (col Close data) = Returned (Fin close).
Proof.
  intros H. unfold col. rewrite <- (map_map Close Fin data).
  apply iloc_last_map. exact H.
Qed.

(** The long branch in closed form, for any finite ATR. *)
Lemma generate_long (data : DataFrame) (close atr : Q) :
  iloc_last (map Close data) = Returned close ->
  atr_used data (Fin close) = Fin atr ->
  let tp1 := clamp_down (close + 2 * atr) close
               (snd (Engine.calculate_support_resistance data)) in
  generate data "Uptrend" =
  Returned (Engine.dict
              [("direction", VStr "LONG");
               ("entry", VNum (Fin close));
               ("stop_loss", VNum (Fin (close - 2 * atr)));
               ("take_profit_1", VNum (Fin tp1));
               ("take_profit_2", VNum (Fin (close + 4 * atr)));
               ("risk_reward",
                VNum (fdiv (Fin (tp1 - close))
                           (Fin (close - (close - 2 * atr)))))]).
Proof.
  intros Hc Ha. cbv zeta. unfold generate, Engine.generate_entry_exit_levels.
  rewrite (current_price_of data close Hc). cbn [mbind outcome_bind].
  fold (atr_used data (Fin close)). rewrite Ha.
  destruct (Engine.calculate_support_resistance data) as [sup res].
  cbn [snd]. rewrite String.eqb_refl.
  cbn [fmul fadd fsub fneg].
  rewrite (long_target_clamp (close + 2 * atr) close res).
  reflexivity.
Qed.

(** The short branch in closed form, for any finite ATR. *)
Lemma generate_short (data : DataFrame) (close atr : Q) :
  iloc_last (map Close data) = Returned close ->
  atr_used data (Fin close) = Fin atr ->
  let tp1 := clamp_up (close - 2 * atr) close
               (fst (Engine.calculate_support_resistance data)) in
  generate data "Downtrend" =
  Returned (Engine.dict
              [("direction", VStr "SHORT");
               ("entry", VNum (Fin close));
               ("stop_loss", VNum (Fin (close + 2 * atr)));
               ("take_profit_1", VNum (Fin tp1));
               ("take_profit_2", VNum (Fin (close - 4 * atr)));
               ("risk_reward",
                VNum (fdiv (Fin (close - tp1))
                           (Fin (close + 2 * atr - close))))]).
Proof.
  intros Hc Ha. cbv zeta. unfold generate, Engine.generate_entry_exit_levels.
  rewrite (current_price_of data close Hc). cbn [mbind outcome_bind].
  fold (atr_used data (Fin close)). rewrite Ha.
  destruct (Engine.calculate_support_resistance data) as [sup res].
  cbn [fst].
  change (String.eqb "Downtrend" "Uptrend") with false.
  rewrite String.eqb_refl.
  cbn [fmul fadd fsub fneg].
  rewrite (short_target_clamp (close + - (2 * atr)) close sup).
  reflexivity.
Qed.

Lemma finite_ratio (num den : Q) :
  ~ den == 0 -> fdiv (Fin num) (Fin den) = Fin (num / den).
Proof.
  intros H. unfold fdiv. apply Qeq_bool_false in H. rewrite H. reflexivity.
Qed.

Lemma zero_ratio (num den : Q) :
  num == 0 -> den == 0 -> fdiv (Fin num) (Fin den) = NaN.
Proof.
  intros Hn Hd. unfold fdiv. apply Qeq_bool_iff in Hd. rewrite Hd.
  rewrite (Qcompare_0_zero num Hn). reflexivity.
Qed.

(** With an ATR of zero both directional branches divide 0 by 0: the
    plan is returned with stop_loss equal to entry and risk_reward NaN. *)
Lemma zero_atr_plan (data : DataFrame) (close atr : Q) (trend : string) :
  iloc_last (map Close data) = Returned close ->
  atr_used data (Fin close) = Fin atr ->
  atr == 0 ->
  trend = "Uptrend"%string \/ trend = "Downtrend"%string ->
  exists (levels : gmap string pyval) (entry stop : Q),
    generate data trend = Returned levels /\
    field levels "entry" entry /\
    field levels "stop_loss" stop /\
    entry == stop /\
    levels !! "risk_reward" = Some (VNum NaN).
Proof.
  intros Hc Ha Hz [->| ->].
  - eexists. exists close. eexists.
    split; [apply (generate_long data close atr Hc Ha)|]. cbv zeta.
    split; [reflexivity|]. split; [reflexivity|]. split; [lra|].
    rewrite clamp_down_at_close by lra.
    rewrite zero_ratio by lra. reflexivity.
  - eexists. exists close. eexists.
    split; [apply (generate_short data close atr Hc Ha)|]. cbv zeta.
    split; [reflexivity|]. split; [reflexivity|]. split; [lra|].
    rewrite clamp_up_at_close by lra.
    rewrite zero_ratio by lra. reflexivity.
Qed.

(** When the ATR computation raises, a directional plan is built with
    2% of the close in place of the ATR; on a series of fewer than 14
    bars with a positive close every numeric field of that plan is a
    finite number: stop at 2 x 2%, targets at 2 x 2% and 4 x 2% of the
    close away from it, risk_reward equal to 1. *)
Lemma atr_exception_fallback (data : DataFrame) (close : Q) (e : exn) :
  (length data < 14)%nat ->
  iloc_last (map Close data) = Returned close ->
  0 < close ->
  talib_ATR data = Raised e ->
  let atr := close * (2 # 100) in
  atr_used data (Fin close) = Fin atr /\
  (exists (levels : gmap string pyval) (rr : Q),
     generate data "Uptrend" = Returned levels /\
     levels !! "direction" = Some (VStr "LONG") /\
     field levels "entry" close /\
     field levels "stop_loss" (close - 2 * atr) /\
     field levels "take_profit_1" (close + 2 * atr) /\
     field levels "take_profit_2" (close + 4 * atr) /\
     field levels "risk_reward" rr /\ rr == 1) /\
  (exists (levels : gmap string pyval) (rr : Q),
     generate data "Downtrend" = Returned levels /\
     levels !! "direction" = Some (VStr "SHORT") /\
     field levels "entry" close /\
     field levels "stop_loss" (close + 2 * atr) /\
     field levels "take_profit_1" (close - 2 * atr) /\
     field levels "take_profit_2" (close - 4 * atr) /\
     field levels "risk_reward" rr /\ rr == 1).
Proof.
  intros Hlen Hc Hpos Hraise. cbv zeta.
  assert (Ha : atr_used data (Fin close) = Fin (close * (2 # 100))).
  { unfold atr_used, Engine.atr_or_fallback. rewrite Hraise. reflexivity. }
  assert (Hsr : Engine.calculate_support_resistance data = ([], [])).
  { apply support_resistance_short. lia. }
  split; [exact Ha|]. split.
  - eexists. eexists.
    split; [apply (generate_long data close _ Hc Ha)|]. cbv zeta.
    rewrite Hsr. cbn [snd]. unfold clamp_down, nearest_above. cbn [List.filter].
    split; [reflexivity|]. split; [reflexivity|]. split; [reflexivity|].
    split; [reflexivity|]. split; [reflexivity|].
    split.
    + unfold field. rewrite finite_ratio by lra. reflexivity.
    + field. lra.
  - eexists. eexists.
    split; [apply (generate_short data close _ Hc Ha)|]. cbv zeta.
    rewrite Hsr. cbn [fst]. unfold clamp_up, nearest_below. cbn [List.filter].
    split; [reflexivity|]. split; [reflexivity|]. split; [reflexivity|].
    split; [reflexivity|]. split; [reflexivity|].
    split.
    + unfold field. rewrite finite_ratio by lra. reflexivity.
    + field. lra.
Qed.

(** A NaN returned by the ATR computation is not caught by the
    [try]/[except]: it reaches every price field of the plan. *)
Lemma nan_atr_plan (data : DataFrame) (close : Q) :
  iloc_last (map Close data) = Returned close ->
  talib_ATR data = Returned NaN ->
  (length data < 20)%nat ->
  exists levels : gmap string pyval,
    generate data "Uptrend" = Returned levels /\
    levels !! "direction" = Some (VStr "LONG") /\
    levels !! "entry" = Some (VNum (Fin close)) /\
    levels !! "stop_loss" = Some (VNum NaN) /\
    levels !! "take_profit_1" = Some (VNum NaN) /\
    levels !! "take_profit_2" = Some (VNum NaN) /\
    levels !! "risk_reward" = Some (VNum NaN).
Proof.
  intros Hc Hnan Hlen. eexists. split.
  - unfold generate, Engine.generate_entry_exit_levels.
    rewrite (current_price_of data close Hc). cbn [mbind outcome_bind].
    unfold Engine.atr_or_fallback. rewrite Hnan.
    rewrite support_resistance_short by exact Hlen.
    rewrite String.eqb_refl. cbn [try_except fmul fadd fsub fneg fdiv].
    reflexivity.
  - repeat split; reflexivity.
Qed.

End LevelGenerator.

(** ** RSI *)

Section RsiRange.
Local Open Scope Q_scope.











Lemma sdiv_at (xs ys : Series) (i : nat) (x y : pyfloat) :
  iloc xs i = Returned x -> iloc ys i = Returned y ->
  iloc (sdiv xs ys) i = Returned (fdiv x y).
Proof.
  unfold iloc. revert ys i. induction xs as [|a xs IH]; intros ys i Hx Hy.
  - destruct i; discriminate.
  - destruct ys as [|b ys]; [destruct i; discriminate|].
    destruct i as [|i]; simpl in *.
    + injection Hx as <-. injection Hy as <-. reflexivity.
    + apply IH; assumption.
Qed.

End RsiRange.

(** ** Risk Sizer *)

Section RiskSizer.
Local Open Scope Q_scope.

Lemma risk_wait (price : pyfloat) (levels : gmap string pyval) :
  levels !! "direction" = Some (VStr "WAIT") ->
  Engine.calculate_risk_management price levels =
  Returned (Message "No position recommended").
Proof.
  intros H. unfold Engine.calculate_risk_management, Engine.direction_is_wait.
  rewrite H. reflexivity.
Qed.

(** The plan of a trend that is neither "Uptrend" nor "Downtrend" is a
    Wait plan, and the Risk Sizer answers it with a message. *)
Lemma wait_plan_no_position (talib_ATR : DataFrame -> outcome pyfloat)
    (data : DataFrame) (close : Q) (trend : string) (price : pyfloat) :
  iloc_last (map Close data) = Returned close ->
  trend <> "Uptrend"%string -> trend <> "Downtrend"%string ->
  exists levels : gmap string pyval,
    Engine.generate_entry_exit_levels talib_ATR data trend = Returned levels /\
    levels !! "direction" = Some (VStr "WAIT") /\
    levels !! "stop_loss" = None /\
    Engine.calculate_risk_management price levels =
    Returned (Message "No position recommended").
Proof.
  intros Hc Hu Hd. eexists. split.
  - unfold Engine.generate_entry_exit_levels.
    rewrite (current_price_of data close Hc). cbn [mbind outcome_bind].
    destruct (Engine.calculate_support_resistance data) as [sup res].
    apply String.eqb_neq in Hu. apply String.eqb_neq in Hd.
    rewrite Hu, Hd. reflexivity.
  - split; [reflexivity|]. split; [reflexivity|]. apply risk_wait. reflexivity.
Qed.

(** A directional plan whose stop equals the price: the position size
    is 200 / 0 = +inf and [int] raises. *)
Lemma zero_risk_raises (p s : Q) (levels : gmap string pyval) :
  Engine.direction_is_wait levels = false ->
  levels !! "stop_loss" = Some (VNum (Fin s)) ->
  p == s ->
  Engine.calculate_risk_management (Fin p) levels = Raised OverflowError.
Proof.
  intros Hd Hs E. unfold Engine.calculate_risk_management.
  rewrite Hd, Hs. cbn [fsub fneg fadd fabs fmul].
  assert (Hz : Qeq_bool (Qabs (p + - s)) 0 = true).
  { apply Qeq_bool_iff. apply Qabs_case; intros; lra. }
  unfold fdiv. rewrite Hz. reflexivity.
Qed.

End RiskSizer.

(** ** Degenerate inputs *)

Section DegenerateInputs.
Local Open Scope Q_scope.

(** C4. On 20 identical bars at 100 (true range 0 on every bar, ATR 0)
    with trend "Uptrend", the Level Generator returns a Long plan whose
    stop_loss equals its entry and whose risk_reward is NaN: the division
    0 / 0 is performed and its result handed to the caller. *)
Theorem C4_zero_atr_risk_reward_nan :
  exists levels : gmap string pyval,
    Engine.generate_entry_exit_levels (atr_is (Fin 0)) (flat 20 100) "Uptrend"
    = Returned levels /\
    levels !! "direction" = Some (VStr "LONG") /\
    levels !! "entry" = Some (VNum (Fin 100)) /\
    levels !! "stop_loss" = Some (VNum (Fin 100)) /\
    levels !! "risk_reward" = Some (VNum NaN).
Proof.
  assert (Hc : iloc_last (map Close (flat 20 100)) = Returned 100)
    by (vm_compute; reflexivity).
  assert (Ha : Engine.atr_or_fallback (atr_is (Fin 0)) (flat 20 100) (Fin 100)
               = Fin 0) by reflexivity.
  eexists. split; [apply (generate_long (atr_is (Fin 0)) _ 100 0 Hc Ha)|].
  cbv zeta.
  split; [reflexivity|]. split; [reflexivity|]. split; [reflexivity|].
  rewrite clamp_down_at_close by lra.
  rewrite zero_ratio by lra. reflexivity.
Qed.

(** C8. On 10 identical bars at 100 (fewer than 14 bars) with trend
    "Uptrend" and an ATR computation that yields NaN without raising,
    the 2% fallback is not taken: the Long plan is returned with
    stop_loss, both targets and risk_reward all NaN. *)
Theorem C8_short_series_nan_plan :
  (length (flat 10 100) < 14)%nat /\
  exists levels : gmap string pyval,
    Engine.generate_entry_exit_levels (atr_is NaN) (flat 10 100) "Uptrend"
    = Returned levels /\
    levels !! "direction" = Some (VStr "LONG") /\
    levels !! "entry" = Some (VNum (Fin 100)) /\
    levels !! "stop_loss" = Some (VNum NaN) /\
    levels !! "take_profit_1" = Some (VNum NaN) /\
    levels !! "take_profit_2" = Some (VNum NaN) /\
    levels !! "risk_reward" = Some (VNum NaN).
Proof.
  split; [vm_compute; lia|].
  apply (nan_atr_plan (atr_is NaN) (flat 10 100) 100).
  - vm_compute. reflexivity.
  - reflexivity.
  - vm_compute. lia.
Qed.

(** C5. The Long plan of 20 identical bars at 100 with an ATR of 0 has
    price = stop_loss = 100;
    the Risk Sizer does not return on it: it raises OverflowError. *)
Theorem C5_zero_risk_raises :
  exists levels : gmap string pyval,
    Engine.generate_entry_exit_levels (atr_is (Fin 0)) (flat 20 100) "Uptrend"
    = Returned levels /\
    levels !! "direction" = Some (VStr "LONG") /\
    levels !! "stop_loss" = Some (VNum (Fin 100)) /\
    Engine.calculate_risk_management (Fin 100) levels = Raised OverflowError.
Proof.
  assert (Hc : iloc_last (map Close (flat 20 100)) = Returned 100)
    by (vm_compute; reflexivity).
  assert (Ha : Engine.atr_or_fallback (atr_is (Fin 0)) (flat 20 100) (Fin 100)
               = Fin 0) by reflexivity.
  eexists. split; [apply (generate_long (atr_is (Fin 0)) _ 100 0 Hc Ha)|].
  cbv zeta.
  split; [reflexivity|]. split; [reflexivity|].
  apply (zero_risk_raises 100 100).
  - reflexivity.
  - reflexivity.
  - lra.
Qed.

End DegenerateInputs.

(** ** The statements at sample inputs *)

Section Instances.
Local Open Scope Q_scope.


(** Ten bars at 100 with a failing ATR computation: the stop is 4 below
    and the targets 4 and 8 above the close. *)
Lemma atr_exception_fallback_at_100 :
  exists levels : gmap string pyval,
    Engine.generate_entry_exit_levels indicator_fails (flat 10 100) "Uptrend"
    = Returned levels /\
    field levels "stop_loss" (100 - 2 * (100 * (2 # 100))) /\
    field levels "take_profit_2" (100 + 4 * (100 * (2 # 100))).
Proof.
  assert (Hlen : (length (flat 10 100) < 14)%nat) by (vm_compute; lia).
  assert (Hc : iloc_last (map Close (flat 10 100)) = Returned 100)
    by (vm_compute; reflexivity).
  assert (Hpos : 0 < 100) by reflexivity.
  destruct (atr_exception_fallback indicator_fails (flat 10 100) 100 LibraryError
              Hlen Hc Hpos eq_refl)
    as (_ & (levels & rr & Hg & _ & _ & Hs & _ & Hf & _) & _).
  exists levels. split; [exact Hg|]. split; [exact Hs|exact Hf].
Qed.

End Instances.

(** ** The model on small inputs *)

Section Evaluations.
Local Open Scope Q_scope.

Example falling_is_downtrend :
  Engine.analyze_trend (adx_is (Fin 40)) (falling 60) =
  Returned ("Downtrend", Fin 40).
Proof. vm_compute. reflexivity. Qed.

Example strength_is_capped :
  Engine.analyze_trend (adx_is (Fin 120)) (rising 60) =
  Returned ("Uptrend", Fin 100).
Proof. vm_compute. reflexivity. Qed.

Example adx_failure_defaults_to_25 :
  Engine.analyze_trend indicator_fails (flat 50 100) =
  Returned ("Sideways", Fin 25).
Proof. vm_compute. reflexivity. Qed.

Example forty_nine_bars :
  Engine.analyze_trend (adx_is (Fin 40)) (rising 49) =
  Returned ("Insufficient Data", Fin 0).
Proof. vm_compute. reflexivity. Qed.

Example no_bars_no_plan :
  Engine.generate_entry_exit_levels (atr_is (Fin 1)) [] "Uptrend" =
  Raised IndexError.
Proof. reflexivity. Qed.

Example monotone_series_has_no_pivot :
  Engine.calculate_support_resistance (rising 30) = ([], []).
Proof. vm_compute. reflexivity. Qed.

Example sizing_three_per_share :
  Engine.calculate_risk_management (Fin 100)
    (Engine.dict [("direction", VStr "LONG"); ("stop_loss", VNum (Fin 97))]) =
  Returned (Sizing (mkRisk (Fin 10000) (Fin (2 # 100)) (Fin 3) 66 (Fin 198))).
Proof. reflexivity. Qed.

Example missing_stop_is_unavailable :
  Engine.calculate_risk_management (Fin 100)
    (Engine.dict [("direction", VStr "LONG")]) =
  Returned (Message "Risk calculation unavailable").
Proof. reflexivity. Qed.

Example rsi_needs_a_full_window :
  iloc (Rsi.calculate_rsi (map Fin (map Close (rising 20))) 14) 12 = Returned NaN.
Proof. vm_compute. reflexivity. Qed.

Example rsi_of_constant_prices_is_nan :
  iloc (Rsi.calculate_rsi (map Fin (map Close (flat 20 100))) 14) 19 = Returned NaN.
Proof. vm_compute. reflexivity. Qed.

Example rsi_of_falling_prices_is_zero :
  exists r : Q,
    iloc (Rsi.calculate_rsi (map Fin (map Close (falling 20))) 14) 19 =
    Returned (Fin r) /\ r == 0.
Proof. eexists. split; vm_compute; reflexivity. Qed.

End Evaluations.

(** * Further properties of the engine *)

(** ** From the trend to the plan *)

Section Pipeline.
Local Open Scope Q_scope.

Variable talib_ATR : DataFrame -> outcome pyfloat.
Variable talib_ADX : DataFrame -> outcome pyfloat.

(** X6. Every trend other than "Uptrend" and "Downtrend" ("Sideways",
    "Insufficient Data", or any other text) gives the same two-entry
    WAIT plan, without any price field, and the Risk Sizer answers that
    plan with "No position recommended" at every price.  On an empty
    series the Level Generator raises IndexError instead, for every
    trend. *)
Theorem X6_wait_plan (data : DataFrame) (trend : string) (price : pyfloat) :
  trend <> "Uptrend"%string -> trend <> "Downtrend"%string ->
  let wait := Engine.dict [("direction", VStr "WAIT");
                           ("message", VStr "No clear trend - wait for breakout")] in
  (data <> [] ->
   Engine.generate_entry_exit_levels talib_ATR data trend = Returned wait) /\
  (data = [] ->
   forall t, Engine.generate_entry_exit_levels talib_ATR data t = Raised IndexError) /\
  wait !! "entry" = None /\ wait !! "stop_loss" = None /\
  wait !! "take_profit_1" = None /\ wait !! "take_profit_2" = None /\
  wait !! "risk_reward" = None /\
  Engine.calculate_risk_management price wait =
  Returned (Message "No position recommended").
Proof.
  intros Hu Hd. cbv zeta. split; [|split].
  - intros Hne.
    destruct (iloc_last_nonempty (map Close data)) as [close Hc].
    { rewrite length_map. destruct data; [contradiction|simpl; lia]. }
    unfold Engine.generate_entry_exit_levels.
    rewrite (current_price_of data close Hc). cbn [mbind outcome_bind].
    destruct (Engine.calculate_support_resistance data) as [sup res].
    apply String.eqb_neq in Hu. apply String.eqb_neq in Hd.
    rewrite Hu, Hd. reflexivity.
  - intros -> t. reflexivity.
  - repeat split; try reflexivity.
Qed.

End Pipeline.

(** ** Pivot Detector: the levels are local extrema *)

Section PivotExtrema.
Local Open Scope Q_scope.

Lemma window_In {A : Type} (xs : list A) (s len : nat) (x : A) :
  In x (window xs s len) <->
  exists j, (s <= j < s + len)%nat /\ nth_error xs j = Some x.
Proof.
  unfold window. split.
  - intros H. apply In_nth_error in H. destruct H as [k Hk].
    rewrite nth_error_firstn in Hk.
    destruct (k <? len)%nat eqn:E; [|discriminate].
    apply Nat.ltb_lt in E. rewrite nth_error_skipn in Hk.
    exists (s + k)%nat. split; [lia|exact Hk].
  - intros (j & Hj & Hx). apply (nth_error_In _ (j - s)).
    rewrite nth_error_firstn.
    assert (E : (j - s <? len)%nat = true) by (apply Nat.ltb_lt; lia).
    rewrite E, nth_error_skipn.
    replace (s + (j - s))%nat with j by lia. exact Hx.
Qed.

Lemma window_full_length {A : Type} (xs : list A) (s len : nat) :
  (s + len <= length xs)%nat -> length (window xs s len) = len.
Proof.
  intros H. unfold window. rewrite length_firstn, length_skipn. lia.
Qed.

Lemma fmax2_Fin (a b : Q) : fmax2 (Fin a) (Fin b) = Fin (Qmax a b).
Proof.
  unfold fmax2. cbn [fltb].
  destruct (Qmax_cases a b) as [[-> H]|[-> H]].
  - apply Qltb_lt in H. rewrite H. reflexivity.
  - apply Qltb_ge in H. rewrite H. reflexivity.
Qed.

Lemma fmin2_Fin (a b : Q) : fmin2 (Fin a) (Fin b) = Fin (Qmin a b).
Proof.
  unfold fmin2. cbn [fltb].
  destruct (Qmin_cases a b) as [[-> H]|[-> H]].
  - apply Qltb_lt in H. rewrite H. reflexivity.
  - apply Qltb_ge in H. rewrite H. reflexivity.
Qed.

Lemma fold_fmax2_Fin (l : list Q) (x : Q) :
  fold_left fmax2 (map Fin l) (Fin x) = Fin (fold_left Qmax l x).
Proof.
  revert x. induction l as [|a l IH]; intros x; [reflexivity|].
  cbn [map fold_left]. rewrite fmax2_Fin. apply IH.
Qed.

Lemma fold_fmin2_Fin (l : list Q) (x : Q) :
  fold_left fmin2 (map Fin l) (Fin x) = Fin (fold_left Qmin l x).
Proof.
  revert x. induction l as [|a l IH]; intros x; [reflexivity|].
  cbn [map fold_left]. rewrite fmin2_Fin. apply IH.
Qed.

(** The rolling extremum of a full window of finite numbers is one of
    them and bounds them all. *)
Lemma reduce_max_spec (l : list Q) :
  l <> [] ->
  exists m, reduce fmax2 (map Fin l) = Fin m /\ In m l /\ forall y, In y l -> y <= m.
Proof.
  destruct l as [|x l]; [contradiction|]. intros _.
  cbn [map reduce]. rewrite fold_fmax2_Fin.
  eexists. split; [reflexivity|]. apply (fold_Qmax_spec l x).
Qed.

Lemma reduce_min_spec (l : list Q) :
  l <> [] ->
  exists m, reduce fmin2 (map Fin l) = Fin m /\ In m l /\ forall y, In y l -> m <= y.
Proof.
  destruct l as [|x l]; [contradiction|]. intros _.
  cbn [map reduce]. rewrite fold_fmin2_Fin.
  eexists. split; [reflexivity|]. apply (fold_Qmin_spec l x).
Qed.

Lemma rolling_center_at (f : pyfloat -> pyfloat -> pyfloat) (xs : Series) (i : nat) :
  (2 <= i)%nat -> (i + 3 <= length xs)%nat ->
  nth_error (rolling_center f 5 xs) i = Some (reduce f (window xs (i - 2) 5)).
Proof.
  intros H2 Hn. unfold rolling_center.
  change ((5 - 1) / 2)%nat with 2%nat. cbv zeta.
  rewrite nth_error_map, nth_error_seq.
  assert (E : (i <? length xs)%nat = true) by (apply Nat.ltb_lt; lia).
  rewrite E. cbn [option_map Nat.add].
  assert (E1 : (i <? 2)%nat = false) by (apply Nat.ltb_ge; lia).
  assert (E2 : (length xs <? i - 2 + 5)%nat = false) by (apply Nat.ltb_ge; lia).
  rewrite E1, E2. reflexivity.
Qed.

Lemma window_col (c : Bar -> Q) (data : DataFrame) (s len : nat) :
  window (col c data) s len = map Fin (map c (window data s len)).
Proof.
  unfold col. rewrite map_map. apply window_map.
Qed.

Lemma In_range (i a b : nat) : In i (range a b) <-> (a <= i < b)%nat.
Proof. unfold range. rewrite in_seq. lia. Qed.

Lemma resistance_candidates_spec (data : DataFrame) (r : Q) :
  In r (Engine.resistance_candidates data) <->
  exists i b, is_pivot High Qle data i b /\ High b = r.
Proof.
  unfold Engine.resistance_candidates, Engine.pivot_candidates, rolling_center_max.
  rewrite in_flat_map. split.
  - intros (i & Hi & Hr). apply In_range in Hi.
    destruct (nth_error data i) as [b|] eqn:Eb; [|destruct Hr].
    rewrite rolling_center_at in Hr
      by (unfold col; rewrite ?length_map; lia).
    rewrite window_col in Hr.
    destruct (reduce_max_spec (map High (window data (i - 2) 5)))
      as (m & Hm & _ & Hmax).
    { intros E. apply (f_equal (@length Q)) in E.
      rewrite length_map, window_full_length in E by lia. discriminate. }
    rewrite Hm in Hr. cbn [feqb] in Hr.
    destruct (Qeq_bool (High b) m) eqn:Eq; [|destruct Hr].
    apply Qeq_bool_iff in Eq. destruct Hr as [<-|[]].
    exists i, b. split; [|reflexivity].
    split; [lia|]. split; [lia|]. split; [exact Eb|].
    intros j b' Hj Hb'. rewrite Eq. apply Hmax.
    apply in_map. apply window_In. exists j. split; [lia|exact Hb'].
  - intros (i & b & (H2 & Hn & Eb & Hmax) & <-).
    exists i. split; [apply In_range; lia|].
    rewrite Eb.
    rewrite rolling_center_at by (unfold col; rewrite ?length_map; lia).
    rewrite window_col.
    destruct (reduce_max_spec (map High (window data (i - 2) 5)))
      as (m & Hm & Hin & Hub).
    { intros E. apply (f_equal (@length Q)) in E.
      rewrite length_map, window_full_length in E by lia. discriminate. }
    rewrite Hm. cbn [feqb].
    assert (Eq : High b == m).
    { apply Qle_antisym.
      - apply Hub. apply in_map. apply window_In. exists i. split; [lia|exact Eb].
      - apply in_map_iff in Hin. destruct Hin as (b' & <- & Hb').
        apply window_In in Hb'. destruct Hb' as (j & Hj & Hb').
        apply (Hmax j b'); [lia|exact Hb']. }
    apply Qeq_bool_iff in Eq. rewrite Eq. left. reflexivity.
Qed.

Lemma support_candidates_spec (data : DataFrame) (s : Q) :
  In s (Engine.support_candidates data) <->
  exists i b, is_pivot Low (fun x y => y <= x) data i b /\ Low b = s.
Proof.
  unfold Engine.support_candidates, Engine.pivot_candidates, rolling_center_min.
  rewrite in_flat_map. split.
  - intros (i & Hi & Hr). apply In_range in Hi.
    destruct (nth_error data i) as [b|] eqn:Eb; [|destruct Hr].
    rewrite rolling_center_at in Hr
      by (unfold col; rewrite ?length_map; lia).
    rewrite window_col in Hr.
    destruct (reduce_min_spec (map Low (window data (i - 2) 5)))
      as (m & Hm & _ & Hmin).
    { intros E. apply (f_equal (@length Q)) in E.
      rewrite length_map, window_full_length in E by lia. discriminate. }
    rewrite Hm in Hr. cbn [feqb] in Hr.
    destruct (Qeq_bool (Low b) m) eqn:Eq; [|destruct Hr].
    apply Qeq_bool_iff in Eq. destruct Hr as [<-|[]].
    exists i, b. split; [|reflexivity].
    split; [lia|]. split; [lia|]. split; [exact Eb|].
    intros j b' Hj Hb'. rewrite Eq. apply Hmin.
    apply in_map. apply window_In. exists j. split; [lia|exact Hb'].
  - intros (i & b & (H2 & Hn & Eb & Hmin) & <-).
    exists i. split; [apply In_range; lia|].
    rewrite Eb.
    rewrite rolling_center_at by (unfold col; rewrite ?length_map; lia).
    rewrite window_col.
    destruct (reduce_min_spec (map Low (window data (i - 2) 5)))
      as (m & Hm & Hin & Hlb).
    { intros E. apply (f_equal (@length Q)) in E.
      rewrite length_map, window_full_length in E by lia. discriminate. }
    rewrite Hm. cbn [feqb].
    assert (Eq : Low b == m).
    { apply Qle_antisym.
      - apply in_map_iff in Hin. destruct Hin as (b' & <- & Hb').
        apply window_In in Hb'. destruct Hb' as (j & Hj & Hb').
        apply (Hmin j b'); [lia|exact Hb'].
      - apply Hlb. apply in_map. apply window_In. exists i. split; [lia|exact Eb]. }
    apply Qeq_bool_iff in Eq. rewrite Eq. left. reflexivity.
Qed.

End PivotExtrema.

Section PivotLevels.
Local Open Scope Q_scope.

Lemma kept_levels_are_candidates (le : Q -> Q -> bool) (cands : list Q) (x : Q) :
  In x (firstn 5 (py_sorted le (py_set cands))) -> In x cands.
Proof.
  intros H. apply firstn_subset in H.
  apply (proj1 (py_sorted_In _ _ _)) in H. apply py_set_In. exact H.
Qed.

(** X7. Every resistance level returned by the Pivot Detector is the
    High of a bar that has two bars on each side and is not exceeded by
    the High of any of the five; every support level is the Low of such
    a bar, not undercut by the Low of any of the five.  The first two
    and the last two bars of a series never give a level. *)
Theorem X7_levels_are_pivots (data : DataFrame) :
  (forall r, In r (snd (Engine.calculate_support_resistance data)) ->
             exists i b, is_pivot High Qle data i b /\ High b = r) /\
  (forall s, In s (fst (Engine.calculate_support_resistance data)) ->
             exists i b, is_pivot Low (fun x y => y <= x) data i b /\ Low b = s).
Proof.
  destruct (Nat.lt_ge_cases (length data) 20) as [H|H].
  - rewrite support_resistance_short by exact H. split; intros x [].
  - rewrite support_resistance_long by exact H. cbn [fst snd]. split.
    + intros r Hr. apply resistance_candidates_spec.
      eapply kept_levels_are_candidates. exact Hr.
    + intros s Hs. apply support_candidates_spec.
      eapply kept_levels_are_candidates. exact Hs.
Qed.

Lemma all_kept_when_few (le : Q -> Q -> bool) (cands : list Q) (c : Q) :
  (length (py_set cands) <= 5)%nat -> In c cands ->
  InA Qeq c (firstn 5 (py_sorted le (py_set cands))).
Proof.
  intros Hfew Hc.
  rewrite firstn_all2 by (rewrite py_sorted_length; exact Hfew).
  destruct (In_set_representative c cands Hc) as (c' & E & Hc').
  apply InA_alt. exists c'. split; [exact E|].
  apply (proj2 (py_sorted_In _ _ _)). exact Hc'.
Qed.

(** X8. On a series of at least 20 bars no pivot is lost except to the
    cap of 5: the High of every pivot-high bar is among the resistance
    levels returned, unless 5 levels are returned that are all strictly
    higher; the Low of every pivot-low bar is among the support levels,
    unless 5 are returned that are all strictly lower. *)
Theorem X8_pivots_are_levels (data : DataFrame) (i : nat) (b : Bar) :
  (20 <= length data)%nat ->
  let support := fst (Engine.calculate_support_resistance data) in
  let resistance := snd (Engine.calculate_support_resistance data) in
  (is_pivot High Qle data i b ->
   InA Qeq (High b) resistance \/
   (length resistance = 5%nat /\ Forall (fun k => High b < k) resistance)) /\
  (is_pivot Low (fun x y => y <= x) data i b ->
   InA Qeq (Low b) support \/
   (length support = 5%nat /\ Forall (fun k => k < Low b) support)).
Proof.
  intros Hlen. cbv zeta. split; intros Hp.
  - assert (Hc : In (High b) (Engine.resistance_candidates data))
      by (apply resistance_candidates_spec; eauto).
    destruct (Nat.le_gt_cases (length (py_set (Engine.resistance_candidates data))) 5)
      as [Hfew|Hmany].
    + left. rewrite support_resistance_long by exact Hlen. cbn [snd].
      apply all_kept_when_few; assumption.
    + destruct (kept_resistance data Hlen Hmany) as (H5 & _ & _ & Hall).
      destruct (Hall _ Hc) as [Hin|Hlow]; [left; exact Hin|right].
      split; assumption.
  - assert (Hc : In (Low b) (Engine.support_candidates data))
      by (apply support_candidates_spec; eauto).
    destruct (Nat.le_gt_cases (length (py_set (Engine.support_candidates data))) 5)
      as [Hfew|Hmany].
    + left. rewrite support_resistance_long by exact Hlen. cbn [fst].
      apply all_kept_when_few; assumption.
    + destruct (kept_support data Hlen Hmany) as (H5 & _ & _ & Hall).
      destruct (Hall _ Hc) as [Hin|Hhigh]; [left; exact Hin|right].
      split; assumption.
Qed.

End PivotLevels.

(** ** RSI: shape and the degenerate window *)

Section RsiShape.
Local Open Scope Q_scope.

Lemma rolling_mean_length (w : nat) (xs : Series) :
  length (rolling_mean w xs) = length xs.
Proof. unfold rolling_mean. rewrite length_map, length_seq. reflexivity. Qed.

Lemma diff_from_length (prev : pyfloat) (xs : Series) :
  length (diff_from prev xs) = length xs.
Proof.
  revert prev. induction xs as [|x xs IH]; intros prev; simpl; [reflexivity|].
  rewrite IH. reflexivity.
Qed.

Lemma diff_length (xs : Series) : length (diff xs) = length xs.
Proof.
  destruct xs as [|x xs]; simpl; [reflexivity|].
  rewrite diff_from_length. reflexivity.
Qed.

Lemma sdiv_length (xs ys : Series) :
  length xs = length ys -> length (sdiv xs ys) = length xs.
Proof.
  revert ys. induction xs as [|x xs IH]; intros [|y ys] H; simpl in *;
    try reflexivity; try discriminate.
  rewrite IH by congruence. reflexivity.
Qed.

Lemma gain_length (prices : Series) (period : nat) :
  length (Rsi.gain prices period) = length prices.
Proof.
  unfold Rsi.gain, where_. cbv zeta.
  rewrite rolling_mean_length, length_map, diff_length. reflexivity.
Qed.

Lemma loss_length (prices : Series) (period : nat) :
  length (Rsi.loss prices period) = length prices.
Proof.
  unfold Rsi.loss, sneg, where_. cbv zeta.
  rewrite rolling_mean_length, !length_map, diff_length. reflexivity.
Qed.

Lemma rolling_mean_early (w : nat) (xs : Series) (i : nat) :
  (i + 1 < w)%nat -> (i < length xs)%nat ->
  iloc (rolling_mean w xs) i = Returned NaN.
Proof.
  intros Hi Hlen. unfold iloc, rolling_mean.
  rewrite nth_error_map, nth_error_seq.
  assert (E : (i <? length xs)%nat = true) by (apply Nat.ltb_lt; lia).
  rewrite E. cbn [option_map Nat.add].
  assert (E' : (i + 1 <? w)%nat = true) by (apply Nat.ltb_lt; lia).
  rewrite E'. reflexivity.
Qed.

Lemma calculate_rsi_length (prices : Series) (period : nat) :
  length (Rsi.calculate_rsi prices period) = length prices.
Proof.
  unfold Rsi.calculate_rsi. cbv zeta. rewrite length_map.
  rewrite sdiv_length by (rewrite gain_length, loss_length; reflexivity).
  apply gain_length.
Qed.

(** X9. [calculate_rsi] returns one value per price, for any Series
    (finite or not) and any period, and the values before the first full
    window, at the positions i with i + 1 < period, are NaN. *)
Theorem X9_rsi_shape (prices : Series) (period : nat) :
  length (Rsi.calculate_rsi prices period) = length prices /\
  forall i, (i + 1 < period)%nat -> (i < length prices)%nat ->
            iloc (Rsi.calculate_rsi prices period) i = Returned NaN.
Proof.
  split; [apply calculate_rsi_length|].
  intros i Hi Hlen.
  - unfold Rsi.calculate_rsi. cbv zeta.
    assert (Hg : iloc (Rsi.gain prices period) i = Returned NaN).
    { unfold Rsi.gain. cbv zeta. apply rolling_mean_early; [exact Hi|].
      unfold where_. rewrite length_map, diff_length. exact Hlen. }
    assert (Hl : iloc (Rsi.loss prices period) i = Returned NaN).
    { unfold Rsi.loss. cbv zeta. apply rolling_mean_early; [exact Hi|].
      unfold sneg, where_. rewrite !length_map, diff_length. exact Hlen. }
    pose proof (sdiv_at _ _ i _ _ Hg Hl) as Hrs.
    unfold iloc in *. rewrite nth_error_map.
    destruct (nth_error (sdiv _ _) i) as [x|]; [|discriminate].
    injection Hrs as ->. reflexivity.
Qed.


End RsiShape.

(** ** The cache of enhanced_backend.py *)

Section CacheFacts.
Local Open Scope Q_scope.

Context {A : Type}.

Lemma cache_hit_or_miss (now : Q) (key : string) (m : Z) (st : Cache.store A)
    (data : A) (expiry : Q) :
  Cache.cache st !! key = Some data ->
  Cache.cache_expiry st !! key = Some expiry ->
  Cache.get_cached_data now key m st = if Qltb now expiry then Some data else None.
Proof.
  intros Hd He. unfold Cache.get_cached_data. rewrite Hd, He. reflexivity.
Qed.

(** X12. A value stored with [set_cache] is served by
    [get_cached_data] at every instant strictly before the instant of
    storing plus [expiry_minutes], and at no later instant ([None] from
    the expiry instant itself on); the store before it, and any earlier
    value of the key, play no part.  Other keys are served as before. *)
Theorem X12_cache_round_trip (now later : Q) (key other : string) (data : A)
    (minutes m1 m2 : Z) (st : Cache.store A) :
  let st' := Cache.set_cache now key data minutes st in
  (later < now + inject_Z minutes ->
   Cache.get_cached_data later key m1 st' = Some data) /\
  (now + inject_Z minutes <= later ->
   Cache.get_cached_data later key m1 st' = None) /\
  (other <> key ->
   Cache.get_cached_data later other m2 st' = Cache.get_cached_data later other m2 st).
Proof.
  cbv zeta.
  assert (Hget : Cache.get_cached_data later key m1
                   (Cache.set_cache now key data minutes st) =
                 if Qltb later (now + inject_Z minutes) then Some data else None).
  { apply cache_hit_or_miss; unfold Cache.set_cache; cbn;
      apply lookup_insert_eq. }
  split; [|split].
  - intros H. rewrite Hget. apply Qltb_lt in H. rewrite H. reflexivity.
  - intros H. rewrite Hget. apply Qltb_ge in H. rewrite H. reflexivity.
  - intros Hne. unfold Cache.get_cached_data, Cache.set_cache. cbn.
    rewrite !lookup_insert_ne by congruence. reflexivity.
Qed.

Lemma expired_keys_spec (t : Q) (st : Cache.store A) (k : string) :
  In k (Cache.expired_keys t st) <->
  exists e, Cache.cache_expiry st !! k = Some e /\ e < t.
Proof.
  unfold Cache.expired_keys. rewrite in_map_iff. split.
  - intros ([k' e] & <- & Hin). apply filter_In in Hin.
    destruct Hin as [Hin Hlt]. cbn in *.
    apply list_elem_of_In, elem_of_map_to_list in Hin.
    apply Qltb_lt in Hlt. eauto.
  - intros (e & He & Hlt). exists (k, e). split; [reflexivity|].
    apply filter_In. split.
    + apply list_elem_of_In, elem_of_map_to_list. exact He.
    + cbn. apply Qltb_lt. exact Hlt.
Qed.

Lemma fold_delete_lookup (keys : list string) (st : Cache.store A) (k : string) :
  let st' := fold_left (fun s key =>
                          Cache.mkStore (delete key (Cache.cache s))
                                        (delete key (Cache.cache_expiry s)))
                       keys st in
  (In k keys -> Cache.cache st' !! k = None /\ Cache.cache_expiry st' !! k = None) /\
  (~ In k keys -> Cache.cache st' !! k = Cache.cache st !! k /\
                  Cache.cache_expiry st' !! k = Cache.cache_expiry st !! k).
Proof.
  cbv zeta. revert st. induction keys as [|key keys IH]; intros st.
  - split; [intros []|]. intros _. split; reflexivity.
  - cbn [fold_left].
    destruct (IH (Cache.mkStore (delete key (Cache.cache st))
                                (delete key (Cache.cache_expiry st))))
      as [IHin IHout]. cbn [Cache.cache Cache.cache_expiry] in IHout.
    split.
    + intros Hin. destruct (in_dec String.string_dec k keys) as [Hk|Hk]; [auto|].
      destruct Hin as [->|Hin]; [|contradiction].
      destruct (IHout Hk) as [-> ->]. rewrite !lookup_delete_eq. split; reflexivity.
    + intros Hout.
      assert (Hne : key <> k) by (intros ->; apply Hout; left; reflexivity).
      assert (Hk : ~ In k keys) by (intros H; apply Hout; right; exact H).
      destruct (IHout Hk) as [-> ->].
      rewrite !lookup_delete_ne by exact Hne. split; reflexivity.
Qed.

(** X13. A cleanup round does not change what readers get: at the
    instant of the round and at every later instant [get_cached_data]
    answers every key as it would without the round. *)
Theorem X13_cleanup_is_invisible (t later : Q) (key : string) (m : Z)
    (st : Cache.store A) :
  t <= later ->
  Cache.get_cached_data later key m (Cache.cleanup_cache_round t st) =
  Cache.get_cached_data later key m st.
Proof.
  intros Hle. unfold Cache.cleanup_cache_round.
  destruct (fold_delete_lookup (Cache.expired_keys t st) st key) as [Hin Hout].
  cbv zeta in Hin, Hout.
  destruct (in_dec String.string_dec key (Cache.expired_keys t st)) as [Hk|Hk].
  - destruct (Hin Hk) as [Hc He].
    unfold Cache.get_cached_data at 1. rewrite Hc.
    apply expired_keys_spec in Hk. destruct Hk as (e & Hexp & Hlt).
    unfold Cache.get_cached_data. rewrite Hexp.
    destruct (Cache.cache st !! key); [|reflexivity].
    assert (Hb : Qltb later e = false) by (apply Qltb_ge; lra).
    rewrite Hb. reflexivity.
  - destruct (Hout Hk) as [Hc He].
    unfold Cache.get_cached_data. rewrite Hc, He. reflexivity.
Qed.

(** X14. A cleanup round removes exactly the entries whose expiry
    instant is strictly before the round: afterwards no expiry instant
    before the round is left, and every entry expiring at the round or
    later is still stored, value and expiry instant unchanged. *)
Theorem X14_cleanup_removes_the_stale (t : Q) (st : Cache.store A) :
  let st' := Cache.cleanup_cache_round t st in
  (forall k e, Cache.cache_expiry st' !! k = Some e <->
               Cache.cache_expiry st !! k = Some e /\ t <= e) /\
  (forall k d, Cache.cache st' !! k = Some d <->
               Cache.cache st !! k = Some d /\
               forall e, Cache.cache_expiry st !! k = Some e -> t <= e).
Proof.
  cbv zeta. unfold Cache.cleanup_cache_round. split; intros k x.
  - destruct (fold_delete_lookup (Cache.expired_keys t st) st k) as [Hin Hout].
    cbv zeta in Hin, Hout.
    destruct (in_dec String.string_dec k (Cache.expired_keys t st)) as [Hk|Hk].
    + destruct (Hin Hk) as [_ He]. rewrite He.
      apply expired_keys_spec in Hk. destruct Hk as (e & Hexp & Hlt).
      split; [discriminate|]. intros [H1 H2]. rewrite Hexp in H1.
      injection H1 as ->. lra.
    + destruct (Hout Hk) as [_ He]. rewrite He.
      split; [|intros [H _]; exact H]. intros H. split; [exact H|].
      destruct (Qlt_le_dec x t) as [Hlt|Hge]; [|exact Hge].
      exfalso. apply Hk. apply expired_keys_spec. eauto.
  - destruct (fold_delete_lookup (Cache.expired_keys t st) st k) as [Hin Hout].
    cbv zeta in Hin, Hout.
    destruct (in_dec String.string_dec k (Cache.expired_keys t st)) as [Hk|Hk].
    + destruct (Hin Hk) as [Hc _]. rewrite Hc.
      apply expired_keys_spec in Hk. destruct Hk as (e & Hexp & Hlt).
      split; [discriminate|]. intros [_ H2]. specialize (H2 e Hexp). lra.
    + destruct (Hout Hk) as [Hc _]. rewrite Hc.
      split; [|intros [H _]; exact H]. intros H. split; [exact H|].
      intros e Hexp. destruct (Qlt_le_dec e t) as [Hlt|Hge]; [|exact Hge].
      exfalso. apply Hk. apply expired_keys_spec. eauto.
Qed.

End CacheFacts.

(** ** The trading signal of quick_start.py and enhanced_backend.py *)

Section SignalFacts.
Local Open Scope Q_scope.






End SignalFacts.

Section SignalTheorems.
Local Open Scope Q_scope.




(** *** Unbroken runs *)













(** *** enhanced_backend.py: the signal endpoint *)


Lemma signal_logic_values (current_price sma_20 sma_50 rsi : pyfloat) :
  let '(signal, confidence) :=
    Signal.signal_logic current_price sma_20 sma_50 rsi in
  signal = "BUY"%string /\ confidence = 8 # 10 \/
  signal = "SELL"%string /\ confidence = 7 # 10 \/
  signal = "HOLD"%string /\ confidence = 5 # 10.
Proof.
  unfold Signal.signal_logic.
  destruct (fgtb current_price sma_20 && fgtb sma_20 sma_50 && fltb rsi (Fin 70));
    [left; split; reflexivity|].
  destruct (fltb current_price sma_20 && fltb sma_20 sma_50 && fgtb rsi (Fin 30));
    [right; left; split; reflexivity|right; right; split; reflexivity].
Qed.


End SignalTheorems.

(** ** The signal routes of the backend *)

Section RouteFacts.
Local Open Scope Q_scope.
Import Signal.






End RouteFacts.

(** ** Instances of the further properties *)

Section FurtherInstances.
Local Open Scope Q_scope.

Lemma X6_wait_plan_witness :
  Engine.generate_entry_exit_levels (atr_is (Fin 5)) six_pivots "Sideways" =
  Returned (Engine.dict [("direction", VStr "WAIT");
                         ("message", VStr "No clear trend - wait for breakout")]).
Proof.
  assert (H1 : "Sideways"%string <> "Uptrend"%string) by discriminate.
  assert (H2 : "Sideways"%string <> "Downtrend"%string) by discriminate.
  assert (Hne : six_pivots <> []) by discriminate.
  exact (proj1 (X6_wait_plan (atr_is (Fin 5)) six_pivots "Sideways" (Fin 100) H1 H2)
               Hne).
Defined.

Lemma X8_pivots_are_levels_witness :
  InA Qeq 110 (snd (Engine.calculate_support_resistance six_pivots)) \/
  (length (snd (Engine.calculate_support_resistance six_pivots)) = 5%nat /\
   Forall (fun k => 110 < k) (snd (Engine.calculate_support_resistance six_pivots))).
Proof.
  assert (H20 : (20 <= length six_pivots)%nat) by (vm_compute; lia).
  assert (Hp : is_pivot High Qle six_pivots 17 (mkBar 100 110 99 100 1000)).
  { split; [lia|]. split; [vm_compute; lia|]. split; [reflexivity|].
    intros j b' [Hlo Hhi] Hn.
    do 15 (destruct j as [|j]; [lia|]).
    do 5 (destruct j as [|j];
          [vm_compute in Hn; injection Hn as <-; vm_compute; discriminate|]).
    lia. }
  exact (proj1 (X8_pivots_are_levels six_pivots 17 (mkBar 100 110 99 100 1000) H20) Hp).
Defined.





End FurtherInstances.

(** * Properties over doubles *)

(** ** Rounding to the nearest double *)

Section IeeeFacts.
Local Open Scope Q_scope.
Import Ieee.

Lemma rne_comp (x y : Q) : x == y -> rne x = rne y.
Proof.
  intros H. unfold rne. rewrite (Qfloor_comp _ _ H).
  assert (E : x - inject_Z (Qfloor y) == y - inject_Z (Qfloor y))
    by (rewrite H; reflexivity).
  rewrite (Qcompare_comp _ _ E _ _ (Qeq_refl (1 # 2))). reflexivity.
Qed.

Lemma rne_bounds (x : Q) : (Qfloor x <= rne x <= Qfloor x + 1)%Z.
Proof.
  unfold rne. destruct (Qcompare _ _); [destruct (Z.even _)|..]; lia.
Qed.

Lemma rne_Z (k : Z) : rne (inject_Z k) = k.
Proof.
  unfold rne. rewrite Qfloor_Z.
  assert (E : inject_Z k - inject_Z k == 0) by ring.
  rewrite (Qcompare_comp _ _ E _ _ (Qeq_refl (1 # 2))). reflexivity.
Qed.

(** Rounding to an integer keeps the order. *)
Lemma rne_mono (x y : Q) : x <= y -> (rne x <= rne y)%Z.
Proof.
  intros H. pose proof (Qfloor_resp_le _ _ H) as Hf.
  pose proof (rne_bounds x) as Bx. pose proof (rne_bounds y) as By.
  destruct (Z.eq_dec (Qfloor x) (Qfloor y)) as [E|NE]; [|lia].
  unfold rne in *. rewrite E in *.
  set (f := Qfloor y) in *.
  destruct (Qcompare_spec (x - inject_Z f) (1 # 2)) as [Hx|Hx|Hx];
    destruct (Qcompare_spec (y - inject_Z f) (1 # 2)) as [Hy|Hy|Hy];
    try lia; try (destruct (Z.even f); lia); exfalso; lra.
Qed.

Lemma rne_ge (k : Z) (x : Q) : inject_Z k <= x -> (k <= rne x)%Z.
Proof. intros H. rewrite <- (rne_Z k). apply rne_mono. exact H. Qed.

Lemma rne_le (k : Z) (x : Q) : x <= inject_Z k -> (rne x <= k)%Z.
Proof. intros H. rewrite <- (rne_Z k). apply rne_mono. exact H. Qed.

Lemma ulp_exp_nonneg (a : Q) : (0 <= ulp_exp a)%Z.
Proof. unfold ulp_exp. lia. Qed.

Lemma inject_pow2_pos (s : Z) : (0 <= s)%Z -> 0 < inject_Z (2 ^ s).
Proof.
  intros H. change 0 with (inject_Z 0). rewrite <- Zlt_Qlt.
  apply Z.pow_pos_nonneg; lia.
Qed.

Lemma units_pos : 0 < units.
Proof. apply inject_pow2_pos. lia. Qed.

Lemma ulp_exp_mono (a b : Q) : a <= b -> (ulp_exp a <= ulp_exp b)%Z.
Proof.
  intros H. unfold ulp_exp.
  pose proof (Z.log2_le_mono _ _ (Qfloor_resp_le _ _ H)). lia.
Qed.

(** A magnitude is below the power of two that follows it. *)
Lemma below_next_pow2 (a : Q) :
  0 <= a -> a < inject_Z (2 ^ (Z.log2 (Qfloor a) + 1)).
Proof.
  intros Ha.
  assert (Hf : (0 <= Qfloor a)%Z).
  { rewrite <- (Qfloor_Z 0). apply Qfloor_resp_le. exact Ha. }
  assert (Hlt : (Qfloor a + 1 <= 2 ^ (Z.log2 (Qfloor a) + 1))%Z).
  { destruct (Z.eq_dec (Qfloor a) 0%Z) as [->|Hne].
    - simpl. lia.
    - pose proof (Z.log2_spec (Qfloor a) ltac:(lia)) as [_ H].
      replace (Z.succ (Z.log2 (Qfloor a))) with (Z.log2 (Qfloor a) + 1)%Z in H
        by lia.
      lia. }
  eapply Qlt_le_trans; [apply Qlt_floor|].
  rewrite <- Zle_Qle. exact Hlt.
Qed.

(** Above the subnormal range a magnitude has 53 significant bits. *)
Lemma above_pow2 (a : Q) :
  (0 < ulp_exp a)%Z -> inject_Z (2 ^ (ulp_exp a + 52)) <= a.
Proof.
  unfold ulp_exp. intros Hs.
  assert (Hl : (52 < Z.log2 (Qfloor a))%Z) by lia.
  replace (Z.max (Z.log2 (Qfloor a) - 52) 0 + 52)%Z with (Z.log2 (Qfloor a))
    by lia.
  assert (Hf : (0 < Qfloor a)%Z).
  { destruct (Z.lt_ge_cases 0%Z (Qfloor a)); [assumption|].
    rewrite Z.log2_nonpos in Hl by lia. lia. }
  pose proof (Z.log2_spec (Qfloor a) Hf) as [H _].
  eapply Qle_trans; [|apply Qfloor_le]. rewrite <- Zle_Qle. exact H.
Qed.

Lemma div_pow2 (n s : Z) :
  (0 <= s <= n)%Z -> inject_Z (2 ^ n) / inject_Z (2 ^ s) == inject_Z (2 ^ (n - s)).
Proof.
  intros H.
  replace n with ((n - s) + s)%Z at 1 by lia.
  rewrite Z.pow_add_r by lia. rewrite inject_Z_mult.
  field. pose proof (inject_pow2_pos s ltac:(lia)). lra.
Qed.

(** Rounding a magnitude keeps the order: within one binade it is the
    rounding to an integer, and the power of two between two binades is
    kept by both. *)
Lemma round_units_mono (a b : Q) :
  0 <= a -> a <= b -> (round_units a <= round_units b)%Z.
Proof.
  intros Ha Hab. unfold round_units.
  pose proof (ulp_exp_mono a b Hab) as Hs.
  pose proof (ulp_exp_nonneg a) as Hsa. pose proof (ulp_exp_nonneg b) as Hsb.
  destruct (Z.eq_dec (ulp_exp a) (ulp_exp b)) as [E|NE].
  - rewrite E. apply Z.mul_le_mono_nonneg_r; [apply Z.pow_nonneg; lia|].
    apply rne_mono.
    pose proof (inject_pow2_pos (ulp_exp b) Hsb) as Hp.
    apply Qmult_le_compat_r; [exact Hab|].
    apply Qlt_le_weak. apply Qinv_lt_0_compat. exact Hp.
  - assert (Hlt : (ulp_exp a < ulp_exp b)%Z) by lia.
    pose proof (above_pow2 b ltac:(lia)) as Hb.
    pose proof (below_next_pow2 a Ha) as Hup.
    set (La := Z.log2 (Qfloor a)) in *.
    assert (HLa : (0 <= La)%Z) by apply Z.log2_nonneg.
    assert (Hsa' : (ulp_exp a <= La + 1)%Z) by (unfold ulp_exp; fold La; lia).
    assert (HL : (La + 1 <= ulp_exp b + 52)%Z)
      by (unfold ulp_exp in Hlt |- *; fold La in Hlt; lia).
    assert (H1 : (rne (a / inject_Z (2 ^ ulp_exp a)) * 2 ^ ulp_exp a
                  <= 2 ^ (La + 1))%Z).
    { replace (La + 1)%Z with ((La + 1 - ulp_exp a) + ulp_exp a)%Z at 1 by lia.
      rewrite Z.pow_add_r by lia.
      apply Z.mul_le_mono_nonneg_r; [apply Z.pow_nonneg; lia|].
      apply rne_le. rewrite <- div_pow2 by lia.
      pose proof (inject_pow2_pos (ulp_exp a) Hsa) as Hp.
      apply Qmult_le_compat_r; [apply Qlt_le_weak; exact Hup|].
      apply Qlt_le_weak. apply Qinv_lt_0_compat. exact Hp. }
    assert (H2 : (2 ^ (ulp_exp b + 52)
                  <= rne (b / inject_Z (2 ^ ulp_exp b)) * 2 ^ ulp_exp b)%Z).
    { replace (ulp_exp b + 52)%Z with (52 + ulp_exp b)%Z by lia.
      rewrite Z.pow_add_r by lia.
      apply Z.mul_le_mono_nonneg_r; [apply Z.pow_nonneg; lia|].
      apply rne_ge.
      replace 52%Z with (ulp_exp b + 52 - ulp_exp b)%Z by lia.
      rewrite <- div_pow2 by lia.
      pose proof (inject_pow2_pos (ulp_exp b) Hsb) as Hp.
      apply Qmult_le_compat_r; [exact Hb|].
      apply Qlt_le_weak. apply Qinv_lt_0_compat. exact Hp. }
    assert (H3 : (2 ^ (La + 1) <= 2 ^ (ulp_exp b + 52))%Z)
      by (apply Z.pow_le_mono_r; lia).
    lia.
Qed.

Lemma round_units_nonneg (a : Q) : 0 <= a -> (0 <= round_units a)%Z.
Proof.
  intros Ha. unfold round_units.
  apply Z.mul_nonneg_nonneg; [|apply Z.pow_nonneg; lia].
  apply (rne_ge 0%Z).
  pose proof (inject_pow2_pos (ulp_exp a) (ulp_exp_nonneg a)) as Hp.
  apply Qle_shift_div_l; [exact Hp|]. change (inject_Z 0) with 0. lra.
Qed.

Lemma round_units_comp (a b : Q) : a == b -> round_units a = round_units b.
Proof.
  intros H. unfold round_units, ulp_exp. rewrite (Qfloor_comp _ _ H).
  f_equal. apply rne_comp. rewrite H. reflexivity.
Qed.

Lemma Qltb_comp (a b c d : Q) : a == b -> c == d -> Qltb a c = Qltb b d.
Proof.
  intros H1 H2. destruct (Qltb b d) eqn:E.
  - apply Qltb_lt. apply Qltb_lt in E. lra.
  - apply Qltb_ge. apply Qltb_ge in E. lra.
Qed.

(** Equal rationals round to the same double. *)
Lemma round64_comp (q q' : Q) : q == q' -> round64 q = round64 q'.
Proof.
  intros H. unfold round64.
  assert (E : Qabs q * units == Qabs q' * units) by (rewrite H; reflexivity).
  rewrite (round_units_comp _ _ E), (Qltb_comp q q' 0 0 H (Qeq_refl 0)).
  reflexivity.
Qed.

(** Rounding is never NaN. *)
Lemma round64_not_nan (q : Q) : round64 q <> NaN.
Proof.
  unfold round64. destruct (_ <=? _)%Z; [destruct (Qltb q 0)|]; discriminate.
Qed.

(** Rounding to the nearest double keeps the order. *)
Lemma round64_mono (q1 q2 : Q) : q1 <= q2 -> fle (round64 q1) (round64 q2).
Proof.
  intros H. unfold round64.
  pose proof units_pos as Hu.
  set (n1 := round_units (Qabs q1 * units)).
  set (n2 := round_units (Qabs q2 * units)).
  assert (Hn1 : (0 <= n1)%Z).
  { apply round_units_nonneg. apply Qmult_le_0_compat; [apply Qabs_nonneg|lra]. }
  assert (Hn2 : (0 <= n2)%Z).
  { apply round_units_nonneg. apply Qmult_le_0_compat; [apply Qabs_nonneg|lra]. }
  assert (Hq1 : 0 <= inject_Z n1)
    by (change 0 with (inject_Z 0); rewrite <- Zle_Qle; exact Hn1).
  assert (Hq2 : 0 <= inject_Z n2)
    by (change 0 with (inject_Z 0); rewrite <- Zle_Qle; exact Hn2).
  destruct (Qltb q1 0) eqn:E1; destruct (Qltb q2 0) eqn:E2.
  - apply Qltb_lt in E1. apply Qltb_lt in E2.
    assert (Hle : (n2 <= n1)%Z).
    { apply round_units_mono.
      - apply Qmult_le_0_compat; [apply Qabs_nonneg|lra].
      - apply Qmult_le_compat_r; [|lra].
        rewrite !Qabs_neg by lra. lra. }
    destruct (2 ^ 2098 <=? n1)%Z eqn:T1; destruct (2 ^ 2098 <=? n2)%Z eqn:T2;
      cbn [fle]; try exact I.
    + apply Z.leb_le in T2. apply Z.leb_gt in T1. lia.
    + rewrite !Qred_correct.
      apply Qmult_le_compat_r; [|apply Qlt_le_weak, Qinv_lt_0_compat; exact Hu].
      rewrite Zle_Qle in Hle. lra.
  - destruct (2 ^ 2098 <=? n1)%Z eqn:T1; destruct (2 ^ 2098 <=? n2)%Z eqn:T2;
      cbn [fle]; try exact I.
    rewrite !Qred_correct.
    apply Qle_trans with 0.
    + apply Qle_shift_div_r; [exact Hu|]. lra.
    + apply Qle_shift_div_l; [exact Hu|]. lra.
  - apply Qltb_ge in E1. apply Qltb_lt in E2. lra.
  - apply Qltb_ge in E1. apply Qltb_ge in E2.
    assert (Hle : (n1 <= n2)%Z).
    { apply round_units_mono.
      - apply Qmult_le_0_compat; [apply Qabs_nonneg|lra].
      - apply Qmult_le_compat_r; [|lra].
        rewrite !Qabs_pos by lra. lra. }
    destruct (2 ^ 2098 <=? n1)%Z eqn:T1; destruct (2 ^ 2098 <=? n2)%Z eqn:T2;
      cbn [fle]; try exact I.
    + apply Z.leb_le in T1. apply Z.leb_gt in T2. lia.
    + rewrite !Qred_correct.
      apply Qmult_le_compat_r; [|apply Qlt_le_weak, Qinv_lt_0_compat; exact Hu].
      rewrite Zle_Qle in Hle. lra.
Qed.

End IeeeFacts.


(** ** The order of doubles under the operations *)

Section OrderFacts.
Local Open Scope Q_scope.

Lemma fle_Fin_l (a b : Q) (z : pyfloat) : a == b -> fle (Fin a) z -> fle (Fin b) z.
Proof. intros E. destruct z; cbn [fle]; try tauto. intros H. lra. Qed.

Lemma fle_Fin_r (a b : Q) (z : pyfloat) : a == b -> fle z (Fin a) -> fle z (Fin b).
Proof. intros E. destruct z; cbn [fle]; try tauto. intros H. lra. Qed.






Lemma fle_fltb_false (x y : pyfloat) : fle x y -> fltb y x = false.
Proof.
  destruct x, y; cbn [fle fltb]; try tauto.
  intros H. apply Qltb_ge. exact H.
Qed.

Lemma fle_fltb_true (c d : Q) (y : pyfloat) :
  c < d -> fle (Fin d) y -> fltb (Fin c) y = true.
Proof.
  destruct y; cbn [fle fltb]; try tauto.
  intros H1 H2. apply Qltb_lt. lra.
Qed.


(** [x < y] excludes [y < x]. *)
Lemma fltb_asym (x y : pyfloat) : fltb x y = true -> fltb y x = false.
Proof.
  destruct x, y; cbn [fltb]; try discriminate; try reflexivity.
  intros H. apply Qltb_lt in H. apply Qltb_ge. lra.
Qed.

Lemma double_0 : is_double 0.
Proof. exists 0. split; [vm_compute; reflexivity|reflexivity]. Qed.

Lemma double_1 : is_double 1.
Proof. exists 1. split; [vm_compute; reflexivity|reflexivity]. Qed.

Lemma double_100 : is_double 100.
Proof. exists 100. split; [vm_compute; reflexivity|reflexivity]. Qed.

(** Rounding never crosses a double. *)
Lemma round64_ge_double (x q : Q) :
  is_double x -> x <= q -> fle (Fin x) (Ieee.round64 q).
Proof.
  intros (r & Hr & E) H. pose proof (round64_mono x q H) as Hm.
  rewrite Hr in Hm. exact (fle_Fin_l r x _ E Hm).
Qed.

Lemma round64_le_double (x q : Q) :
  is_double x -> q <= x -> fle (Ieee.round64 q) (Fin x).
Proof.
  intros (r & Hr & E) H. pose proof (round64_mono q x H) as Hm.
  rewrite Hr in Hm. exact (fle_Fin_r r x _ E Hm).
Qed.

(** Between two doubles the result is a number between them. *)
Lemma round64_between (lo hi q : Q) :
  is_double lo -> is_double hi -> lo <= q -> q <= hi ->
  exists r, Ieee.round64 q = Fin r /\ lo <= r /\ r <= hi.
Proof.
  intros Hlo Hhi H1 H2.
  pose proof (round64_ge_double lo q Hlo H1) as L.
  pose proof (round64_le_double hi q Hhi H2) as U.
  destruct (Ieee.round64 q) as [r| | |]; cbn [fle] in L, U; try tauto.
  exists r. split; [reflexivity|]. split; assumption.
Qed.

(** A double is rounded to itself. *)
Lemma round64_double (x q : Q) :
  is_double x -> q == x -> exists r, Ieee.round64 q = Fin r /\ r == x.
Proof.
  intros (r & Hr & E) H. exists r. split; [|exact E].
  rewrite (round64_comp q x H). exact Hr.
Qed.

Lemma fadd_not_nan (c : Q) (y : pyfloat) : y <> NaN -> Ieee.fadd (Fin c) y <> NaN.
Proof.
  destruct y; cbn [Ieee.fadd Num.fadd]; try discriminate; try tauto.
  intros _. apply round64_not_nan.
Qed.












End OrderFacts.


(** ** Trend Classifier over doubles *)

Section FpTrend.
Local Open Scope Q_scope.

Variable talib_ADX : DataFrame -> outcome pyfloat.
Variable rolling_mean_value : nat -> Series -> nat -> pyfloat.

(** The last value of a rolling mean. *)
Lemma fp_rolling_mean_last (w : nat) (xs : Series) :
  (0 < length xs)%nat ->
  iloc_last (Fp.rolling_mean rolling_mean_value w xs) =
  Returned (if (length xs <? w)%nat then NaN
            else rolling_mean_value w xs (length xs - 1)).
Proof.
  intros Hpos. unfold Fp.rolling_mean.
  destruct (length xs) as [|m] eqn:El; [lia|].
  rewrite (iloc_last_map _ _ m (iloc_last_seq m)).
  replace (m + 1)%nat with (S m) by lia.
  replace (S m - 1)%nat with m by lia. reflexivity.
Qed.

Lemma fp_analyze_trend_short (data : DataFrame) :
  (length data < 50)%nat ->
  Fp.analyze_trend talib_ADX rolling_mean_value data =
  Returned ("Insufficient Data"%string, Fin 0).
Proof.
  intros H. unfold Fp.analyze_trend.
  assert (Hb : (length data <? 50)%nat = true) by (apply Nat.ltb_lt; exact H).
  rewrite Hb. reflexivity.
Qed.

Lemma fp_analyze_trend_cases (data : DataFrame) :
  (50 <= length data)%nat ->
  exists close,
    iloc_last (map Close data) = Returned close /\
    let sma_20 := rolling_mean_value 20 (col Close data) (length data - 1) in
    let sma_50 := rolling_mean_value 50 (col Close data) (length data - 1) in
    let adx := Engine.trend_strength talib_ADX data in
    Fp.analyze_trend talib_ADX rolling_mean_value data =
    Returned
      (if fgtb (Fin close) sma_20 && fgtb sma_20 sma_50 then
         ("Uptrend"%string, py_min adx (Fin 100))
       else if fltb (Fin close) sma_20 && fltb sma_20 sma_50 then
         ("Downtrend"%string, py_min adx (Fin 100))
       else
         ("Sideways"%string,
          if fgtb adx (Fin 25) then py_max (Ieee.fsub (Fin 25) adx) (Fin 0)
          else Fin 25)).
Proof.
  intros Hlen.
  destruct (iloc_last_nonempty (map Close data)) as [close Hc].
  { rewrite length_map. lia. }
  exists close. split; [exact Hc|]. cbv zeta.
  unfold Fp.analyze_trend.
  assert (Hb : (length data <? 50)%nat = false) by (apply Nat.ltb_ge; lia).
  rewrite Hb.
  assert (Hl : length (col Close data) = length data)
    by (unfold col; apply length_map).
  rewrite !fp_rolling_mean_last by (rewrite Hl; lia).
  rewrite Hl.
  assert (H20 : (length data <? 20)%nat = false) by (apply Nat.ltb_ge; lia).
  rewrite H20, Hb. rewrite (current_price_of data close Hc).
  cbn [mbind outcome_bind].
  destruct (fgtb (Fin close) _ && fgtb _ _); [reflexivity|].
  destruct (fltb (Fin close) _ && fltb _ _); reflexivity.
Qed.

(** C1. Trend Classifier contract over doubles: fewer than 50 bars give
    "Insufficient Data" with strength 0.  From 50 bars on, with SMA(20)
    and SMA(50) the doubles that the rolling means hold at the last bar,
    the result is "Uptrend" exactly when close > SMA(20) > SMA(50) and
    "Downtrend" exactly when close < SMA(20) < SMA(50), both with
    strength min(trend_strength, 100), and otherwise "Sideways" with
    strength max(25 - trend_strength, 0) when trend_strength > 25 and 25
    otherwise.  Where the two doubles are within [e] of the exact means
    of the last 20 and 50 closes, the answer is the one of the exact
    means as soon as these are more than [e] and [2 e] apart. *)
Theorem C1_trend_classifier_contract (data : DataFrame) :
  let analyze := Fp.analyze_trend talib_ADX rolling_mean_value in
  let adx := Engine.trend_strength talib_ADX data in
  ((length data < 50)%nat ->
   analyze data = Returned ("Insufficient Data"%string, Fin 0)) /\
  ((50 <= length data)%nat ->
   exists (close : Q) (trend : string) (strength : pyfloat),
     iloc_last (map Close data) = Returned close /\
     analyze data = Returned (trend, strength) /\
     let sma_20 := rolling_mean_value 20 (col Close data) (length data - 1) in
     let sma_50 := rolling_mean_value 50 (col Close data) (length data - 1) in
     let up := fgtb (Fin close) sma_20 = true /\ fgtb sma_20 sma_50 = true in
     let down := fltb (Fin close) sma_20 = true /\ fltb sma_20 sma_50 = true in
     (trend = "Uptrend"%string <-> up) /\
     (trend = "Downtrend"%string <-> down) /\
     (trend = "Sideways"%string <-> ~ up /\ ~ down) /\
     (up \/ down -> strength = py_min adx (Fin 100)) /\
     (~ up /\ ~ down ->
      strength = if fgtb adx (Fin 25)
                 then py_max (Ieee.fsub (Fin 25) adx) (Fin 0)
                 else Fin 25) /\
     (forall e m20 m50 : Q,
        sma_20 = Fin m20 -> sma_50 = Fin m50 ->
        Qabs (m20 - SMA 20 data) <= e -> Qabs (m50 - SMA 50 data) <= e ->
        (SMA 20 data + e < close /\ SMA 50 data + 2 * e < SMA 20 data ->
         trend = "Uptrend"%string) /\
        (close < SMA 20 data - e /\ SMA 20 data + 2 * e < SMA 50 data ->
         trend = "Downtrend"%string))).
Proof.
  cbv zeta. split; [apply fp_analyze_trend_short|].
  intros Hlen.
  destruct (fp_analyze_trend_cases data Hlen) as (close & Hc & Ha).
  cbv zeta in Ha.
  set (sma_20 := rolling_mean_value 20 (col Close data) (length data - 1)) in *.
  set (sma_50 := rolling_mean_value 50 (col Close data) (length data - 1)) in *.
  set (up := fgtb (Fin close) sma_20 = true /\ fgtb sma_20 sma_50 = true).
  set (down := fltb (Fin close) sma_20 = true /\ fltb sma_20 sma_50 = true).
  assert (Hu : fgtb (Fin close) sma_20 && fgtb sma_20 sma_50 = true <-> up)
    by apply andb_true_iff.
  assert (Hd : fltb (Fin close) sma_20 && fltb sma_20 sma_50 = true <-> down)
    by apply andb_true_iff.
  assert (Hex : up -> down -> False).
  { unfold up, down, fgtb. intros [H1 _] [H2 _].
    apply fltb_asym in H1. congruence. }
  assert (Hrob : forall e m20 m50 : Q,
             sma_20 = Fin m20 -> sma_50 = Fin m50 ->
             Qabs (m20 - SMA 20 data) <= e -> Qabs (m50 - SMA 50 data) <= e ->
             (SMA 20 data + e < close /\ SMA 50 data + 2 * e < SMA 20 data -> up) /\
             (close < SMA 20 data - e /\ SMA 20 data + 2 * e < SMA 50 data -> down)).
  { intros e m20 m50 E20 E50 B20 B50.
    apply Qabs_Qle_condition in B20. apply Qabs_Qle_condition in B50.
    unfold up, down, fgtb. rewrite E20, E50. cbn [fltb].
    rewrite !Qltb_lt. split; intros [? ?]; split; lra. }
  assert (Hfin : forall (trend : string) (strength : pyfloat),
             (trend = "Uptrend"%string <-> up) ->
             (trend = "Downtrend"%string <-> down) ->
             (trend = "Sideways"%string <-> ~ up /\ ~ down) ->
             (up \/ down -> strength = py_min (Engine.trend_strength talib_ADX data)
                                              (Fin 100)) ->
             (~ up /\ ~ down ->
              strength = if fgtb (Engine.trend_strength talib_ADX data) (Fin 25)
                         then py_max (Ieee.fsub (Fin 25)
                                        (Engine.trend_strength talib_ADX data))
                                     (Fin 0)
                         else Fin 25) ->
             Fp.analyze_trend talib_ADX rolling_mean_value data =
               Returned (trend, strength) ->
             exists (close0 : Q) (trend0 : string) (strength0 : pyfloat),
               iloc_last (map Close data) = Returned close0 /\
               Fp.analyze_trend talib_ADX rolling_mean_value data =
                 Returned (trend0, strength0) /\
               (trend0 = "Uptrend"%string <->
                fgtb (Fin close0) sma_20 = true /\ fgtb sma_20 sma_50 = true) /\
               (trend0 = "Downtrend"%string <->
                fltb (Fin close0) sma_20 = true /\ fltb sma_20 sma_50 = true) /\
               (trend0 = "Sideways"%string <->
                ~ (fgtb (Fin close0) sma_20 = true /\ fgtb sma_20 sma_50 = true) /\
                ~ (fltb (Fin close0) sma_20 = true /\ fltb sma_20 sma_50 = true)) /\
               (fgtb (Fin close0) sma_20 = true /\ fgtb sma_20 sma_50 = true \/
                fltb (Fin close0) sma_20 = true /\ fltb sma_20 sma_50 = true ->
                strength0 = py_min (Engine.trend_strength talib_ADX data) (Fin 100)) /\
               (~ (fgtb (Fin close0) sma_20 = true /\ fgtb sma_20 sma_50 = true) /\
                ~ (fltb (Fin close0) sma_20 = true /\ fltb sma_20 sma_50 = true) ->
                strength0 = if fgtb (Engine.trend_strength talib_ADX data) (Fin 25)
                            then py_max (Ieee.fsub (Fin 25)
                                           (Engine.trend_strength talib_ADX data))
                                        (Fin 0)
                            else Fin 25) /\
               (forall e m20 m50 : Q,
                  sma_20 = Fin m20 -> sma_50 = Fin m50 ->
                  Qabs (m20 - SMA 20 data) <= e -> Qabs (m50 - SMA 50 data) <= e ->
                  (SMA 20 data + e < close0 /\ SMA 50 data + 2 * e < SMA 20 data ->
                   trend0 = "Uptrend"%string) /\
                  (close0 < SMA 20 data - e /\ SMA 20 data + 2 * e < SMA 50 data ->
                   trend0 = "Downtrend"%string))).
  { intros trend strength T1 T2 T3 S1 S2 Hret.
    exists close, trend, strength.
    split; [exact Hc|]. split; [exact Hret|].
    fold up down.
    split; [exact T1|]. split; [exact T2|]. split; [exact T3|].
    split; [exact S1|]. split; [exact S2|].
    intros e m20 m50 E20 E50 B20 B50.
    destruct (Hrob e m20 m50 E20 E50 B20 B50) as [R1 R2].
    split; intros H; [apply T1, R1, H|apply T2, R2, H]. }
  clear Hrob.
  destruct (fgtb (Fin close) sma_20 && fgtb sma_20 sma_50).
  - assert (Hup : up) by (apply Hu; reflexivity). clear Hu Hd.
    refine (Hfin _ _ _ _ _ _ _ Ha); clear Hfin Ha; clearbody up down;
      try split; intros; first [reflexivity | discriminate | tauto | exfalso; tauto].
  - assert (Hup : ~ up) by (rewrite <- Hu; discriminate). clear Hu.
    destruct (fltb (Fin close) sma_20 && fltb sma_20 sma_50).
    + assert (Hdn : down) by (apply Hd; reflexivity). clear Hd.
      refine (Hfin _ _ _ _ _ _ _ Ha); clear Hfin Ha; clearbody up down;
        try split; intros; first [reflexivity | discriminate | tauto | exfalso; tauto].
    + assert (Hdn : ~ down) by (rewrite <- Hd; discriminate). clear Hd.
      refine (Hfin _ _ _ _ _ _ _ Ha); clear Hfin Ha; clearbody up down;
        try split; intros; first [reflexivity | discriminate | tauto | exfalso; tauto].
Qed.

End FpTrend.

(** ** From the trend to the plan *)

Section FpPipeline.
Local Open Scope Q_scope.

Variable talib_ATR : DataFrame -> outcome pyfloat.
Variable talib_ADX : DataFrame -> outcome pyfloat.
Variable rolling_mean_value : nat -> Series -> nat -> pyfloat.

(** The direction of the plan depends on the trend string alone. *)
Lemma fp_generate_direction (data : DataFrame) (close : Q) (trend : string) :
  iloc_last (map Close data) = Returned close ->
  exists levels : gmap string pyval,
    Fp.generate_entry_exit_levels talib_ATR data trend = Returned levels /\
    levels !! "direction" =
    Some (VStr (if String.eqb trend "Uptrend" then "LONG"
                else if String.eqb trend "Downtrend" then "SHORT"
                else "WAIT")).
Proof.
  intros Hc. unfold Fp.generate_entry_exit_levels.
  rewrite (current_price_of data close Hc). cbn [mbind outcome_bind].
  destruct (Engine.calculate_support_resistance data) as [sup res].
  destruct (String.eqb trend "Uptrend");
    [|destruct (String.eqb trend "Downtrend")];
    eexists; (split; [reflexivity|reflexivity]).
Qed.

(** X5. The page flow [trend, _ = analyze_trend(data)] followed by
    [generate_entry_exit_levels(data, trend)] on a non-empty series
    always returns a plan, whatever talib returns or raises and
    whatever doubles the rolling means hold: the plan is LONG exactly
    when the trend is "Uptrend",
    SHORT exactly when it is "Downtrend", and a WAIT plan for "Sideways"
    and "Insufficient Data", so always below 50 bars. *)
Theorem X5_plan_follows_trend (data : DataFrame) (close : Q) :
  iloc_last (map Close data) = Returned close ->
  exists (trend : string) (strength : pyfloat)
         (levels : gmap string pyval) (direction : string),
    Fp.analyze_trend talib_ADX rolling_mean_value data = Returned (trend, strength) /\
    Fp.generate_entry_exit_levels talib_ATR data trend = Returned levels /\
    levels !! "direction" = Some (VStr direction) /\
    (direction = "LONG"%string <-> trend = "Uptrend"%string) /\
    (direction = "SHORT"%string <-> trend = "Downtrend"%string) /\
    (direction = "WAIT"%string <->
     trend = "Sideways"%string \/ trend = "Insufficient Data"%string) /\
    ((length data < 50)%nat -> direction = "WAIT"%string).
Proof.
  intros Hc.
  destruct (Nat.lt_ge_cases (length data) 50) as [Hlen|Hlen].
  - destruct (fp_generate_direction data close "Insufficient Data" Hc)
      as (levels & Hg & Hd).
    exists "Insufficient Data"%string, (Fin 0), levels, "WAIT"%string.
    split; [apply fp_analyze_trend_short; exact Hlen|].
    split; [exact Hg|]. split; [exact Hd|].
    repeat split; intros; try reflexivity; try discriminate; tauto.
  - destruct (fp_analyze_trend_cases talib_ADX rolling_mean_value data Hlen)
      as (close' & _ & Ha).
    cbv zeta in Ha.
    destruct (fgtb (Fin close') _ && fgtb _ _).
    + destruct (fp_generate_direction data close "Uptrend" Hc) as (levels & Hg & Hd).
      do 2 eexists. exists levels, "LONG"%string.
      split; [exact Ha|]. split; [exact Hg|]. split; [exact Hd|].
      repeat split; intros; try reflexivity; try discriminate; try lia;
        match goal with H : _ \/ _ |- _ => destruct H; discriminate end.
    + destruct (fltb (Fin close') _ && fltb _ _).
      * destruct (fp_generate_direction data close "Downtrend" Hc)
          as (levels & Hg & Hd).
        do 2 eexists. exists levels, "SHORT"%string.
        split; [exact Ha|]. split; [exact Hg|]. split; [exact Hd|].
        repeat split; intros; try reflexivity; try discriminate; try lia;
          match goal with H : _ \/ _ |- _ => destruct H; discriminate end.
      * destruct (fp_generate_direction data close "Sideways" Hc)
          as (levels & Hg & Hd).
        do 2 eexists. exists levels, "WAIT"%string.
        split; [exact Ha|]. split; [exact Hg|]. split; [exact Hd|].
        repeat split; intros; try reflexivity; try discriminate; try lia.
        left. reflexivity.
Qed.

End FpPipeline.


(** ** Level Generator over doubles *)

Section FpLevels.
Local Open Scope Q_scope.

Variable talib_ATR : DataFrame -> outcome pyfloat.

Let generate := Fp.generate_entry_exit_levels talib_ATR.
Let atr_used := Fp.atr_or_fallback talib_ATR.









End FpLevels.


(** ** RSI over doubles *)

Section FpRsi.
Local Open Scope Q_scope.

Variable rolling_mean_value : nat -> Series -> nat -> pyfloat.

Lemma fp_diff_from_changes (p : Q) (r : list Q) :
  Fp.diff_from (Fin p) (map Fin r) = price_changes p r.
Proof.
  revert p. induction r as [|q r IH]; intros p; [reflexivity|].
  cbn [map Fp.diff_from price_changes]. rewrite IH. reflexivity.
Qed.

(** The Series that [calculate_rsi] averages are the per-bar gains and
    losses of the prices. *)
Lemma fp_gain_series (ps : list Q) :
  where_ (fun d => fgtb d (Fin 0)) (Fin 0) (Fp.diff (map Fin ps)) = price_gains ps.
Proof.
  destruct ps as [|p r]; [reflexivity|].
  cbn [map Fp.diff where_ price_gains]. rewrite fp_diff_from_changes.
  reflexivity.
Qed.

Lemma fp_loss_series (ps : list Q) :
  sneg (where_ (fun d => fltb d (Fin 0)) (Fin 0) (Fp.diff (map Fin ps))) =
  price_losses ps.
Proof.
  destruct ps as [|p r]; [reflexivity|].
  cbn [map Fp.diff where_ sneg price_losses]. rewrite fp_diff_from_changes.
  f_equal. unfold sneg, where_. rewrite map_map. reflexivity.
Qed.

Lemma price_changes_length (p : Q) (r : list Q) :
  length (price_changes p r) = length r.
Proof.
  revert p. induction r as [|q r IH]; intros p; [reflexivity|].
  cbn [price_changes length]. rewrite IH. reflexivity.
Qed.

Lemma price_gains_length (ps : list Q) : length (price_gains ps) = length ps.
Proof.
  destruct ps as [|p r]; [reflexivity|].
  cbn [price_gains length]. rewrite length_map, price_changes_length. reflexivity.
Qed.

Lemma price_losses_length (ps : list Q) : length (price_losses ps) = length ps.
Proof.
  destruct ps as [|p r]; [reflexivity|].
  cbn [price_losses length]. rewrite length_map, price_changes_length. reflexivity.
Qed.

Lemma fp_rolling_mean_at (w : nat) (xs : Series) (i : nat) :
  (w <= i + 1)%nat -> (i < length xs)%nat ->
  iloc (Fp.rolling_mean rolling_mean_value w xs) i =
  Returned (rolling_mean_value w xs i).
Proof.
  intros Hi Hlen. unfold iloc, Fp.rolling_mean.
  rewrite nth_error_map, nth_error_seq.
  assert (Hb : (i <? length xs)%nat = true) by (apply Nat.ltb_lt; lia).
  rewrite Hb. cbn [option_map Nat.add].
  assert (Hb' : (i + 1 <? w)%nat = false) by (apply Nat.ltb_ge; lia).
  rewrite Hb'. reflexivity.
Qed.

Lemma fp_sdiv_at (xs ys : Series) (i : nat) (x y : pyfloat) :
  iloc xs i = Returned x -> iloc ys i = Returned y ->
  iloc (Fp.sdiv xs ys) i = Returned (Ieee.fdiv x y).
Proof.
  unfold iloc. revert ys i. induction xs as [|a xs IH]; intros ys i Hx Hy.
  - destruct i; discriminate.
  - destruct ys as [|b ys]; [destruct i; discriminate|].
    destruct i as [|i]; cbn [Fp.sdiv nth_error] in *.
    + injection Hx as <-. injection Hy as <-. reflexivity.
    + apply IH; assumption.
Qed.

(** The RSI formula on finite, non-negative averages that are not both
    zero, every operation rounded. *)
Lemma fp_rsi_formula (g l : Q) :
  0 <= g -> 0 <= l -> ~ (g == 0 /\ l == 0) ->
  exists r,
    Ieee.fsub (Fin 100)
      (Ieee.fdiv (Fin 100) (Ieee.fadd (Fin 1) (Ieee.fdiv (Fin g) (Fin l)))) = Fin r /\
    0 <= r /\ r <= 100 /\ (l == 0 -> r == 100) /\ (g == 0 -> r == 0).
Proof.
  intros Hg Hl Hnd.
  assert (Hlast : forall z : Q, 0 <= z -> z <= 100 ->
            exists r, Ieee.fsub (Fin 100) (Fin z) = Fin r /\ 0 <= r /\ r <= 100 /\
                      (z == 0 -> r == 100) /\ (z == 100 -> r == 0)).
  { intros z Z0 Z1.
    change (Ieee.fsub (Fin 100) (Fin z)) with (Ieee.round64 (100 + - z)).
    destruct (round64_between 0 100 (100 + - z) double_0 double_100)
      as (r & Hr & R0 & R1); [lra|lra|].
    exists r. split; [exact Hr|]. split; [exact R0|]. split; [exact R1|].
    split; intros E.
    - destruct (round64_double 100 (100 + - z) double_100) as (r' & Hr' & E');
        [lra|]. rewrite Hr in Hr'. injection Hr' as <-. exact E'.
    - destruct (round64_double 0 (100 + - z) double_0) as (r' & Hr' & E');
        [lra|]. rewrite Hr in Hr'. injection Hr' as <-. exact E'. }
  destruct (Qeq_bool l 0) eqn:El.
  - apply Qeq_bool_iff in El.
    assert (Hgp : 0 < g).
    { apply Qle_neq_lt; [exact Hg|]. intros E. apply Hnd. split; lra. }
    assert (E : Ieee.fdiv (Fin g) (Fin l) = PInf).
    { cbn [Ieee.fdiv]. rewrite (proj2 (Qeq_bool_iff l 0) El).
      rewrite (Qcompare_0_pos g Hgp). reflexivity. }
    rewrite E. cbn [Ieee.fadd Num.fadd Ieee.fdiv Num.fdiv].
    destruct (Hlast 0 ltac:(lra) ltac:(lra)) as (r & Hr & R0 & R1 & Z & _).
    exists r. split; [exact Hr|]. split; [exact R0|]. split; [exact R1|].
    split; [intros _; apply Z; reflexivity|]. intros E0. exfalso. lra.
  - assert (El' := El). apply Qeq_bool_false in El'.
    assert (Hlp : 0 < l).
    { apply Qle_neq_lt; [exact Hl|]. intros E. apply El'. lra. }
    assert (Hq : 0 <= g / l) by (apply Qle_shift_div_l; [exact Hlp|lra]).
    cbn [Ieee.fdiv]. rewrite El.
    pose proof (round64_ge_double 0 (g / l) double_0 Hq) as Hrs.
    assert (Hz : g == 0 ->
                 exists r, Ieee.round64 (g / l) = Fin r /\ r == 0).
    { intros E. apply round64_double; [exact double_0|].
      rewrite E. field. exact El'. }
    destruct (Ieee.round64 (g / l)) as [rs| | |] eqn:Ers; cbn [fle] in Hrs;
      try tauto.
    + cbn [Ieee.fadd].
      pose proof (round64_ge_double 1 (1 + rs) double_1 ltac:(lra)) as Hk.
      assert (Hk1 : rs == 0 ->
                    exists k, Ieee.round64 (1 + rs) = Fin k /\ k == 1).
      { intros E. apply round64_double; [exact double_1|lra]. }
      destruct (Ieee.round64 (1 + rs)) as [k| | |] eqn:Ek; cbn [fle] in Hk;
        try tauto.
      * cbn [Ieee.fdiv].
        assert (Hkn : Qeq_bool k 0 = false) by (apply Qeq_bool_false; lra).
        rewrite Hkn.
        assert (Hk0 : 0 < k) by lra.
        destruct (round64_between 0 100 (100 / k) double_0 double_100)
          as (z & Hz' & Z0 & Z1).
        { apply Qle_shift_div_l; [exact Hk0|lra]. }
        { apply Qle_shift_div_r; [exact Hk0|lra]. }
        rewrite Hz'.
        destruct (Hlast z Z0 Z1) as (r & Hr & R0 & R1 & _ & Z100).
        exists r. split; [exact Hr|]. split; [exact R0|]. split; [exact R1|].
        split; [intros E; exfalso; lra|].
        intros E. apply Z100.
        destruct (Hz E) as (r0 & Hr0 & E0). injection Hr0 as <-.
        destruct (Hk1 E0) as (k0 & Hk0' & E1). injection Hk0' as <-.
        destruct (round64_double 100 (100 / k) double_100) as (z0 & Hz0 & E2).
        { rewrite E1. field. }
        rewrite Hz' in Hz0. injection Hz0 as <-. exact E2.
      * cbn [Ieee.fdiv Num.fdiv].
        destruct (Hlast 0 ltac:(lra) ltac:(lra)) as (r & Hr & R0 & R1 & _ & _).
        exists r. split; [exact Hr|]. split; [exact R0|]. split; [exact R1|].
        split; [intros E; exfalso; lra|].
        intros E. destruct (Hk1 ltac:(destruct (Hz E) as (r0 & Hr0 & E0);
                                      injection Hr0 as <-; exact E0))
          as (k0 & Hk0 & _). discriminate.
    + cbn [Ieee.fadd Num.fadd Ieee.fdiv Num.fdiv].
      destruct (Hlast 0 ltac:(lra) ltac:(lra)) as (r & Hr & R0 & R1 & _ & _).
      exists r. split; [exact Hr|]. split; [exact R0|]. split; [exact R1|].
      split; [intros E; exfalso; lra|].
      intros E. destruct (Hz E) as (r0 & Hr0 & _). discriminate.
Qed.

(** C3. RSI range over doubles: at an index with a full window, let g
    and l be the doubles that the rolling mean holds for the per-bar gains
    and the per-bar losses of the prices.  If they are finite, not
    negative and not both zero, the RSI is a number in [0, 100]; it is
    100 when l = 0, and 0 when g = 0. *)
Theorem C3_rsi_range (ps : list Q) (period i : nat) (g l : Q) :
  (1 <= period)%nat -> (period <= i + 1)%nat -> (i < length ps)%nat ->
  rolling_mean_value period (price_gains ps) i = Fin g ->
  rolling_mean_value period (price_losses ps) i = Fin l ->
  0 <= g -> 0 <= l -> ~ (g == 0 /\ l == 0) ->
  iloc (Fp.gain rolling_mean_value (map Fin ps) period) i = Returned (Fin g) /\
  iloc (Fp.loss rolling_mean_value (map Fin ps) period) i = Returned (Fin l) /\
  exists r : Q,
    iloc (Fp.calculate_rsi rolling_mean_value (map Fin ps) period) i
    = Returned (Fin r) /\
    0 <= r /\ r <= 100 /\ (l == 0 -> r == 100) /\ (g == 0 -> r == 0).
Proof.
  intros Hp Hi Hlen Eg El Hg Hl Hnd.
  assert (HG : iloc (Fp.gain rolling_mean_value (map Fin ps) period) i
               = Returned (Fin g)).
  { unfold Fp.gain. cbv zeta. rewrite fp_gain_series.
    rewrite fp_rolling_mean_at by (rewrite ?price_gains_length; lia).
    rewrite Eg. reflexivity. }
  assert (HL : iloc (Fp.loss rolling_mean_value (map Fin ps) period) i
               = Returned (Fin l)).
  { unfold Fp.loss. cbv zeta. rewrite fp_loss_series.
    rewrite fp_rolling_mean_at by (rewrite ?price_losses_length; lia).
    rewrite El. reflexivity. }
  split; [exact HG|]. split; [exact HL|].
  destruct (fp_rsi_formula g l Hg Hl Hnd) as (r & Hr & R).
  exists r. split; [|exact R].
  unfold Fp.calculate_rsi. cbv zeta.
  pose proof (fp_sdiv_at _ _ i _ _ HG HL) as Hrs.
  unfold iloc in *. rewrite nth_error_map.
  destruct (nth_error (Fp.sdiv _ _) i) as [x|]; [|discriminate].
  injection Hrs as ->. rewrite <- Hr. reflexivity.
Qed.

End FpRsi.


(** ** Instances over doubles *)

Section FpInstances.
Local Open Scope Q_scope.

(** Sixty rising bars, the rolling means by rounded summation and ADX
    30: an "Uptrend" of strength 30. *)
Lemma C1_trend_classifier_contract_witness :
  (50 <= length (rising 60))%nat /\
  Fp.analyze_trend (adx_is (Fin 30)) windowed_mean (rising 60) =
  Returned ("Uptrend"%string, Fin 30).
Proof.
  assert (Hlen : (50 <= length (rising 60))%nat) by (vm_compute; lia).
  split; [exact Hlen|].
  destruct (proj2 (C1_trend_classifier_contract (adx_is (Fin 30)) windowed_mean
                     (rising 60)) Hlen)
    as (close & trend & strength & Hc & Ha & Hup & _ & _ & Hs & _).
  cbv zeta in Hup, Hs.
  assert (Hclose : close = 160) by (vm_compute in Hc; congruence).
  subst close.
  assert (Hu : fgtb (Fin 160)
                 (windowed_mean 20 (col Close (rising 60)) (length (rising 60) - 1))
               = true /\
               fgtb (windowed_mean 20 (col Close (rising 60)) (length (rising 60) - 1))
                    (windowed_mean 50 (col Close (rising 60)) (length (rising 60) - 1))
               = true)
    by (split; vm_compute; reflexivity).
  rewrite Ha. rewrite (proj2 Hup Hu). rewrite (Hs (or_introl Hu)).
  reflexivity.
Defined.





(** Twenty rising bars: an average gain of 1 and no loss give 100. *)
Lemma C3_rsi_range_witness :
  exists r : Q,
    iloc (Fp.calculate_rsi windowed_mean (map Fin (map Close (rising 20))) 14) 19
    = Returned (Fin r) /\ r == 100.
Proof.
  destruct (C3_rsi_range windowed_mean (map Close (rising 20)) 14 19 1 0)
    as (_ & _ & r & Hr & _ & _ & H100 & _).
  - lia.
  - lia.
  - vm_compute. lia.
  - vm_compute. reflexivity.
  - vm_compute. reflexivity.
  - discriminate.
  - discriminate.
  - intros [E _]. discriminate E.
  - exists r. split; [exact Hr|]. apply H100. reflexivity.
Defined.

(** Thirteen closes at 1.0, a dip by 2^-53, then a close at 3.0: the
    average loss is positive and the RSI is exactly 100. *)
Lemma C3_counterexample :
  exists g l r : Q,
    windowed_mean 14 (price_gains dip_then_jump) 14 = Fin g /\
    windowed_mean 14 (price_losses dip_then_jump) 14 = Fin l /\
    iloc (Fp.calculate_rsi windowed_mean (map Fin dip_then_jump) 14) 14
    = Returned (Fin r) /\
    0 < g /\ 0 < l /\ ~ hundred_only_without_loss g l r.
Proof.
  exists (2573485501354569 # 18014398509481984),
         (2573485501354569 # 324518553658426726783156020576256), 100.
  split; [vm_compute; reflexivity|]. split; [vm_compute; reflexivity|].
  split; [vm_compute; reflexivity|]. split; [reflexivity|]. split; [reflexivity|].
  unfold hundred_only_without_loss. intros [H _].
  destruct (H ltac:(reflexivity)) as [E _]. discriminate E.
Qed.

(** Sixty rising bars: the trend is "Uptrend" and the plan is LONG. *)
Lemma X5_plan_follows_trend_witness :
  exists (trend : string) (strength : pyfloat) (levels : gmap string pyval),
    Fp.analyze_trend (adx_is (Fin 30)) windowed_mean (rising 60)
    = Returned (trend, strength) /\
    Fp.generate_entry_exit_levels (atr_is (Fin 5)) (rising 60) trend
    = Returned levels /\
    trend = "Uptrend"%string /\
    levels !! "direction" = Some (VStr "LONG").
Proof.
  assert (Hc : iloc_last (map Close (rising 60)) = Returned 160)
    by (vm_compute; reflexivity).
  destruct (X5_plan_follows_trend (atr_is (Fin 5)) (adx_is (Fin 30)) windowed_mean
              (rising 60) 160 Hc)
    as (trend & strength & levels & direction & Ht & Hg & Hd & Hlong & _).
  assert (Hlen : (50 <= length (rising 60))%nat) by (vm_compute; lia).
  destruct (fp_analyze_trend_cases (adx_is (Fin 30)) windowed_mean (rising 60) Hlen)
    as (close & Hc' & Hup).
  cbv zeta in Hup.
  assert (Hclose : close = 160) by (vm_compute in Hc'; congruence).
  subst close.
  assert (Hu : fgtb (Fin 160)
                 (windowed_mean 20 (col Close (rising 60)) (length (rising 60) - 1))
               && fgtb (windowed_mean 20 (col Close (rising 60))
                          (length (rising 60) - 1))
                       (windowed_mean 50 (col Close (rising 60))
                          (length (rising 60) - 1))
               = true)
    by (vm_compute; reflexivity).
  rewrite Hu in Hup.
  assert (E : trend = "Uptrend"%string) by congruence.
  exists trend, strength, levels. split; [exact Ht|]. split; [exact Hg|].
  split; [exact E|]. rewrite Hd. rewrite (proj2 Hlong E). reflexivity.
Defined.

End FpInstances.

(** ** The signal endpoint and its table *)

Section FpBackend.
Local Open Scope Q_scope.
Import Signal.

Variable rolling_mean_value : nat -> Series -> nat -> pyfloat.
Variable sqlite_insert : list SignalRow -> SignalRow -> outcome unit.

Lemma fp_rolling_mean_length (w : nat) (xs : Series) :
  length (Fp.rolling_mean rolling_mean_value w xs) = length xs.
Proof. unfold Fp.rolling_mean. rewrite length_map, length_seq. reflexivity. Qed.

Lemma fp_diff_from_length (prev : pyfloat) (xs : Series) :
  length (Fp.diff_from prev xs) = length xs.
Proof.
  revert prev. induction xs as [|x xs IH]; intros prev; simpl; [reflexivity|].
  rewrite IH. reflexivity.
Qed.

Lemma fp_diff_length (xs : Series) : length (Fp.diff xs) = length xs.
Proof.
  destruct xs as [|x xs]; simpl; [reflexivity|].
  rewrite fp_diff_from_length. reflexivity.
Qed.

Lemma fp_sdiv_length (xs ys : Series) :
  length xs = length ys -> length (Fp.sdiv xs ys) = length xs.
Proof.
  revert ys. induction xs as [|x xs IH]; intros [|y ys] H; simpl in *;
    try reflexivity; try discriminate.
  rewrite IH by congruence. reflexivity.
Qed.

Lemma fp_calculate_rsi_length (prices : Series) (period : nat) :
  length (Fp.calculate_rsi rolling_mean_value prices period) = length prices.
Proof.
  unfold Fp.calculate_rsi, Fp.gain, Fp.loss, sneg, where_. cbv zeta.
  rewrite length_map, fp_sdiv_length;
    rewrite ?fp_rolling_mean_length, ?length_map, ?fp_diff_length; reflexivity.
Qed.

(** X19. What the backend endpoint does to the [signals] table,
    whatever the indicators are and whether or not the database accepts
    the write.  An [{'error': ...}] answer and a [None] answer leave the
    table as it was, and [None] means that the history was empty.  A
    signal answer means that the write went through: exactly one row was
    appended, with the answer's own symbol, signal, confidence and price
    (the last close), the signal and confidence being one of BUY 0.8,
    SELL 0.7, HOLD 0.5. *)
Theorem X19_backend_signal_row
    (history : string -> outcome DataFrame) (symbol : string)
    (db : list SignalRow) :
  match Backend.generate_trading_signal rolling_mean_value sqlite_insert
          history symbol db with
  | (ErrorData e, db') => db' = db
  | (NoData, db') => history symbol = Returned [] /\ db' = db
  | (SignalData sym signal confidence price _ _ _, db') =>
      sym = symbol /\
      sqlite_insert db (mkRow symbol signal confidence price) = Returned tt /\
      db' = db ++ [mkRow symbol signal confidence price] /\
      (exists hist,
         history symbol = Returned hist /\
         iloc_last (col Close hist) = Returned price) /\
      (signal = "BUY"%string /\ confidence = 8 # 10 \/
       signal = "SELL"%string /\ confidence = 7 # 10 \/
       signal = "HOLD"%string /\ confidence = 5 # 10)
  end.
Proof.
  unfold Backend.generate_trading_signal.
  destruct (history symbol) as [hist|e] eqn:Hh; [|reflexivity].
  destruct hist as [|b hist]; [split; reflexivity|].
  assert (Hz : (length (b :: hist) =? 0)%nat = false) by reflexivity.
  rewrite Hz. cbv zeta.
  destruct (iloc_last (col Close (b :: hist))) as [price|e] eqn:Hc;
    [|reflexivity].
  cbn [mbind outcome_bind].
  destruct (iloc_last (Fp.rolling_mean rolling_mean_value 20 _)) as [s20|e];
    [|reflexivity].
  cbn [mbind outcome_bind].
  destruct (iloc_last (Fp.rolling_mean rolling_mean_value 50 _)) as [s50|e];
    [|reflexivity].
  cbn [mbind outcome_bind].
  destruct (iloc_last (Fp.calculate_rsi rolling_mean_value _ 14)) as [rsi|e];
    [|reflexivity].
  cbn [mbind outcome_bind].
  pose proof (signal_logic_values price s20 s50 rsi) as Hv.
  destruct (signal_logic price s20 s50 rsi) as [signal confidence].
  unfold Backend.save_signal.
  destruct (sqlite_insert db (mkRow symbol signal confidence price)) as [[]|e] eqn:Hw;
    [|reflexivity].
  split; [reflexivity|]. split; [exact Hw|]. split; [reflexivity|].
  split; [|exact Hv].
  exists (b :: hist). split; [reflexivity|exact Hc].
Qed.

(** A history that can be downloaded and a database that takes the
    write give a signal, never an error. *)
Lemma generate_trading_signal_answers
    (history : string -> outcome DataFrame) (symbol : string)
    (db : list SignalRow) (hist : DataFrame) :
  history symbol = Returned hist -> (0 < length hist)%nat ->
  (forall row, sqlite_insert db row = Returned tt) ->
  exists signal confidence price sma_20 sma_50 rsi,
    Backend.generate_trading_signal rolling_mean_value sqlite_insert
      history symbol db =
    (SignalData symbol signal confidence price sma_20 sma_50 rsi,
     db ++ [mkRow symbol signal confidence price]).
Proof.
  intros Hh Hpos Hw. unfold Backend.generate_trading_signal. rewrite Hh.
  assert (Hz : (length hist =? 0)%nat = false) by (apply Nat.eqb_neq; lia).
  rewrite Hz. cbv zeta.
  assert (Hl : (0 < length (col Close hist))%nat)
    by (unfold col; rewrite length_map; exact Hpos).
  destruct (iloc_last_nonempty (col Close hist) Hl) as [price ->].
  destruct (iloc_last_nonempty (Fp.rolling_mean rolling_mean_value 20 (col Close hist)))
    as [s20 ->]; [rewrite fp_rolling_mean_length; exact Hl|].
  destruct (iloc_last_nonempty (Fp.rolling_mean rolling_mean_value 50 (col Close hist)))
    as [s50 ->]; [rewrite fp_rolling_mean_length; exact Hl|].
  destruct (iloc_last_nonempty (Fp.calculate_rsi rolling_mean_value (col Close hist) 14))
    as [rsi ->]; [rewrite fp_calculate_rsi_length; exact Hl|].
  cbn [mbind outcome_bind].
  destruct (signal_logic price s20 s50 rsi) as [signal confidence].
  unfold Backend.save_signal. rewrite Hw.
  do 6 eexists. reflexivity.
Qed.

End FpBackend.

(** ** The quick-start signal over doubles *)

Section FpSignal.
Local Open Scope Q_scope.

Variable rolling_mean_value : nat -> Series -> nat -> pyfloat.

(** X15. quick_start.py: on fewer than 50 bars [generate_signal]
    answers HOLD with confidence 0.5 and no indicators.  From 50 bars on
    it answers BUY (0.8) exactly when close > SMA(20) > SMA(50) and
    RSI < 70, SELL (0.7) exactly when close < SMA(20) < SMA(50) and
    RSI > 30, and HOLD (0.5) otherwise, and reports the four values it
    decided on; SMA(20) and SMA(50) are the doubles that the rolling
    means hold at the last bar and RSI is the last value of
    [calculate_rsi], and the comparisons are those of doubles (false on
    NaN). *)
Theorem X15_signal_decision (data : DataFrame) :
  let hist := Fp.get_historical_data rolling_mean_value (Returned data) in
  ((length data < 50)%nat ->
   Signal.generate_signal hist = Returned ("HOLD"%string, 5 # 10, ∅)) /\
  ((50 <= length data)%nat ->
   exists (close : Q) (rsi : pyfloat) (signal : string) (confidence : Q)
          (indicators : gmap string pyfloat),
     iloc_last (map Close data) = Returned close /\
     iloc_last (Fp.calculate_rsi rolling_mean_value (col Close data) 14) =
       Returned rsi /\
     Signal.generate_signal hist = Returned (signal, confidence, indicators) /\
     let sma_20 := rolling_mean_value 20 (col Close data) (length data - 1) in
     let sma_50 := rolling_mean_value 50 (col Close data) (length data - 1) in
     let buy := (fgtb (Fin close) sma_20 = true /\ fgtb sma_20 sma_50 = true) /\
                fltb rsi (Fin 70) = true in
     let sell := (fltb (Fin close) sma_20 = true /\ fltb sma_20 sma_50 = true) /\
                 fgtb rsi (Fin 30) = true in
     (signal = "BUY"%string <-> buy) /\
     (signal = "SELL"%string <-> sell) /\
     (signal = "HOLD"%string <-> ~ buy /\ ~ sell) /\
     (signal = "BUY"%string -> confidence = 8 # 10) /\
     (signal = "SELL"%string -> confidence = 7 # 10) /\
     (signal = "HOLD"%string -> confidence = 5 # 10) /\
     indicators !! "price" = Some (Fin close) /\
     indicators !! "sma_20" = Some sma_20 /\
     indicators !! "sma_50" = Some sma_50 /\
     indicators !! "rsi" = Some rsi).
Proof.
  cbv zeta. split.
  { intros Hshort. unfold Signal.generate_signal, Fp.get_historical_data.
    cbn [Signal.bars].
    assert (Hb : (length data <? 50)%nat = true) by (apply Nat.ltb_lt; lia).
    rewrite Hb, orb_true_r. reflexivity. }
  intros Hlen.
  assert (Hl : length (col Close data) = length data)
    by (unfold col; apply length_map).
  destruct (iloc_last_nonempty (map Close data)) as [close Hc];
    [rewrite length_map; lia|].
  destruct (iloc_last_nonempty
              (Fp.calculate_rsi rolling_mean_value (col Close data) 14))
    as [rsi Hr]; [rewrite fp_calculate_rsi_length; lia|].
  exists close, rsi.
  set (sma_20 := rolling_mean_value 20 (col Close data) (length data - 1)).
  set (sma_50 := rolling_mean_value 50 (col Close data) (length data - 1)).
  assert (Hg : Signal.generate_signal
                 (Fp.get_historical_data rolling_mean_value (Returned data)) =
               Returned
                 (let '(signal, confidence) :=
                    Signal.signal_logic (Fin close) sma_20 sma_50 rsi in
                  (signal, confidence,
                   list_to_map [("price"%string, Fin close); ("sma_20"%string, sma_20);
                                ("sma_50"%string, sma_50); ("rsi"%string, rsi)]))).
  { unfold Signal.generate_signal, Fp.get_historical_data.
    cbn [Signal.bars Signal.SMA_20 Signal.SMA_50 Signal.RSI].
    assert (Hz : (length data =? 0)%nat = false) by (apply Nat.eqb_neq; lia).
    assert (Hb : (length data <? 50)%nat = false) by (apply Nat.ltb_ge; lia).
    rewrite Hz, Hb. cbn [orb].
    rewrite (current_price_of data close Hc). cbn [mbind outcome_bind].
    rewrite !fp_rolling_mean_last by lia. rewrite Hl.
    assert (H20 : (length data <? 20)%nat = false) by (apply Nat.ltb_ge; lia).
    rewrite H20, Hb. cbn [mbind outcome_bind]. rewrite Hr. cbn [mbind outcome_bind].
    fold sma_20 sma_50.
    destruct (Signal.signal_logic _ _ _ _). reflexivity. }
  unfold Signal.signal_logic in Hg.
  set (B := fgtb (Fin close) sma_20 && fgtb sma_20 sma_50 && fltb rsi (Fin 70)) in Hg.
  set (S := fltb (Fin close) sma_20 && fltb sma_20 sma_50 && fgtb rsi (Fin 30)) in Hg.
  set (buy := (fgtb (Fin close) sma_20 = true /\ fgtb sma_20 sma_50 = true) /\
              fltb rsi (Fin 70) = true).
  set (sell := (fltb (Fin close) sma_20 = true /\ fltb sma_20 sma_50 = true) /\
               fgtb rsi (Fin 30) = true).
  assert (HB : B = true <-> buy).
  { unfold B, buy. rewrite !andb_true_iff. reflexivity. }
  assert (HS : S = true <-> sell).
  { unfold S, sell. rewrite !andb_true_iff. reflexivity. }
  assert (Hex : buy -> sell -> False).
  { unfold buy, sell. intros [[H1 _] _] [[H2 _] _].
    unfold fgtb in H1. apply fltb_asym in H1. congruence. }
  clearbody buy sell sma_20 sma_50.
  destruct B.
  - assert (Hb : buy) by (apply HB; reflexivity). clear HB HS.
    do 3 eexists. split; [exact Hc|]. split; [exact Hr|]. split; [exact Hg|].
    repeat split; intros; try reflexivity; try discriminate; tauto.
  - assert (Hb : ~ buy) by (rewrite <- HB; discriminate). clear HB.
    destruct S.
    + assert (Hs : sell) by (apply HS; reflexivity). clear HS.
      do 3 eexists. split; [exact Hc|]. split; [exact Hr|]. split; [exact Hg|].
      repeat split; intros; try reflexivity; try discriminate; tauto.
    + assert (Hs : ~ sell) by (rewrite <- HS; discriminate). clear HS.
      do 3 eexists. split; [exact Hc|]. split; [exact Hr|]. split; [exact Hg|].
      repeat split; intros; try reflexivity; try discriminate; tauto.
Qed.

End FpSignal.

(** ** The volume status of the market context *)

Section FpVolume.
Local Open Scope Q_scope.

Variable rolling_mean_value : nat -> Series -> nat -> pyfloat.

Lemma literal_1_5 : Ieee.literal (15 # 10) = Fin (3 # 2).
Proof. vm_compute. reflexivity. Qed.

Lemma literal_0_5 : Ieee.literal (5 # 10) = Fin (1 # 2).
Proof. vm_compute. reflexivity. Qed.

Lemma double_1_5 : is_double (3 # 2).
Proof. exists (3 # 2). split; [vm_compute; reflexivity|reflexivity]. Qed.

Lemma double_0_5 : is_double (1 # 2).
Proof. exists (1 # 2). split; [vm_compute; reflexivity|reflexivity]. Qed.

Lemma fp_volume_status_long (data : DataFrame) (v : Q) :
  (20 <= length data)%nat ->
  iloc_last (map Volume data) = Returned v ->
  Fp.volume_status rolling_mean_value data =
  Returned
    (let ratio :=
       Ieee.fdiv (Fin v)
         (rolling_mean_value 20 (col Volume data) (length data - 1)) in
     if fgtb ratio (Fin (3 # 2)) then "High"%string
     else if fgtb ratio (Fin (1 # 2)) then "Normal"%string
     else "Low"%string).
Proof.
  intros Hlen Hv. unfold Fp.volume_status, Fp.volume_ratio.
  assert (Hl : length (col Volume data) = length data)
    by (unfold col; apply length_map).
  rewrite fp_rolling_mean_last by lia.
  rewrite Hl.
  assert (Hb : (length data <? 20)%nat = false) by (apply Nat.ltb_ge; lia).
  rewrite Hb. cbn [mbind outcome_bind].
  assert (Hc : iloc_last (col Volume data) = Returned (Fin v)).
  { unfold col. rewrite <- (map_map Volume Fin data). apply iloc_last_map. exact Hv. }
  rewrite Hc. cbn [mbind outcome_bind]. rewrite literal_1_5, literal_0_5. reflexivity.
Qed.

(** X22. The volume status of the market context.  With no bar the
    function raises IndexError.  With fewer than 20 bars the 20-bar
    average is NaN and the status is "Low", whatever the volume.  From 20
    bars on the status is "High", "Normal" or "Low", and for a positive
    average [avg] (the double that the rolling mean holds at the last
    bar) and the last volume [v]: "High" is given only when v exceeds 1.5
    times avg and "Normal" only when v exceeds 0.5 times avg, so that a
    volume of at most half the average is "Low"; and a volume of at least
    d times avg, for a double d above 1.5, is "High", and for a double d
    above 0.5, when v is at most 1.5 times avg, "Normal".  (Between 1.5
    times avg and the next double times avg the rounding of the division
    decides.) *)
Theorem X22_volume_status (data : DataFrame) :
  let status := Fp.volume_status rolling_mean_value data in
  (data = [] -> status = Raised IndexError) /\
  ((0 < length data < 20)%nat -> status = Returned "Low"%string) /\
  ((20 <= length data)%nat ->
   exists (v : Q) (s : string),
     iloc_last (map Volume data) = Returned v /\
     status = Returned s /\
     (s = "High"%string \/ s = "Normal"%string \/ s = "Low"%string) /\
     forall avg : Q,
       rolling_mean_value 20 (col Volume data) (length data - 1) = Fin avg ->
       0 < avg ->
       (s = "High"%string -> (3 # 2) * avg < v) /\
       (s = "Normal"%string -> (1 # 2) * avg < v) /\
       (v <= (1 # 2) * avg -> s = "Low"%string) /\
       (forall d, is_double d -> 3 # 2 < d -> d * avg <= v -> s = "High"%string) /\
       (forall d, is_double d -> 1 # 2 < d -> d * avg <= v ->
                  v <= (3 # 2) * avg -> s = "Normal"%string)).
Proof.
  cbv zeta. split; [|split].
  - intros ->. reflexivity.
  - intros [Hpos Hshort]. unfold Fp.volume_status, Fp.volume_ratio.
    assert (Hl : length (col Volume data) = length data)
      by (unfold col; apply length_map).
    rewrite fp_rolling_mean_last by lia.
    rewrite Hl.
    assert (Hb : (length data <? 20)%nat = true) by (apply Nat.ltb_lt; lia).
    rewrite Hb. cbn [mbind outcome_bind].
    destruct (iloc_last_nonempty (col Volume data)) as [x ->]; [lia|].
    cbn [mbind outcome_bind]. destruct x; reflexivity.
  - intros Hlen.
    destruct (iloc_last_nonempty (map Volume data)) as [v Hv];
      [rewrite length_map; lia|].
    rewrite (fp_volume_status_long data v Hlen Hv). cbv zeta.
    set (ratio := Ieee.fdiv _ _).
    exists v. eexists. split; [exact Hv|]. split; [reflexivity|].
    split.
    { destruct (fgtb ratio (Fin (3 # 2))); [left; reflexivity|].
      destruct (fgtb ratio (Fin (1 # 2))); [right; left|right; right]; reflexivity. }
    intros avg Ha Hpos.
    assert (Hr : ratio = Ieee.round64 (v / avg)).
    { unfold ratio. rewrite Ha. cbn [Ieee.fdiv].
      assert (Hz : Qeq_bool avg 0 = false).
      { destruct (Qeq_bool avg 0) eqn:E; [|reflexivity].
        apply Qeq_bool_iff in E. lra. }
      rewrite Hz. reflexivity. }
    clearbody ratio. subst ratio.
    assert (Hdiv_le : forall c, v <= c * avg -> v / avg <= c).
    { intros c H. apply Qle_shift_div_r; [exact Hpos|exact H]. }
    assert (Hdiv_ge : forall c, c * avg <= v -> c <= v / avg).
    { intros c H. apply Qle_shift_div_l; [exact Hpos|exact H]. }
    assert (Hhigh : fgtb (Ieee.round64 (v / avg)) (Fin (3 # 2)) = true ->
                    (3 # 2) * avg < v).
    { intros Hg. destruct (Qlt_le_dec ((3 # 2) * avg) v) as [H|H]; [exact H|].
      pose proof (round64_le_double (3 # 2) (v / avg) double_1_5 (Hdiv_le _ H)) as Hf.
      apply fle_fltb_false in Hf. unfold fgtb in Hg. congruence. }
    assert (Hnorm : fgtb (Ieee.round64 (v / avg)) (Fin (1 # 2)) = true ->
                    (1 # 2) * avg < v).
    { intros Hg. destruct (Qlt_le_dec ((1 # 2) * avg) v) as [H|H]; [exact H|].
      pose proof (round64_le_double (1 # 2) (v / avg) double_0_5 (Hdiv_le _ H)) as Hf.
      apply fle_fltb_false in Hf. unfold fgtb in Hg. congruence. }
    assert (Hup : forall c d, is_double d -> c < d -> d * avg <= v ->
                  fgtb (Ieee.round64 (v / avg)) (Fin c) = true).
    { intros c d Hd Hcd H. unfold fgtb. apply (fle_fltb_true c d); [exact Hcd|].
      apply round64_ge_double; [exact Hd|]. apply Hdiv_ge. exact H. }
    destruct (fgtb (Ieee.round64 (v / avg)) (Fin (3 # 2))) eqn:E1;
      [|destruct (fgtb (Ieee.round64 (v / avg)) (Fin (1 # 2))) eqn:E2].
    + pose proof (Hhigh eq_refl) as H1.
      split; [intros _; exact H1|]. split; [discriminate|].
      split; [intros H; lra|]. split; [reflexivity|].
      intros d _ _ _ H. lra.
    + pose proof (Hnorm eq_refl) as H2.
      split; [discriminate|]. split; [intros _; exact H2|].
      split; [intros H; lra|]. split; [|reflexivity].
      intros d Hd Hcd H. pose proof (Hup (3 # 2) d Hd Hcd H). congruence.
    + split; [discriminate|]. split; [discriminate|].
      split; [reflexivity|]. split.
      * intros d Hd Hcd H. pose proof (Hup (3 # 2) d Hd Hcd H). congruence.
      * intros d Hd Hcd H _. pose proof (Hup (1 # 2) d Hd Hcd H). congruence.
Qed.

End FpVolume.

(** ** Further evaluated instances *)

Section RevisedInstances.
Local Open Scope Q_scope.

(** An entry written at minute 0 for one minute is removed by the
    round at minute 2; the reader at minute 3 gets [None] with and
    without the round. *)
Lemma X13_cleanup_is_invisible_witness :
  Cache.cache (Cache.set_cache 0 "stock_AAPL" 7%nat 1 (Cache.mkStore ∅ ∅))
    !! "stock_AAPL" = Some 7%nat /\
  Cache.cache
    (Cache.cleanup_cache_round 2
       (Cache.set_cache 0 "stock_AAPL" 7%nat 1 (Cache.mkStore ∅ ∅)))
    !! "stock_AAPL" = None /\
  Cache.get_cached_data 3 "stock_AAPL" 5
    (Cache.cleanup_cache_round 2
       (Cache.set_cache 0 "stock_AAPL" 7%nat 1 (Cache.mkStore ∅ ∅)))
  = Cache.get_cached_data 3 "stock_AAPL" 5
      (Cache.set_cache 0 "stock_AAPL" 7%nat 1 (Cache.mkStore ∅ ∅)).
Proof.
  split; [reflexivity|]. split; [reflexivity|].
  assert (Hle : 2 <= 3) by discriminate.
  exact (X13_cleanup_is_invisible 2 3 "stock_AAPL" 5 _ Hle).
Defined.

(** Twenty bars of volume 1000 and a last bar of volume 1600: the
    ratio 1.6 is "High". *)
Lemma volume_status_high :
  Fp.volume_status windowed_mean (flat 19 100 ++ [mkBar 100 100 100 100 1600]) =
  Returned "High"%string.
Proof. vm_compute. reflexivity. Qed.

End RevisedInstances.
